(** * Chess Variant 64: the game controller and its rule engine

    A shallow embedding of the two versions of the game screen
    ([src/app/index.tsx], without a removal budget, and
    [src/unnamed/part_000], with a removal budget and a turn clock), of the
    callback of the clock component ([src/unnamed/part_001]), and of the rule
    engine the screens import from [@/utils/chessLogic]. *)

From stdpp Require Import base list strings gmap pretty.
From Stdlib Require Import ZArith Lia Ascii.

Open Scope Z_scope.

(** ** Data model ([@/types/chess]) *)

Inductive Player := white | black.

Inductive PieceType := king | queen | rook | bishop | knight | pawn.

Record Piece := mkPiece { type : PieceType; color : Player }.

Global Instance Player_eq_dec : EqDecision Player.
Proof. solve_decision. Defined.

Global Instance PieceType_eq_dec : EqDecision PieceType.
Proof. solve_decision. Defined.

Global Instance Piece_eq_dec : EqDecision Piece.
Proof. solve_decision. Defined.

(** [p === 'white' ? 'black' : 'white'] *)
Definition otherPlayer (p : Player) : Player :=
  match p with white => black | black => white end.

(** A position is the array [[row, col]]. *)
Definition Position : Type := Z * Z.

(** [board[row][col]] is a piece or [null]. *)
Definition Board : Type := list (list (option Piece)).

(** An object with one entry per player, [{ white: a, black: b }]. *)
Record PerPlayer (A : Type) := mkPerPlayer { forWhite : A; forBlack : A }.
Arguments mkPerPlayer {A} _ _.
Arguments forWhite {A} _.
Arguments forBlack {A} _.

(** [m[player]] *)
Definition getFor {A} (m : PerPlayer A) (p : Player) : A :=
  match p with white => forWhite m | black => forBlack m end.

(** [{ ...m, [player]: a }] *)
Definition setFor {A} (m : PerPlayer A) (p : Player) (a : A) : PerPlayer A :=
  match p with
  | white => mkPerPlayer a (forBlack m)
  | black => mkPerPlayer (forWhite m) a
  end.

(** The shape shared by [castlingRights] and [rookMoved]. *)
Record Sides := mkSides {
  whiteKingside : bool;
  whiteQueenside : bool;
  blackKingside : bool;
  blackQueenside : bool }.

(** The game state.  [removedSquares] is a [Set] of keys [`${row}-${col}`].
    The version without a budget has no [removalsUsed] and no [timeLeft]:
    its controller never reads or writes them, and they are carried along by
    the object spreads. *)
Record GameState := mkGameState {
  board : Board;
  currentPlayer : Player;
  selectedSquare : option Position;
  removedSquares : gset string;
  gameOver : bool;
  winner : option Player;
  removalsUsed : PerPlayer Z;
  timeLeft : PerPlayer Z;
  castlingRights : Sides;
  kingMoved : PerPlayer bool;
  rookMoved : Sides }.

(** The object spreads [{ ...prev, field: value }] used by the controller. *)
Definition withSelectedSquare (gs : GameState) (s : option Position) : GameState :=
  mkGameState (board gs) (currentPlayer gs) s (removedSquares gs) (gameOver gs)
    (winner gs) (removalsUsed gs) (timeLeft gs) (castlingRights gs)
    (kingMoved gs) (rookMoved gs).

Definition withTimeLeft (gs : GameState) (t : PerPlayer Z) : GameState :=
  mkGameState (board gs) (currentPlayer gs) (selectedSquare gs) (removedSquares gs)
    (gameOver gs) (winner gs) (removalsUsed gs) t (castlingRights gs)
    (kingMoved gs) (rookMoved gs).

Definition withOutcome (gs : GameState) (over : bool) (w : option Player) : GameState :=
  mkGameState (board gs) (currentPlayer gs) (selectedSquare gs) (removedSquares gs)
    over w (removalsUsed gs) (timeLeft gs) (castlingRights gs)
    (kingMoved gs) (rookMoved gs).

(** [{ ...updated, board, currentPlayer, selectedSquare: null, gameOver, winner }] *)
Definition withMove (updated : GameState) (b : Board) (next : Player)
    (over : bool) (w : option Player) : GameState :=
  mkGameState b next None (removedSquares updated) over w (removalsUsed updated)
    (timeLeft updated) (castlingRights updated) (kingMoved updated)
    (rookMoved updated).

Inductive ActionMode := move | remove.

Global Instance ActionMode_eq_dec : EqDecision ActionMode.
Proof. solve_decision. Defined.

(** The result of [makeMove]. *)
Module MoveResult.
Record t := mk { board : Board; isCastling : bool }.
End MoveResult.

(** The functions the screens import from [@/utils/chessLogic]. *)
Record ChessLogic := mkChessLogic {
  initializeBoard : Board;
  isValidMove : Board -> Position -> Position -> gset string -> GameState -> bool;
  makeMove : Board -> Position -> Position -> GameState -> MoveResult.t;
  isInCheck : Board -> Player -> gset string -> bool;
  isCheckmate : Board -> Player -> gset string -> GameState -> bool;
  updateCastlingRights : GameState -> Position -> Position -> GameState }.

(** The calls to [Alert.alert], by their title and occasion. *)
Inductive Alert :=
| LimiteAtteinte                 (* 'Limite atteinte' *)
| CaseDejaSupprimee              (* 'Erreur', 'Cette case est déjà supprimée' *)
| CaseOccupee                    (* 'Erreur', 'Impossible de supprimer une case occupée ...' *)
| MouvementInvalide              (* 'Mouvement invalide', '... laisserait votre roi en échec' *)
| RoqueEtMat (w : Player)        (* 'Roque réussi !', '... ont roqué et gagné !' *)
| EchecEtMat (w : Player)        (* 'Échec et mat !' *)
| RoqueReussi (p : Player)       (* 'Roque réussi !', '... ont roqué !' *)
| TempsEcoule (w : Player).      (* 'Temps écoulé !' *)

(** The alerts that tell the player an attempt was refused. *)
Definition isRejection (a : Alert) : bool :=
  match a with
  | LimiteAtteinte | CaseDejaSupprimee | CaseOccupee | MouvementInvalide => true
  | _ => false
  end.

(** What a handler does: it throws (a [TypeError] on [undefined[col]]), or it
    returns, leaving the component with a state and at most one alert. *)
Inductive Outcome (A : Type) :=
| Threw
| Returned (next : A) (alert : option Alert).
Arguments Threw {A}.
Arguments Returned {A} _ _.

(** The largest whole number the number type of the source holds exactly
    ([Number.MAX_SAFE_INTEGER]). *)
Definition MAX_SAFE_INTEGER : Z := 2 ^ 53 - 1.

(** A whole number the source holds exactly, and prints with all its
    digits. *)
Definition safeInteger (z : Z) : Prop :=
  - MAX_SAFE_INTEGER <= z <= MAX_SAFE_INTEGER.

(** [`${row}-${col}`] *)
Definition positionKey (row col : Z) : string :=
  pretty row +:+ "-" +:+ pretty col.

(** [a[i]] on an array: [undefined] outside of it. *)
Definition index {A} (l : list A) (i : Z) : option A :=
  if i <? 0 then None else l !! Z.to_nat i.

(** [board[row][col]]: [None] when [board[row]] is [undefined] and the access
    throws, and otherwise the piece, [null] or [undefined] found there (the
    last two both falsy, hence both [Some None]). *)
Definition getPiece (b : Board) (row col : Z) : option (option Piece) :=
  match index b row with
  | None => None
  | Some r => Some (match index r col with Some p => p | None => None end)
  end.

(** [piece && piece.color === player] *)
Definition ownedBy (player : Player) (p : option Piece) : bool :=
  match p with
  | Some pc => bool_decide (color pc = player)
  | None => false
  end.

(** The squares visited by [for toRow in 0..7, for toCol in 0..7]. *)
Definition allSquares : list Position :=
  r ← seqZ 0 8; c ← seqZ 0 8; [(r, c)].

Section Controller.
Context (L : ChessLogic).

(** The moves shown for a selected square: the nested loops that fill
    [moves] in the version with a budget. *)
Definition computePossibleMoves (gs : GameState) (position : Position) : list Position :=
  filter (fun to =>
    Is_true
      (if isValidMove L (board gs) position to (removedSquares gs) gs then
         let moveResult := makeMove L (board gs) position to gs in
         negb (isInCheck L (MoveResult.board moveResult) (currentPlayer gs)
                 (removedSquares gs))
       else false))
    allSquares.

(** The alert raised when a move is applied. *)
Definition moveAlert (mover : Player) (mate castling : bool) : option Alert :=
  if mate then
    if castling then Some (RoqueEtMat mover) else Some (EchecEtMat mover)
  else if castling then Some (RoqueReussi mover) else None.

(** The state set when the move [from -> to] is applied: castling rights
    updated, mate looked for on the new board for the next player. *)
Definition applyMove (gs : GameState) (from to : Position) : GameState * option Alert :=
  let moveResult := makeMove L (board gs) from to gs in
  let newBoard := MoveResult.board moveResult in
  let nextPlayer := otherPlayer (currentPlayer gs) in
  let updatedGameState := updateCastlingRights L gs from to in
  let mate := isCheckmate L newBoard nextPlayer (removedSquares gs) updatedGameState in
  (withMove updatedGameState newBoard nextPlayer mate
     (if mate then Some (currentPlayer gs) else None),
   moveAlert (currentPlayer gs) mate (MoveResult.isCastling moveResult)).
End Controller.

(** ** The screen with a removal budget and a turn clock
    ([src/unnamed/part_000], and [ChessTimer] of [src/unnamed/part_001]) *)

Module Budgeted.

(** [gameConfig] *)
Record GameConfig := mkGameConfig {
  timeLimit : Z;
  removalsPerPlayer : Z;
  gameStarted : bool }.

(** What [GameSetup] hands to [onSettingsChange]. *)
Record GameSettings := mkGameSettings {
  newTimeLimit : Z;
  newRemovalsPerPlayer : Z }.

(** The four [useState] cells of [ChessGame]. *)
Record App := mkApp {
  gameConfig : GameConfig;
  gameState : GameState;
  actionMode : ActionMode;
  possibleMoves : list Position }.

Definition withGameState (a : App) (gs : GameState) : App :=
  mkApp (gameConfig a) gs (actionMode a) (possibleMoves a).

Section Handlers.
Context (L : ChessLogic).

Definition initialGameState : GameState :=
  {| board := initializeBoard L;
     currentPlayer := white;
     selectedSquare := None;
     removedSquares := ∅;
     gameOver := false;
     winner := None;
     removalsUsed := mkPerPlayer 0 0;
     timeLeft := mkPerPlayer 300 300;
     castlingRights := mkSides true true true true;
     kingMoved := mkPerPlayer false false;
     rookMoved := mkSides false false false false |}.

Definition initialApp : App :=
  {| gameConfig := mkGameConfig 5 3 false;
     gameState := initialGameState;
     actionMode := move;
     possibleMoves := [] |}.

Definition handleTimeUp (a : App) (player : Player) : App * Alert :=
  let winner := match player with white => black | black => white end in
  (withGameState a (withOutcome (gameState a) true (Some winner)),
   TempsEcoule winner).

Definition handleTimeUpdate (a : App) (player : Player) (newTime : Z) : App :=
  withGameState a
    (withTimeLeft (gameState a) (setFor (timeLeft (gameState a)) player newTime)).

Definition handleSettingsChange (a : App) (settings : GameSettings) : App :=
  mkApp (mkGameConfig (newTimeLimit settings) (newRemovalsPerPlayer settings)
           (gameStarted (gameConfig a)))
    (gameState a) (actionMode a) (possibleMoves a).

Definition startGame (a : App) : App :=
  let timeInSeconds := timeLimit (gameConfig a) * 60 in
  mkApp (mkGameConfig (timeLimit (gameConfig a))
           (removalsPerPlayer (gameConfig a)) true)
    (withTimeLeft (gameState a) (mkPerPlayer timeInSeconds timeInSeconds))
    (actionMode a) (possibleMoves a).

Definition setActionMode (a : App) (m : ActionMode) : App :=
  mkApp (gameConfig a) (gameState a) m (possibleMoves a).

Definition resetGame (a : App) : App := initialApp.

(** The square pressed holds a piece of the player to move: select it and
    show its moves.  Otherwise [otherwise] is what is left. *)
Definition selectOr (a : App) (row col : Z) (otherwise : App) : Outcome App :=
  let gs := gameState a in
  match getPiece (board gs) row col with
  | None => Threw
  | Some piece =>
      if ownedBy (currentPlayer gs) piece then
        Returned (mkApp (gameConfig a) (withSelectedSquare gs (Some (row, col)))
                    (actionMode a) (computePossibleMoves L gs (row, col)))
                 None
      else Returned otherwise None
  end.

Definition handleSquarePress (a : App) (row col : Z) : Outcome App :=
  let gs := gameState a in
  if gameOver gs then Returned a None else
  let position : Position := (row, col) in
  let positionKey := positionKey row col in
  match actionMode a with
  | remove =>
      if getFor (removalsUsed gs) (currentPlayer gs)
           >=? removalsPerPlayer (gameConfig a)
      then Returned a (Some LimiteAtteinte)
      else if bool_decide (positionKey ∈ removedSquares gs)
      then Returned a (Some CaseDejaSupprimee)
      else
        match getPiece (board gs) row col with
        | None => Threw
        | Some (Some _) => Returned a (Some CaseOccupee)
        | Some None =>
            let newRemovedSquares := {[ positionKey ]} ∪ removedSquares gs in
            let newRemovalsUsed :=
              setFor (removalsUsed gs) (currentPlayer gs)
                (getFor (removalsUsed gs) (currentPlayer gs) + 1) in
            Returned
              (mkApp (gameConfig a)
                 (mkGameState (board gs) (otherPlayer (currentPlayer gs))
                    (selectedSquare gs) newRemovedSquares (gameOver gs)
                    (winner gs) newRemovalsUsed (timeLeft gs)
                    (castlingRights gs) (kingMoved gs) (rookMoved gs))
                 move [])
              None
        end
  | move =>
      match selectedSquare gs with
      | Some (selectedRow, selectedCol) =>
          if bool_decide (selectedRow = row) && bool_decide (selectedCol = col)
          then Returned (mkApp (gameConfig a) (withSelectedSquare gs None)
                           (actionMode a) [])
                        None
          else if isValidMove L (board gs) (selectedRow, selectedCol) position
                    (removedSquares gs) gs
          then
            let moveResult :=
              makeMove L (board gs) (selectedRow, selectedCol) position gs in
            if isInCheck L (MoveResult.board moveResult) (currentPlayer gs)
                 (removedSquares gs)
            then Returned a (Some MouvementInvalide)
            else
              let '(gs', alert) :=
                applyMove L gs (selectedRow, selectedCol) position in
              Returned (mkApp (gameConfig a) gs' move []) alert
          else
            selectOr a row col
              (mkApp (gameConfig a) (withSelectedSquare gs None) (actionMode a) [])
      | None => selectOr a row col a
      end
  end.

(** The callback [ChessTimer] runs every second while the game is on. *)
Definition timerTick (a : App) : App * option Alert :=
  let gs := gameState a in
  if gameOver gs then (a, None) else
  let currentTime := getFor (timeLeft gs) (currentPlayer gs) in
  if currentTime <=? 1 then
    let '(a', alert) := handleTimeUp a (currentPlayer gs) in (a', Some alert)
  else (handleTimeUpdate a (currentPlayer gs) (currentTime - 1), None).

(** What can happen to the screen: a press on a square, the two mode
    buttons, the clock, the set-up screen, the reset buttons.  Events are
    handled one at a time, each on the state the one before left (the [prev]
    of a state update is the [gameState] the handler closes over).  The
    buttons are taken to be live in every state, which only adds states. *)
Inductive Event :=
| Press (row col : Z)
| Toggle (m : ActionMode)
| Tick
| TimeUp (player : Player)
| Settings (s : GameSettings)
| Start
| Reset.

(** A handler that throws leaves the state as it was. *)
Definition handle (a : App) (e : Event) : App :=
  match e with
  | Press row col =>
      match handleSquarePress a row col with
      | Threw => a
      | Returned a' _ => a'
      end
  | Toggle m => setActionMode a m
  | Tick => fst (timerTick a)
  | TimeUp player => fst (handleTimeUp a player)
  | Settings s => handleSettingsChange a s
  | Start => startGame a
  | Reset => resetGame a
  end.

(** The screen after the events, from the first render on. *)
Definition run (es : list Event) : App := foldl handle initialApp es.

Definition reachable (a : App) : Prop := ∃ es, run es = a.
End Handlers.
End Budgeted.

(** ** The screen without a removal budget ([src/app/index.tsx]) *)

Module Plain.

(** The two [useState] cells of [ChessGame]. *)
Record App := mkApp {
  gameState : GameState;
  actionMode : ActionMode }.

Section Handlers.
Context (L : ChessLogic).

(** The literal has no [removalsUsed] and no [timeLeft]; nothing here
    looks at the values they are given. *)
Definition initialGameState : GameState :=
  {| board := initializeBoard L;
     currentPlayer := white;
     selectedSquare := None;
     removedSquares := ∅;
     gameOver := false;
     winner := None;
     removalsUsed := mkPerPlayer 0 0;
     timeLeft := mkPerPlayer 0 0;
     castlingRights := mkSides true true true true;
     kingMoved := mkPerPlayer false false;
     rookMoved := mkSides false false false false |}.

Definition initialApp : App :=
  {| gameState := initialGameState; actionMode := move |}.

Definition setActionMode (a : App) (m : ActionMode) : App :=
  mkApp (gameState a) m.

Definition resetGame (a : App) : App := initialApp.

Definition handleSquarePress (a : App) (row col : Z) : Outcome App :=
  let gs := gameState a in
  if gameOver gs then Returned a None else
  let position : Position := (row, col) in
  let positionKey := positionKey row col in
  match actionMode a with
  | remove =>
      if bool_decide (positionKey ∈ removedSquares gs)
      then Returned a (Some CaseDejaSupprimee)
      else
        match getPiece (board gs) row col with
        | None => Threw
        | Some (Some _) => Returned a (Some CaseOccupee)
        | Some None =>
            let newRemovedSquares := {[ positionKey ]} ∪ removedSquares gs in
            Returned
              (mkApp
                 (mkGameState (board gs) (otherPlayer (currentPlayer gs))
                    (selectedSquare gs) newRemovedSquares (gameOver gs)
                    (winner gs) (removalsUsed gs) (timeLeft gs)
                    (castlingRights gs) (kingMoved gs) (rookMoved gs))
                 move)
              None
        end
  | move =>
      match selectedSquare gs with
      | Some (selectedRow, selectedCol) =>
          if bool_decide (selectedRow = row) && bool_decide (selectedCol = col)
          then Returned (mkApp (withSelectedSquare gs None) (actionMode a)) None
          else if isValidMove L (board gs) (selectedRow, selectedCol) position
                    (removedSquares gs) gs
          then
            let moveResult :=
              makeMove L (board gs) (selectedRow, selectedCol) position gs in
            if isInCheck L (MoveResult.board moveResult) (currentPlayer gs)
                 (removedSquares gs)
            then Returned a (Some MouvementInvalide)
            else
              let '(gs', alert) :=
                applyMove L gs (selectedRow, selectedCol) position in
              Returned (mkApp gs' move) alert
          else
            match getPiece (board gs) row col with
            | None => Threw
            | Some piece =>
                if ownedBy (currentPlayer gs) piece
                then Returned (mkApp (withSelectedSquare gs (Some position))
                                 (actionMode a)) None
                else Returned (mkApp (withSelectedSquare gs None)
                                 (actionMode a)) None
            end
      | None =>
          match getPiece (board gs) row col with
          | None => Threw
          | Some piece =>
              if ownedBy (currentPlayer gs) piece
              then Returned (mkApp (withSelectedSquare gs (Some position))
                               (actionMode a)) None
              else Returned a None
          end
      end
  end.

(** What can happen to the screen: a press on a square, the two mode
    buttons, the reset button; one at a time. *)
Inductive Event :=
| Press (row col : Z)
| Toggle (m : ActionMode)
| Reset.

(** A handler that throws leaves the state as it was. *)
Definition handle (a : App) (e : Event) : App :=
  match e with
  | Press row col =>
      match handleSquarePress a row col with
      | Threw => a
      | Returned a' _ => a'
      end
  | Toggle m => setActionMode a m
  | Reset => resetGame a
  end.

(** The screen after the events, from the first render on. *)
Definition run (es : list Event) : App := foldl handle initialApp es.

Definition reachable (a : App) : Prop := ∃ es, run es = a.
End Handlers.
End Plain.

(** ** The rule engine ([@/utils/chessLogic])

    The engine's file is not among the sources the screens come with.  Its
    functions are modelled below from the specification's component design
    (Board Model, Removal Ledger, Piece Movement Rules, Legality Filter, Check
    Detector, Castling Tracker, Checkmate Detector).  The specification does
    not say which colour starts on which back rank: white is placed on rows 6
    and 7 and moves towards row 0. *)

Module Rules.

(** Modelled from the spec: the Removal Ledger's [isRemoved]
    ([@/utils/chessLogic] is missing from the sources), on the keys
    [`${row}-${col}`] the screens store. *)
Definition isRemoved (removedSquares : gset string) (p : Position) : bool :=
  bool_decide (positionKey p.1 p.2 ∈ removedSquares).

(** Modelled from the spec: a Position has row and column in [0,7] (bounds
    check of the missing engine). *)
Definition inBounds (p : Position) : bool :=
  (0 <=? p.1) && (p.1 <? 8) && (0 <=? p.2) && (p.2 <? 8).

(** Modelled from the spec: the Board Model's get accessor of the missing
    engine. *)
Definition pieceAt (b : Board) (p : Position) : option Piece :=
  match getPiece b p.1 p.2 with Some x => x | None => None end.

(** Modelled from the spec: the Board Model's set accessor of the missing
    engine; nothing is written outside the grid. *)
Definition setSquare (b : Board) (p : Position) (v : option Piece) : Board :=
  if (p.1 <? 0) || (p.2 <? 0) then b
  else alter (fun r => <[Z.to_nat p.2 := v]> r) (Z.to_nat p.1) b.

(** Modelled from the spec: the back rank of the standard starting arrangement
    (helper of the missing [initializeBoard]). *)
Definition backRank (c : Player) : list (option Piece) :=
  (fun t => Some (mkPiece t c)) <$>
    [rook; knight; bishop; queen; king; bishop; knight; rook].

(** Modelled from the spec: the pawn rank of the standard starting arrangement
    (helper of the missing [initializeBoard]). *)
Definition pawnRank (c : Player) : list (option Piece) :=
  replicate 8 (Some (mkPiece pawn c)).

(** Modelled from the spec: the missing [initializeBoard], the standard chess
    starting arrangement, rows 0 and 7 being the back ranks. *)
Definition initializeBoard : Board :=
  [backRank black; pawnRank black] ++ replicate 4 (replicate 8 None)
    ++ [pawnRank white; backRank white].

(** Modelled from the spec: the square one step of [d] away (helper of the
    missing movement rules). *)
Definition offset (p : Position) (d : Z * Z) : Position :=
  (p.1 + d.1, p.2 + d.2).

(** Modelled from the spec: the rook's ray directions (missing movement
    rules). *)
Definition rookDirections : list (Z * Z) := [(1, 0); (-1, 0); (0, 1); (0, -1)].

(** Modelled from the spec: the bishop's ray directions (missing movement
    rules). *)
Definition bishopDirections : list (Z * Z) := [(1, 1); (1, -1); (-1, 1); (-1, -1)].

(** Modelled from the spec: the queen's ray directions, also the king's 8
    adjacent offsets (missing movement rules). *)
Definition queenDirections : list (Z * Z) := rookDirections ++ bishopDirections.

(** Modelled from the spec: the knight's 8 L-shaped offsets (missing movement
    rules). *)
Definition knightOffsets : list (Z * Z) :=
  [(2, 1); (2, -1); (-2, 1); (-2, -1); (1, 2); (1, -2); (-1, 2); (-1, -2)].

(** Modelled from the spec: a square that is on the board, empty and not
    removed (helper of the missing movement rules). *)
Definition isFree (b : Board) (removedSquares : gset string) (p : Position) : bool :=
  inBounds p && negb (isRemoved removedSquares p)
    && bool_decide (pieceAt b p = None).

(** Modelled from the spec: knight and king steps of the missing movement
    rules; the destination must not be removed and must not hold a piece of
    the mover's colour. *)
Definition canLand (b : Board) (removedSquares : gset string) (mover : Player)
    (p : Position) : bool :=
  inBounds p && negb (isRemoved removedSquares p)
    && negb (ownedBy mover (pieceAt b p)).

(** Modelled from the spec: ray-casting of the missing movement rules. The ray
    stops before the first occupied or removed square; an enemy piece there is
    a capture destination, a removed square never is. *)
Fixpoint ray (fuel : nat) (b : Board) (removedSquares : gset string)
    (mover : Player) (from : Position) (d : Z * Z) : list Position :=
  match fuel with
  | O => []
  | S n =>
      let next := offset from d in
      if negb (inBounds next) || isRemoved removedSquares next then []
      else match pieceAt b next with
           | Some pc => if bool_decide (color pc = mover) then [] else [next]
           | None => next :: ray n b removedSquares mover next d
           end
  end.

(** Modelled from the spec: the destinations of a sliding piece, ray by ray
    (missing movement rules). *)
Definition slide (b : Board) (removedSquares : gset string) (mover : Player)
    (from : Position) (dirs : list (Z * Z)) : list Position :=
  d ← dirs; ray 8 b removedSquares mover from d.

(** Modelled from the spec: the destinations of a knight or of a king's single
    step (missing movement rules). *)
Definition jump (b : Board) (removedSquares : gset string) (mover : Player)
    (from : Position) (offsets : list (Z * Z)) : list Position :=
  filter (fun p => Is_true (canLand b removedSquares mover p))
    (offset from <$> offsets).

(** Modelled from the spec: the row direction of a pawn (missing movement
    rules). White moves towards row 0, black towards row 7. *)
Definition forward (c : Player) : Z := match c with white => -1 | black => 1 end.

(** Modelled from the spec: the starting rank of the pawns (missing movement
    rules). *)
Definition pawnStartRow (c : Player) : Z := match c with white => 6 | black => 1 end.

(** Modelled from the spec: the back rank of a colour (missing movement
    rules). *)
Definition homeRow (c : Player) : Z := match c with white => 7 | black => 0 end.

(** Modelled from the spec: the pawn's diagonal capture onto an
    enemy-occupied, non-removed square (missing movement rules). *)
Definition pawnCaptures (b : Board) (removedSquares : gset string) (mover : Player)
    (from : Position) : list Position :=
  filter (fun p => Is_true (inBounds p && negb (isRemoved removedSquares p)
                     && ownedBy (otherPlayer mover) (pieceAt b p)))
    [offset from (forward mover, -1); offset from (forward mover, 1)].

(** Modelled from the spec: the pawn's advance of the missing movement rules:
    one square forward onto an empty, non-removed square; two from the
    starting rank when both squares are. *)
Definition pawnAdvances (b : Board) (removedSquares : gset string) (mover : Player)
    (from : Position) : list Position :=
  let one := offset from (forward mover, 0) in
  let two := offset from (2 * forward mover, 0) in
  if isFree b removedSquares one then
    one :: (if bool_decide (from.1 = pawnStartRow mover) && isFree b removedSquares two
            then [two] else [])
  else [].

(** Modelled from the spec: the Piece Movement Rules of the missing engine in
    attack mode (pawns attack diagonally only; no castling). *)
Definition attacks (b : Board) (removedSquares : gset string) (from : Position)
    : list Position :=
  match pieceAt b from with
  | None => []
  | Some pc =>
      match type pc with
      | pawn => pawnCaptures b removedSquares (color pc) from
      | knight => jump b removedSquares (color pc) from knightOffsets
      | bishop => slide b removedSquares (color pc) from bishopDirections
      | rook => slide b removedSquares (color pc) from rookDirections
      | queen => slide b removedSquares (color pc) from queenDirections
      | king => jump b removedSquares (color pc) from queenDirections
      end
  end.

(** Modelled from the spec: the square holds the king of the colour (helper of
    the missing Check Detector). *)
Definition isKingOf (c : Player) (p : option Piece) : bool :=
  bool_decide (p = Some (mkPiece king c)).

(** Modelled from the spec: the missing [isInCheck], the Check Detector.
    Locate the king of the colour; for every enemy piece, test whether the
    king's square is among its attack destinations. *)
Definition isInCheck (b : Board) (c : Player) (removedSquares : gset string) : bool :=
  existsb (fun k =>
    if isKingOf c (pieceAt b k) then
      existsb (fun s =>
        if ownedBy (otherPlayer c) (pieceAt b s)
        then bool_decide (k ∈ attacks b removedSquares s)
        else false)
        allSquares
    else false)
    allSquares.

(** Modelled from the spec: the two sides a castling right is about (missing
    Castling Tracker). *)
Inductive Side := kingside | queenside.

(** Modelled from the spec: the castling right of a colour and side is
    available (missing Castling Tracker). *)
Definition hasRight (gs : GameState) (c : Player) (s : Side) : bool :=
  match c, s with
  | white, kingside => whiteKingside (castlingRights gs)
  | white, queenside => whiteQueenside (castlingRights gs)
  | black, kingside => blackKingside (castlingRights gs)
  | black, queenside => blackQueenside (castlingRights gs)
  end.

(** Modelled from the spec: the columns between king and rook (missing
    Castling Tracker). *)
Definition between (s : Side) : list Z :=
  match s with kingside => [5; 6] | queenside => [1; 2; 3] end.

(** Modelled from the spec: the columns the king crosses and lands on (missing
    Castling Tracker). *)
Definition kingPath (s : Side) : list Z :=
  match s with kingside => [5; 6] | queenside => [3; 2] end.

(** Modelled from the spec: the king's destination column (missing Castling
    Tracker). *)
Definition kingTarget (s : Side) : Z :=
  match s with kingside => 6 | queenside => 2 end.

(** Modelled from the spec: the rook's starting column (missing Castling
    Tracker). *)
Definition rookColumn (s : Side) : Z :=
  match s with kingside => 7 | queenside => 0 end.

(** Modelled from the spec: the rook's destination column (missing Castling
    Tracker). *)
Definition rookTarget (s : Side) : Z :=
  match s with kingside => 5 | queenside => 3 end.

(** Modelled from the spec: a square of the king's path is not attacked: the
    king of [c], moved there from [from] on a copy of the board, is not in
    check (missing Castling Tracker, by the simulate-then-check pattern). *)
Definition kingSafeOn (b : Board) (removedSquares : gset string) (c : Player)
    (from p : Position) : bool :=
  negb (isInCheck (setSquare (setSquare b from None) p (Some (mkPiece king c)))
          c removedSquares).

(** Modelled from the spec: the castling conditions of the missing Castling
    Tracker. Castling is legal only when the right is available, the king is
    not in check, all squares between king and rook are empty and non-removed,
    and the king's path is not attacked. *)
Definition canCastle (b : Board) (removedSquares : gset string) (gs : GameState)
    (c : Player) (from : Position) (s : Side) : bool :=
  if hasRight gs c s && bool_decide (from = (homeRow c, 4)) then
    if forallb (fun col => isFree b removedSquares (homeRow c, col)) (between s) then
      if isInCheck b c removedSquares then false
      else forallb (fun col => kingSafeOn b removedSquares c from (homeRow c, col))
             (kingPath s)
    else false
  else false.

(** Modelled from the spec: castling as two additional synthetic destinations
    of the king (missing movement rules). *)
Definition castlingDestinations (b : Board) (removedSquares : gset string)
    (gs : GameState) (c : Player) (from : Position) : list Position :=
  (fun s => (homeRow c, kingTarget s)) <$>
    filter (fun s => Is_true (canCastle b removedSquares gs c from s))
      [kingside; queenside].

(** Modelled from the spec: the pseudo-legal destinations of the piece on
    [from] (Piece Movement Rules of the missing engine). *)
Definition destinations (b : Board) (removedSquares : gset string) (gs : GameState)
    (from : Position) : list Position :=
  match pieceAt b from with
  | None => []
  | Some pc =>
      match type pc with
      | pawn => pawnAdvances b removedSquares (color pc) from
                  ++ pawnCaptures b removedSquares (color pc) from
      | king => jump b removedSquares (color pc) from queenDirections
                  ++ castlingDestinations b removedSquares gs (color pc) from
      | _ => attacks b removedSquares from
      end
  end.

(** Modelled from the spec: the missing [isValidMove], membership in the
    pseudo-legal destinations. *)
Definition isValidMove (b : Board) (from to : Position)
    (removedSquares : gset string) (gs : GameState) : bool :=
  bool_decide (to ∈ destinations b removedSquares gs from).

(** Modelled from the spec: the missing [makeMove]. A king moving two columns
    castles: king and rook relocate together. *)
Definition makeMove (b : Board) (from to : Position) (gs : GameState)
    : MoveResult.t :=
  let moved := setSquare (setSquare b to (pieceAt b from)) from None in
  if isKingOf white (pieceAt b from) || isKingOf black (pieceAt b from) then
    if bool_decide (to.2 - from.2 = 2) then
      MoveResult.mk
        (setSquare (setSquare moved (from.1, rookTarget kingside)
                      (pieceAt b (from.1, rookColumn kingside)))
           (from.1, rookColumn kingside) None)
        true
    else if bool_decide (to.2 - from.2 = -2) then
      MoveResult.mk
        (setSquare (setSquare moved (from.1, rookTarget queenside)
                      (pieceAt b (from.1, rookColumn queenside)))
           (from.1, rookColumn queenside) None)
        true
    else MoveResult.mk moved false
  else MoveResult.mk moved false.

(** Modelled from the spec: the Legality Filter of the missing engine.
    Apply the move to a copy and ask the Check Detector about the mover's own
    king. *)
Definition isLegal (b : Board) (removedSquares : gset string) (gs : GameState)
    (c : Player) (from to : Position) : bool :=
  if isValidMove b from to removedSquares gs
  then negb (isInCheck (MoveResult.board (makeMove b from to gs)) c removedSquares)
  else false.

(** Modelled from the spec: the missing [isCheckmate], the Checkmate Detector.
    In check, and no piece of the colour has a legal move. *)
Definition isCheckmate (b : Board) (c : Player) (removedSquares : gset string)
    (gs : GameState) : bool :=
  if isInCheck b c removedSquares then
    forallb (fun from =>
      if ownedBy c (pieceAt b from)
      then forallb (fun to => negb (isLegal b removedSquares gs c from to))
             (destinations b removedSquares gs from)
      else true)
      allSquares
  else false.

(** Modelled from the spec: a castling right set to false (missing Castling
    Tracker). *)
Definition revoke (r : Sides) (c : Player) (s : Side) : Sides :=
  match c, s with
  | white, kingside => mkSides false (whiteQueenside r) (blackKingside r) (blackQueenside r)
  | white, queenside => mkSides (whiteKingside r) false (blackKingside r) (blackQueenside r)
  | black, kingside => mkSides (whiteKingside r) (whiteQueenside r) false (blackQueenside r)
  | black, queenside => mkSides (whiteKingside r) (whiteQueenside r) (blackKingside r) false
  end.

(** Modelled from the spec: a rook-moved flag set to true (missing Castling
    Tracker). *)
Definition mark (r : Sides) (c : Player) (s : Side) : Sides :=
  match c, s with
  | white, kingside => mkSides true (whiteQueenside r) (blackKingside r) (blackQueenside r)
  | white, queenside => mkSides (whiteKingside r) true (blackKingside r) (blackQueenside r)
  | black, kingside => mkSides (whiteKingside r) (whiteQueenside r) true (blackQueenside r)
  | black, queenside => mkSides (whiteKingside r) (whiteQueenside r) (blackKingside r) true
  end.

(** Modelled from the spec: the game state with new castling rights and flags
    (missing [updateCastlingRights]). *)
Definition withCastling (gs : GameState) (rights : Sides)
    (km : PerPlayer bool) (rm : Sides) : GameState :=
  mkGameState (board gs) (currentPlayer gs) (selectedSquare gs) (removedSquares gs)
    (gameOver gs) (winner gs) (removalsUsed gs) (timeLeft gs) rights km rm.

(** Modelled from the spec: the corner a rook of [c] starts on, for [s]
    (missing Castling Tracker). *)
Definition corner (c : Player) (s : Side) : Position := (homeRow c, rookColumn s).

(** Modelled from the spec: the move takes the rook of [c] off its corner for
    [s] (missing Castling Tracker). *)
Definition rookGone (gs : GameState) (from : Position) (c : Player) (s : Side)
    : bool :=
  bool_decide (from = corner c s
               ∧ pieceAt (board gs) from = Some (mkPiece rook c)).

(** Modelled from the spec: the move lands on the rook of [c] on its corner
    for [s] (missing Castling Tracker). *)
Definition rookTaken (gs : GameState) (to : Position) (c : Player) (s : Side)
    : bool :=
  bool_decide (to = corner c s
               ∧ pieceAt (board gs) to = Some (mkPiece rook c)).

(** Modelled from the spec: the four castling rights (missing Castling
    Tracker). *)
Definition sidesOf : list (Player * Side) :=
  [(white, kingside); (white, queenside); (black, kingside); (black, queenside)].

(** Modelled from the spec: the missing [updateCastlingRights], the Castling
    Tracker. A right is revoked, for good, by the king of that colour moving
    (both sides), by the rook of that side moving, or by that rook being
    captured. *)
Definition updateCastlingRights (gs : GameState) (from to : Position) : GameState :=
  let kingOf c := isKingOf c (pieceAt (board gs) from) in
  let rights :=
    foldr (fun '(c, s) r =>
             if kingOf c || rookGone gs from c s || rookTaken gs to c s
             then revoke r c s else r)
      (castlingRights gs) sidesOf in
  let km :=
    mkPerPlayer (forWhite (kingMoved gs) || kingOf white)
      (forBlack (kingMoved gs) || kingOf black) in
  let rm :=
    foldr (fun '(c, s) r => if rookGone gs from c s then mark r c s else r)
      (rookMoved gs) sidesOf in
  withCastling gs rights km rm.

(** Modelled from the spec: the functions of the missing [@/utils/chessLogic],
    as the screens import them. *)
Definition logic : ChessLogic :=
  mkChessLogic initializeBoard isValidMove makeMove isInCheck isCheckmate
    updateCastlingRights.
End Rules.

(** ** Vocabulary of the statements *)

Section Vocabulary.
Context (L : ChessLogic).

(** The move [from -> to], simulated, leaves the mover's king attacked. *)
Definition leavesKingInCheck (gs : GameState) (from to : Position) : bool :=
  isInCheck L (MoveResult.board (makeMove L (board gs) from to gs))
    (currentPlayer gs) (removedSquares gs).

(** A legal move: pseudo-legal, and the mover's king is not left in check. *)
Definition isLegalMove (gs : GameState) (from to : Position) : bool :=
  isValidMove L (board gs) from to (removedSquares gs) gs
    && negb (leavesKingInCheck gs from to).

(** A press asks for a move when the mode is [move], a square is selected
    and another square is pressed: the move goes from the selected square to
    the pressed one. *)
Definition moveAttempt (gs : GameState) (mode : ActionMode) (row col : Z)
    : option Position :=
  match mode, selectedSquare gs with
  | move, Some sel => if bool_decide (sel = (row, col)) then None else Some sel
  | _, _ => None
  end.

(** An accepted move: the press asks for a move, and the move is legal. *)
Definition isAcceptedMove (gs : GameState) (mode : ActionMode) (row col : Z) : bool :=
  match moveAttempt gs mode row col with
  | Some sel => isLegalMove gs sel (row, col)
  | None => false
  end.

(** An illegal move: the destination is not pseudo-legal, or the move
    leaves the mover's own king in check. *)
Definition isIllegalMove (gs : GameState) (mode : ActionMode) (row col : Z) : bool :=
  match moveAttempt gs mode row col with
  | Some sel => negb (isLegalMove gs sel (row, col))
  | None => false
  end.
End Vocabulary.

(** The target of a removal holds a piece. *)
Definition isOccupied (gs : GameState) (row col : Z) : bool :=
  match getPiece (board gs) row col with
  | Some (Some _) => true
  | _ => false
  end.

(** The target of a removal is in the ledger already. *)
Definition isAlreadyRemoved (gs : GameState) (row col : Z) : bool :=
  bool_decide (positionKey row col ∈ removedSquares gs).

(** The player to move has used up the budget. *)
Definition quotaExhausted (removalsPerPlayer : Z) (gs : GameState) : bool :=
  getFor (removalsUsed gs) (currentPlayer gs) >=? removalsPerPlayer.

(** The state after the removal of [(row, col)], budget apart. *)
Definition afterRemoval (gs : GameState) (row col : Z) (used : PerPlayer Z) : GameState :=
  mkGameState (board gs) (otherPlayer (currentPlayer gs)) (selectedSquare gs)
    ({[ positionKey row col ]} ∪ removedSquares gs) (gameOver gs) (winner gs)
    used (timeLeft gs) (castlingRights gs) (kingMoved gs) (rookMoved gs).

(** All fields of the two states agree, [selectedSquare] possibly apart. *)
Definition sameButSelection (gs gs' : GameState) : Prop :=
  withSelectedSquare gs' (selectedSquare gs) = gs.

(** A game that is not over has no winner. *)
Definition noWinnerYet (gs : GameState) : Prop :=
  gameOver gs = false → winner gs = None.

(** The scalar multiple [k * d] of a direction, from [p]. *)
Definition along (p : Position) (d : Z * Z) (k : Z) : Position :=
  (p.1 + k * d.1, p.2 + k * d.2).

(** The removal of [(row, col)] is accepted: the mode is [remove], the quota
    (if there is one) is not exhausted, the square is neither removed already
    nor occupied. *)
Definition isAcceptedRemoval (exhausted : bool) (gs : GameState) (mode : ActionMode)
    (row col : Z) : bool :=
  match mode with
  | remove =>
      negb exhausted && negb (isAlreadyRemoved gs row col)
        && negb (isOccupied gs row col)
  | move => false
  end.

(** An invalid removal: the target is occupied or removed already, or the
    quota (if there is one) is exhausted. *)
Definition isInvalidRemoval (exhausted : bool) (gs : GameState) (row col : Z) : bool :=
  exhausted || isAlreadyRemoved gs row col || isOccupied gs row col.

(** [board[row]] is there, so that [board[row][col]] can be read. *)
Definition rowExists (gs : GameState) (row : Z) : bool :=
  match index (board gs) row with Some _ => true | None => false end.

(** An accepted action: an accepted move, or an accepted removal on a row
    the board has. *)
Definition isAccepted (L : ChessLogic) (exhausted : bool) (gs : GameState)
    (mode : ActionMode) (row col : Z) : bool :=
  isAcceptedMove L gs mode row col
  || (isAcceptedRemoval exhausted gs mode row col && rowExists gs row).

(** The state [gs'] is [gs] after the removal of [(row, col)], the counts of
    removals apart: no piece has moved, the turn has changed hands, the key
    of the square is in the ledger, and a square (of coordinates the source
    holds exactly) is in the ledger exactly when it is the removed one or
    was in the ledger before; the outcome is as it was. *)
Definition removalApplied (gs : GameState) (row col : Z) (gs' : GameState) : Prop :=
  board gs' = board gs
  ∧ currentPlayer gs' ≠ currentPlayer gs
  ∧ positionKey row col ∈ removedSquares gs'
  ∧ (∀ r c, safeInteger r → safeInteger c →
            positionKey r c ∈ removedSquares gs'
            ↔ (r, c) = (row, col) ∨ positionKey r c ∈ removedSquares gs)
  ∧ gameOver gs' = gameOver gs
  ∧ winner gs' = winner gs.

(** A press was refused: an alert said so, and the screen is as it was. *)
Definition Rejected {A} (a : A) (o : Outcome A) : Prop :=
  ∃ alert, o = Returned a (Some alert) ∧ isRejection alert = true.

(** The presses of a list of squares, as events. *)
Definition budgetedPresses (ps : list Position) : list Budgeted.Event :=
  (fun p => Budgeted.Press p.1 p.2) <$> ps.

Definition plainPresses (ps : list Position) : list Plain.Event :=
  (fun p => Plain.Press p.1 p.2) <$> ps.

(** The square holds a piece of the player to move. *)
Definition holdsOwnPiece (gs : GameState) (row col : Z) : Prop :=
  ∃ pc, getPiece (board gs) row col = Some (Some pc) ∧ color pc = currentPlayer gs.

(** The three sliding pieces. *)
Definition isSlider (t : PieceType) : Prop := t = rook ∨ t = bishop ∨ t = queen.

(** No square of the ledger holds a piece. *)
Definition ledgerClear (gs : GameState) : Prop :=
  ∀ row col, positionKey row col ∈ removedSquares gs →
    Rules.pieceAt (board gs) (row, col) = None.

(** The string has no ["-"] in it. *)
Fixpoint dashFree (s : string) : bool :=
  match s with
  | EmptyString => true
  | String c s' => negb (Ascii.eqb c "-"%char) && dashFree s'
  end.

(** Games played on the screen with a budget, with the engine above. *)
Module Games.
Import Budgeted.

Definition config : GameConfig := mkGameConfig 5 3 true.

(** White has picked the pawn on e2. *)
Definition e2Selected : list Event := [Press 6 4].

(** f3 e5 g4, and black has picked the queen. *)
Definition beforeMate : list Event :=
  [Press 6 5; Press 5 5; Press 1 4; Press 3 4; Press 6 6; Press 4 6; Press 0 3].

(** e4 e5 d4 Bb4+, and white has picked the pawn on a2. *)
Definition inCheck : list Event :=
  [Press 6 4; Press 4 4; Press 1 4; Press 3 4; Press 6 3; Press 4 3;
   Press 0 5; Press 4 1; Press 6 0].
End Games.

(** ** The clock face and the other displays *)

(** [s.padStart(n, c)] for a one-character pad. *)
Definition padStart (n : nat) (c : ascii) (s : string) : string :=
  String.string_of_list_ascii (replicate (n - String.length s) c) +:+ s.

(** [formatTime] of [ChessTimer]; the screen with a budget prints its clocks
    by the same expression.  [Math.floor] of the quotient rounds down, [%]
    takes the sign of the dividend.  The model is the source's on whole
    numbers of seconds up to [MAX_SAFE_INTEGER] in size: there the floating
    point quotient rounds down to the exact one and a number prints with all
    its digits.  Beyond, the source loses digits and, from 1e21 on, prints an
    exponent; the statements about [formatTime] stay within the bound. *)
Definition formatTime (seconds : Z) : string :=
  let minutes := seconds / 60 in
  let remainingSeconds := Z.rem seconds 60 in
  pretty minutes +:+ ":" +:+ padStart 2 "0"%char (pretty remainingSeconds).

(** The entries of a style array of [ChessTimer]. *)
Inductive TimerStyle :=
| timer | whiteTimer | blackTimer | activeTimer | lowTimeTimer | criticalTimeTimer.

(** [getTimerStyle] of [ChessTimer]; [cond && style] is [None] when [cond] is
    false. *)
Definition getTimerStyle (timeLeft : PerPlayer Z) (currentPlayer : Player)
    (gameOver : bool) (player : Player) : list (option TimerStyle) :=
  let isActive := bool_decide (currentPlayer = player) && negb gameOver in
  let isLowTime := getFor timeLeft player <=? 30 in
  let isCriticalTime := getFor timeLeft player <=? 10 in
  [ Some timer;
    Some (match player with white => whiteTimer | black => blackTimer end);
    if isActive then Some activeTimer else None;
    if isLowTime then Some lowTimeTimer else None;
    if isCriticalTime then Some criticalTimeTimer else None ].

(** The removals a player has left, as the screen with a budget prints them:
    [gameConfig.removalsPerPlayer - gameState.removalsUsed[player]]. *)
Definition removalsLeft (a : Budgeted.App) (player : Player) : Z :=
  Budgeted.removalsPerPlayer (Budgeted.gameConfig a)
  - getFor (removalsUsed (Budgeted.gameState a)) player.

(** The winner as the game-over overlay of the screen with a budget names it:
    [winner === 'white' ? 'BLANC' : 'NOIR']. *)
Definition winnerLabel (w : option Player) : string :=
  match w with Some white => "BLANC" | _ => "NOIR" end.

(** ** Vocabulary of the further statements *)

(** What the screen without a budget keeps of the state of the screen with
    one. *)
Definition toPlain (a : Budgeted.App) : Plain.App :=
  Plain.mkApp (Budgeted.gameState a) (Budgeted.actionMode a).

(** The state with another count of removals. *)
Definition withRemovalsUsed (gs : GameState) (used : PerPlayer Z) : GameState :=
  mkGameState (board gs) (currentPlayer gs) (selectedSquare gs) (removedSquares gs)
    (gameOver gs) (winner gs) used (timeLeft gs) (castlingRights gs)
    (kingMoved gs) (rookMoved gs).

(** Two outcomes of a press, one on each screen, agree: both throw, or both
    return, with the same alert and the same game state and mode, the count of
    removals possibly apart. *)
Definition agree (o : Outcome Budgeted.App) (o' : Outcome Plain.App) : Prop :=
  match o, o' with
  | Threw, Threw => True
  | Returned a alert, Returned p alert' =>
      alert = alert'
      ∧ Budgeted.actionMode a = Plain.actionMode p
      ∧ withRemovalsUsed (Budgeted.gameState a) (removalsUsed (Plain.gameState p))
        = Plain.gameState p
  | _, _ => False
  end.

(** The engine keeps its hands off the ledger and the counts of removals when
    it updates the castling rights. *)
Definition keepsLedger (L : ChessLogic) : Prop :=
  ∀ gs from to,
    removedSquares (updateCastlingRights L gs from to) = removedSquares gs
    ∧ removalsUsed (updateCastlingRights L gs from to) = removalsUsed gs.

(** The engine's verdict on a move does not depend on the square selected. *)
Definition ignoresSelection (L : ChessLogic) : Prop :=
  ∀ b from to rm gs s,
    isValidMove L b from to rm (withSelectedSquare gs s) = isValidMove L b from to rm gs
    ∧ MoveResult.board (makeMove L b from to (withSelectedSquare gs s))
      = MoveResult.board (makeMove L b from to gs).

(** No player has used more removals than the budget allows. *)
Definition withinBudget (a : Budgeted.App) : Prop :=
  ∀ player, 0 <= removalsLeft a player.

(** The count of removals matches the ledger. *)
Definition ledgerCounted (gs : GameState) : Prop :=
  Z.of_nat (size (removedSquares gs))
  = forWhite (removalsUsed gs) + forBlack (removalsUsed gs).

(** The event is not a change of settings. *)
Definition keepsSettings (e : Budgeted.Event) : bool :=
  match e with Budgeted.Settings _ => false | _ => true end.

(** The event is neither a reset nor a direct call of [handleTimeUp]. *)
Definition keepsOutcome (e : Budgeted.Event) : bool :=
  match e with Budgeted.Reset | Budgeted.TimeUp _ => false | _ => true end.

(** The event is not a reset. *)
Definition keepsGame (e : Budgeted.Event) : bool :=
  match e with Budgeted.Reset => false | _ => true end.

(** [n] seconds go by on the clock. *)
Definition ticks (n : nat) : list Budgeted.Event := replicate n Budgeted.Tick.

(** The screen with the clock of the player to move set to [v]. *)
Definition tickedTo (a : Budgeted.App) (v : Z) : Budgeted.App :=
  Budgeted.handleTimeUpdate a (currentPlayer (Budgeted.gameState a)) v.

(** The square is one of the 64 of the grid. *)
Definition onGrid (p : Position) : Prop := 0 <= p.1 < 8 ∧ 0 <= p.2 < 8.

(** The string has no [c] in it. *)
Fixpoint charFree (c : ascii) (s : string) : bool :=
  match s with
  | EmptyString => true
  | String c' s' => negb (Ascii.eqb c' c) && charFree c s'
  end.

(** ** Proof automation *)

(** Case analysis on the tests a press goes through. *)
Ltac press_cases :=
  repeat match goal with
  | |- context [match ?x with _ => _ end] => destruct x eqn:?
  | H : context [match ?x with _ => _ end] |- _ => destruct x eqn:?
  end.

(** Rewrite the decisions that the context settles. *)
Ltac settle_decides :=
  repeat first
    [ rewrite bool_decide_true by done
    | rewrite bool_decide_false by done
    | match goal with
      | H : context [bool_decide _] |- _ =>
          first [ rewrite bool_decide_true in H by done
                | rewrite bool_decide_false in H by done ]
      end ].

Ltac unfold_press :=
  unfold Budgeted.handleSquarePress, Plain.handleSquarePress,
    Budgeted.selectOr, applyMove in *; simpl in *.

(** ** Elementary facts *)

Lemma otherPlayer_ne (p : Player) : otherPlayer p ≠ p.
Proof. by destruct p. Qed.

Lemma otherPlayer_involutive (p : Player) : otherPlayer (otherPlayer p) = p.
Proof. by destruct p. Qed.

Lemma withSelectedSquare_same (gs : GameState) :
  withSelectedSquare gs (selectedSquare gs) = gs.
Proof. by destruct gs. Qed.

Lemma sameButSelection_refl (gs : GameState) : sameButSelection gs gs.
Proof. apply withSelectedSquare_same. Qed.

Lemma sameButSelection_with (gs : GameState) (s : option Position) :
  sameButSelection gs (withSelectedSquare gs s).
Proof. by destruct gs. Qed.

Lemma moveAlert_not_rejection (mover : Player) (mate castling : bool) (r : Alert) :
  moveAlert mover mate castling = Some r → isRejection r = false.
Proof. destruct mate, castling; intros; by simplify_eq/=. Qed.

(** ** The game controller *)

Section ControllerFacts.
Context (L : ChessLogic).

Lemma budgeted_press_over (a : Budgeted.App) (row col : Z) :
  gameOver (Budgeted.gameState a) = true →
  Budgeted.handleSquarePress L a row col = Returned a None.
Proof. intros H. unfold Budgeted.handleSquarePress. simpl. by rewrite H. Qed.

Lemma plain_press_over (a : Plain.App) (row col : Z) :
  gameOver (Plain.gameState a) = true →
  Plain.handleSquarePress L a row col = Returned a None.
Proof. intros H. unfold Plain.handleSquarePress. simpl. by rewrite H. Qed.

Lemma budgeted_presses_over (a : Budgeted.App) (ps : list Position) :
  gameOver (Budgeted.gameState a) = true →
  foldl (Budgeted.handle L) a (budgetedPresses ps) = a.
Proof.
  intros H. induction ps as [|p ps IH]; [done|].
  simpl. by rewrite budgeted_press_over.
Qed.

Lemma plain_presses_over (a : Plain.App) (ps : list Position) :
  gameOver (Plain.gameState a) = true →
  foldl (Plain.handle L) a (plainPresses ps) = a.
Proof.
  intros H. induction ps as [|p ps IH]; [done|].
  simpl. by rewrite plain_press_over.
Qed.

(** C6.  Once the game is over, by checkmate or by the clock, a press on
    any square, and any sequence of presses, leaves the screen as it is:
    no move is applied and no square is removed.  Both versions. *)
Theorem game_over_ignores_presses (cfg : Budgeted.GameConfig) (pm : list Position)
    (gs : GameState) (mode : ActionMode) (H : gameOver gs = true) :
  let a := Budgeted.mkApp cfg gs mode pm in
  let p := Plain.mkApp gs mode in
  (∀ row col, Budgeted.handleSquarePress L a row col = Returned a None)
  ∧ (∀ row col, Plain.handleSquarePress L p row col = Returned p None)
  ∧ (∀ ps, foldl (Budgeted.handle L) a (budgetedPresses ps) = a)
  ∧ (∀ ps, foldl (Plain.handle L) p (plainPresses ps) = p).
Proof.
  intros a p. split_and!; intros.
  - by apply budgeted_press_over.
  - by apply plain_press_over.
  - by apply budgeted_presses_over.
  - by apply plain_presses_over.
Qed.

(** C7.  When the clock reports that a player's time is up, the game ends:
    [gameOver] becomes true and the winner is that player's opponent,
    whatever the position; nothing else in the game state changes.  The
    clock reports it for the player to move, when a second passes with at
    most one second left. *)
Theorem time_up_forfeits (a : Budgeted.App) (player : Player) :
  let a' := (Budgeted.handleTimeUp a player).1 in
  gameOver (Budgeted.gameState a') = true
  ∧ winner (Budgeted.gameState a') = Some (otherPlayer player)
  ∧ (Budgeted.handleTimeUp a player).2 = TempsEcoule (otherPlayer player)
  ∧ withOutcome (Budgeted.gameState a') (gameOver (Budgeted.gameState a))
      (winner (Budgeted.gameState a)) = Budgeted.gameState a
  ∧ (gameOver (Budgeted.gameState a) = false →
     player = currentPlayer (Budgeted.gameState a) →
     getFor (timeLeft (Budgeted.gameState a)) player <= 1 →
     Budgeted.timerTick a = (a', Some (TempsEcoule (otherPlayer player)))).
Proof.
  destruct a as [cfg gs mode pm]; simpl. split_and!.
  - done.
  - by destruct player.
  - by destruct player.
  - by destruct gs.
  - intros Hover -> Htime. unfold Budgeted.timerTick; simpl.
    rewrite Hover. destruct (Z.leb_spec (getFor (timeLeft gs) (currentPlayer gs)) 1);
      [|lia].
    by destruct (currentPlayer gs).
Qed.

Lemma same_square_decide (sr sc row col : Z) :
  bool_decide (sr = row) && bool_decide (sc = col)
  = bool_decide ((sr, sc) = (row, col)).
Proof. repeat case_bool_decide; simplify_eq/=; try done. Qed.

(** A pseudo-legal move is refused when its simulation leaves the mover's
    king in check, and applied when it does not. *)
Lemma press_on_valid_move (cfg : Budgeted.GameConfig) (pm : list Position)
    (gs : GameState) (mode : ActionMode) (row col : Z) (sel : Position) :
  gameOver gs = false →
  moveAttempt gs mode row col = Some sel →
  isValidMove L (board gs) sel (row, col) (removedSquares gs) gs = true →
  let a := Budgeted.mkApp cfg gs mode pm in
  let p := Plain.mkApp gs mode in
  if leavesKingInCheck L gs sel (row, col) then
    Budgeted.handleSquarePress L a row col = Returned a (Some MouvementInvalide)
    ∧ Plain.handleSquarePress L p row col = Returned p (Some MouvementInvalide)
  else
    ∃ alert,
      Budgeted.handleSquarePress L a row col
      = Returned (Budgeted.mkApp cfg (applyMove L gs sel (row, col)).1 move [])
          alert
      ∧ Plain.handleSquarePress L p row col
        = Returned (Plain.mkApp (applyMove L gs sel (row, col)).1 move) alert.
Proof.
  destruct sel as [sr sc]. intros Hover Hattempt Hvalid a p. subst a p.
  unfold moveAttempt in Hattempt.
  destruct mode; [|done].
  destruct (selectedSquare gs) as [[sr' sc']|] eqn:Hsel; [|done].
  case_bool_decide; simplify_eq/=.
  unfold leavesKingInCheck. unfold_press.
  rewrite Hover, Hsel, same_square_decide, bool_decide_false by done.
  simpl. rewrite Hvalid.
  destruct (isInCheck L _ _ _) eqn:Hcheck; [done|]. eauto.
Qed.

(** C1.  A press in move mode that passes the turn has applied a move: the
    move goes from the selected square to the pressed one, it is
    pseudo-legal, the new board is the simulated one, and on it the mover's
    own king is not in check.  A pseudo-legal move whose simulation leaves
    the mover's king in check is refused with an alert and nothing is
    applied; one that does not is applied.  Both versions. *)
Theorem applied_moves_keep_own_king_safe (cfg : Budgeted.GameConfig)
    (pm : list Position) (gs : GameState) (mode : ActionMode) (row col : Z) :
  let a := Budgeted.mkApp cfg gs mode pm in
  let p := Plain.mkApp gs mode in
  (∀ a' alert,
     Budgeted.handleSquarePress L a row col = Returned a' alert →
     mode = move →
     currentPlayer (Budgeted.gameState a') ≠ currentPlayer gs →
     ∃ sel, moveAttempt gs mode row col = Some sel
       ∧ isValidMove L (board gs) sel (row, col) (removedSquares gs) gs = true
       ∧ board (Budgeted.gameState a')
         = MoveResult.board (makeMove L (board gs) sel (row, col) gs)
       ∧ isInCheck L (board (Budgeted.gameState a')) (currentPlayer gs)
           (removedSquares gs) = false)
  ∧ (∀ p' alert,
     Plain.handleSquarePress L p row col = Returned p' alert →
     mode = move →
     currentPlayer (Plain.gameState p') ≠ currentPlayer gs →
     ∃ sel, moveAttempt gs mode row col = Some sel
       ∧ isValidMove L (board gs) sel (row, col) (removedSquares gs) gs = true
       ∧ board (Plain.gameState p')
         = MoveResult.board (makeMove L (board gs) sel (row, col) gs)
       ∧ isInCheck L (board (Plain.gameState p')) (currentPlayer gs)
           (removedSquares gs) = false)
  ∧ (∀ sel,
     gameOver gs = false →
     moveAttempt gs mode row col = Some sel →
     isValidMove L (board gs) sel (row, col) (removedSquares gs) gs = true →
     if leavesKingInCheck L gs sel (row, col) then
       Budgeted.handleSquarePress L a row col = Returned a (Some MouvementInvalide)
       ∧ Plain.handleSquarePress L p row col = Returned p (Some MouvementInvalide)
     else
       ∃ alert,
         Budgeted.handleSquarePress L a row col
         = Returned (Budgeted.mkApp cfg (applyMove L gs sel (row, col)).1 move [])
             alert
         ∧ Plain.handleSquarePress L p row col
           = Returned (Plain.mkApp (applyMove L gs sel (row, col)).1 move) alert).
Proof.
  intros a p. subst a p. split_and!.
  - intros a' alert H -> Hturn. unfold_press. unfold moveAttempt.
    destruct (gameOver gs); [by simplify_eq/=|].
    destruct (selectedSquare gs) as [[sr sc]|] eqn:Hsel; simpl in *.
    + rewrite same_square_decide in H.
      case_bool_decide; [by simplify_eq/=|].
      destruct (isValidMove L _ _ _ _ _) eqn:Hvalid.
      * destruct (isInCheck L _ _ _) eqn:Hcheck; simplify_eq/=.
        exists (sr, sc). by rewrite bool_decide_false.
      * press_cases; by simplify_eq/=.
    + press_cases; by simplify_eq/=.
  - intros a' alert H -> Hturn. unfold_press. unfold moveAttempt.
    destruct (gameOver gs); [by simplify_eq/=|].
    destruct (selectedSquare gs) as [[sr sc]|] eqn:Hsel; simpl in *.
    + rewrite same_square_decide in H.
      case_bool_decide; [by simplify_eq/=|].
      destruct (isValidMove L _ _ _ _ _) eqn:Hvalid.
      * destruct (isInCheck L _ _ _) eqn:Hcheck; simplify_eq/=.
        exists (sr, sc). by rewrite bool_decide_false.
      * press_cases; by simplify_eq/=.
    + press_cases; by simplify_eq/=.
  - intros sel Hover Hattempt Hvalid. by apply press_on_valid_move.
Qed.

(** A press in remove mode is refused exactly when the removal is
    invalid. *)
Lemma budgeted_removal_refused (cfg : Budgeted.GameConfig) (pm : list Position)
    (gs : GameState) (row col : Z) :
  gameOver gs = false →
  let a := Budgeted.mkApp cfg gs remove pm in
  Rejected a (Budgeted.handleSquarePress L a row col)
  ↔ isInvalidRemoval (quotaExhausted (Budgeted.removalsPerPlayer cfg) gs)
      gs row col = true.
Proof.
  intros Hon a. subst a.
  unfold Rejected, isInvalidRemoval, quotaExhausted, isAlreadyRemoved, isOccupied.
  unfold_press. rewrite Hon.
  destruct (_ >=? _); simpl; [by split; eauto|].
  case_bool_decide; simpl; [by split; eauto|].
  destruct (getPiece _ _ _) as [[?|]|]; simpl;
    [by split; eauto|split; [by intros (? & ? & ?)|done]..].
Qed.

Lemma plain_removal_refused (gs : GameState) (row col : Z) :
  gameOver gs = false →
  let p := Plain.mkApp gs remove in
  Rejected p (Plain.handleSquarePress L p row col)
  ↔ isInvalidRemoval false gs row col = true.
Proof.
  intros Hon p. subst p.
  unfold Rejected, isInvalidRemoval, isAlreadyRemoved, isOccupied.
  unfold_press. rewrite Hon.
  case_bool_decide; simpl; [by split; eauto|].
  destruct (getPiece _ _ _) as [[?|]|]; simpl;
    [by split; eauto|split; [by intros (? & ? & ?)|done]..].
Qed.

(** C10.  Without a budget, while the game is on, a press in remove mode
    on an empty square that is not removed always succeeds, whatever was
    removed before: no count of removals is kept or consulted.  With a
    budget, the same press is refused once the player to move has used
    [removalsPerPlayer] removals, and succeeds before that. *)
Theorem plain_removal_has_no_quota (cfg : Budgeted.GameConfig) (pm : list Position)
    (gs : GameState) (row col : Z)
    (Hon : gameOver gs = false)
    (Hfresh : positionKey row col ∉ removedSquares gs)
    (Hempty : getPiece (board gs) row col = Some None) :
  let a := Budgeted.mkApp cfg gs remove pm in
  let p := Plain.mkApp gs remove in
  let used :=
    setFor (removalsUsed gs) (currentPlayer gs)
      (getFor (removalsUsed gs) (currentPlayer gs) + 1) in
  Plain.handleSquarePress L p row col
  = Returned (Plain.mkApp (afterRemoval gs row col (removalsUsed gs)) move) None
  ∧ (Budgeted.removalsPerPlayer cfg <= getFor (removalsUsed gs) (currentPlayer gs) →
     Budgeted.handleSquarePress L a row col = Returned a (Some LimiteAtteinte))
  ∧ (getFor (removalsUsed gs) (currentPlayer gs) < Budgeted.removalsPerPlayer cfg →
     Budgeted.handleSquarePress L a row col
     = Returned (Budgeted.mkApp cfg (afterRemoval gs row col used) move []) None).
Proof.
  intros a p used. subst a p used. unfold afterRemoval. unfold_press.
  rewrite Hon, Hempty, bool_decide_false by done. split_and!.
  - done.
  - intros Hq. by destruct (Z.geb_spec (getFor (removalsUsed gs) (currentPlayer gs))
                             (Budgeted.removalsPerPlayer cfg)); [|lia].
  - intros Hq. by destruct (Z.geb_spec (getFor (removalsUsed gs) (currentPlayer gs))
                             (Budgeted.removalsPerPlayer cfg)); [lia|].
Qed.




Lemma budgeted_run_snoc (es : list Budgeted.Event) (e : Budgeted.Event) :
  Budgeted.run L (es ++ [e]) = Budgeted.handle L (Budgeted.run L es) e.
Proof. unfold Budgeted.run. by rewrite foldl_app. Qed.

Lemma plain_run_snoc (es : list Plain.Event) (e : Plain.Event) :
  Plain.run L (es ++ [e]) = Plain.handle L (Plain.run L es) e.
Proof. unfold Plain.run. by rewrite foldl_app. Qed.








Lemma budgeted_press_noWinnerYet (a a' : Budgeted.App) (row col : Z)
    (alert : option Alert) :
  Budgeted.handleSquarePress L a row col = Returned a' alert →
  noWinnerYet (Budgeted.gameState a) → noWinnerYet (Budgeted.gameState a').
Proof.
  unfold noWinnerYet. intros H Hinv. unfold_press.
  press_cases; simplify_eq/=;
    first [ by auto | congruence | by destruct (isCheckmate L _ _ _ _) ].
Qed.

Lemma plain_press_noWinnerYet (a a' : Plain.App) (row col : Z)
    (alert : option Alert) :
  Plain.handleSquarePress L a row col = Returned a' alert →
  noWinnerYet (Plain.gameState a) → noWinnerYet (Plain.gameState a').
Proof.
  unfold noWinnerYet. intros H Hinv. unfold_press.
  press_cases; simplify_eq/=;
    first [ by auto | congruence | by destruct (isCheckmate L _ _ _ _) ].
Qed.

Lemma budgeted_handle_noWinnerYet (a : Budgeted.App) (e : Budgeted.Event) :
  noWinnerYet (Budgeted.gameState a) →
  noWinnerYet (Budgeted.gameState (Budgeted.handle L a e)).
Proof.
  intros Hinv. destruct e as [row col|m| |player|s| |]; simpl; try done.
  - destruct (Budgeted.handleSquarePress L a row col) eqn:H; [done|].
    by eapply budgeted_press_noWinnerYet.
  - unfold Budgeted.timerTick, Budgeted.handleTimeUp. simpl.
    press_cases; simpl; done.
Qed.

Lemma plain_handle_noWinnerYet (a : Plain.App) (e : Plain.Event) :
  noWinnerYet (Plain.gameState a) →
  noWinnerYet (Plain.gameState (Plain.handle L a e)).
Proof.
  intros Hinv. destruct e as [row col|m|]; simpl; try done.
  destruct (Plain.handleSquarePress L a row col) eqn:H; [done|].
  by eapply plain_press_noWinnerYet.
Qed.

(** On every state the screens reach, a game that is on has no winner. *)
Lemma budgeted_run_noWinnerYet (es : list Budgeted.Event) :
  noWinnerYet (Budgeted.gameState (Budgeted.run L es)).
Proof.
  induction es as [|e es IH] using rev_ind; [done|].
  rewrite budgeted_run_snoc. by apply budgeted_handle_noWinnerYet.
Qed.

Lemma plain_run_noWinnerYet (es : list Plain.Event) :
  noWinnerYet (Plain.gameState (Plain.run L es)).
Proof.
  induction es as [|e es IH] using rev_ind; [done|].
  rewrite plain_run_snoc. by apply plain_handle_noWinnerYet.
Qed.

(** The outcome a move leaves, by what the Checkmate Detector says. *)
Lemma budgeted_move_outcome (a a' : Budgeted.App) (row col : Z)
    (alert : option Alert) :
  let gs := Budgeted.gameState a in
  let gs' := Budgeted.gameState a' in
  Budgeted.handleSquarePress L a row col = Returned a' alert →
  Budgeted.actionMode a = move →
  currentPlayer gs' ≠ currentPlayer gs →
  noWinnerYet gs →
  ∃ sel, moveAttempt gs move row col = Some sel
    ∧ isLegalMove L gs sel (row, col) = true
    ∧ board gs' = MoveResult.board (makeMove L (board gs) sel (row, col) gs)
    ∧ currentPlayer gs' = otherPlayer (currentPlayer gs)
    ∧ if isCheckmate L (board gs') (currentPlayer gs') (removedSquares gs)
           (updateCastlingRights L gs sel (row, col))
      then gameOver gs' = true ∧ winner gs' = Some (currentPlayer gs)
      else gameOver gs' = gameOver gs ∧ winner gs' = winner gs.
Proof.
  intros gs gs' H Hmode Hturn Hinv. subst gs gs'.
  unfold_press. unfold moveAttempt, isLegalMove, leavesKingInCheck.
  rewrite Hmode in H.
  destruct (gameOver (Budgeted.gameState a)) eqn:Hon; [by simplify_eq/=|].
  destruct (selectedSquare _) as [[sr sc]|] eqn:Hsel; simpl in *.
  - rewrite same_square_decide in H.
    destruct (decide ((sr, sc) = (row, col))); settle_decides;
      [by simplify_eq/=|].
    destruct (isValidMove L _ _ _ _ _) eqn:Hvalid; simpl in *.
    + destruct (isInCheck L _ _ _) eqn:Hcheck; simplify_eq/=.
      exists (sr, sc). rewrite Hvalid, Hcheck. split_and!; [done..|].
      destruct (isCheckmate L _ _ _ _); [done|]. by rewrite Hinv.
    + press_cases; by simplify_eq/=.
  - press_cases; by simplify_eq/=.
Qed.

Lemma plain_move_outcome (a a' : Plain.App) (row col : Z)
    (alert : option Alert) :
  let gs := Plain.gameState a in
  let gs' := Plain.gameState a' in
  Plain.handleSquarePress L a row col = Returned a' alert →
  Plain.actionMode a = move →
  currentPlayer gs' ≠ currentPlayer gs →
  noWinnerYet gs →
  ∃ sel, moveAttempt gs move row col = Some sel
    ∧ isLegalMove L gs sel (row, col) = true
    ∧ board gs' = MoveResult.board (makeMove L (board gs) sel (row, col) gs)
    ∧ currentPlayer gs' = otherPlayer (currentPlayer gs)
    ∧ if isCheckmate L (board gs') (currentPlayer gs') (removedSquares gs)
           (updateCastlingRights L gs sel (row, col))
      then gameOver gs' = true ∧ winner gs' = Some (currentPlayer gs)
      else gameOver gs' = gameOver gs ∧ winner gs' = winner gs.
Proof.
  intros gs gs' H Hmode Hturn Hinv. subst gs gs'.
  unfold_press. unfold moveAttempt, isLegalMove, leavesKingInCheck.
  rewrite Hmode in H.
  destruct (gameOver (Plain.gameState a)) eqn:Hon; [by simplify_eq/=|].
  destruct (selectedSquare _) as [[sr sc]|] eqn:Hsel; simpl in *.
  - rewrite same_square_decide in H.
    destruct (decide ((sr, sc) = (row, col))); settle_decides;
      [by simplify_eq/=|].
    destruct (isValidMove L _ _ _ _ _) eqn:Hvalid; simpl in *.
    + destruct (isInCheck L _ _ _) eqn:Hcheck; simplify_eq/=.
      exists (sr, sc). rewrite Hvalid, Hcheck. split_and!; [done..|].
      destruct (isCheckmate L _ _ _ _); [done|]. by rewrite Hinv.
    + press_cases; by simplify_eq/=.
  - press_cases; by simplify_eq/=.
Qed.

(** C8, as amended.  While the game is on, a refused action (an illegal
    move or an invalid removal) leaves the board, the player to move, the
    removed squares, the castling state, [gameOver] and [winner] as they
    were.  When it is refused with an alert (an invalid removal, or a
    pseudo-legal move that leaves the mover's king in check) the whole state
    is as it was.  A move to a square that is not a pseudo-legal destination
    raises no alert and changes [selectedSquare]: to the pressed square when
    it holds a piece of the player to move, to [null] otherwise.  Both
    versions. *)
Theorem refused_action_changes_selection_only (cfg : Budgeted.GameConfig)
    (pm : list Position) (gs : GameState) (mode : ActionMode) (row col : Z)
    (Hon : gameOver gs = false) :
  let a := Budgeted.mkApp cfg gs mode pm in
  let p := Plain.mkApp gs mode in
  let exhausted := quotaExhausted (Budgeted.removalsPerPlayer cfg) gs in
  (∀ a' alert,
     Budgeted.handleSquarePress L a row col = Returned a' alert →
     isIllegalMove L gs mode row col = true
     ∨ (mode = remove ∧ isInvalidRemoval exhausted gs row col = true) →
     sameButSelection gs (Budgeted.gameState a') ∧ (is_Some alert → a' = a))
  ∧ (∀ p' alert,
     Plain.handleSquarePress L p row col = Returned p' alert →
     isIllegalMove L gs mode row col = true
     ∨ (mode = remove ∧ isInvalidRemoval false gs row col = true) →
     sameButSelection gs (Plain.gameState p') ∧ (is_Some alert → p' = p))
  ∧ (mode = remove →
     (isInvalidRemoval exhausted gs row col = true →
      Rejected a (Budgeted.handleSquarePress L a row col))
     ∧ (isInvalidRemoval false gs row col = true →
        Rejected p (Plain.handleSquarePress L p row col)))
  ∧ (∀ sel,
     moveAttempt gs mode row col = Some sel →
     isValidMove L (board gs) sel (row, col) (removedSquares gs) gs = true →
     leavesKingInCheck L gs sel (row, col) = true →
     Budgeted.handleSquarePress L a row col = Returned a (Some MouvementInvalide)
     ∧ Plain.handleSquarePress L p row col = Returned p (Some MouvementInvalide))
  ∧ (∀ sel piece,
     moveAttempt gs mode row col = Some sel →
     isValidMove L (board gs) sel (row, col) (removedSquares gs) gs = false →
     getPiece (board gs) row col = Some piece →
     let s := if ownedBy (currentPlayer gs) piece then Some (row, col) else None in
     (∃ pm', Budgeted.handleSquarePress L a row col
             = Returned (Budgeted.mkApp cfg (withSelectedSquare gs s) mode pm') None)
     ∧ Plain.handleSquarePress L p row col
       = Returned (Plain.mkApp (withSelectedSquare gs s) mode) None).
Proof.
  intros a p exhausted.
  pose proof (budgeted_removal_refused cfg pm gs row col Hon) as Hb.
  pose proof (plain_removal_refused gs row col Hon) as Hp.
  subst a p exhausted. split_and!.
  - intros a' alert H Hrefused.
    unfold isIllegalMove, isLegalMove, leavesKingInCheck, moveAttempt in Hrefused.
    destruct Hrefused as [Hmove|[-> Hrem]].
    + unfold_press. rewrite Hon in H. destruct mode; [|done].
      destruct (selectedSquare gs) as [[sr sc]|] eqn:Hsel; simpl in *; [|done].
      rewrite same_square_decide in H.
      destruct (decide ((sr, sc) = (row, col))); settle_decides; [done|].
      destruct (isValidMove L _ _ _ _ _) eqn:Hvalid; simpl in *.
      * destruct (isInCheck L _ _ _) eqn:Hcheck; simplify_eq/=.
        split; [apply sameButSelection_refl|done].
      * press_cases; simplify_eq/=;
          (split; [apply sameButSelection_with|by intros [? ?]]).
    + apply Hb in Hrem as (r & Hr & _). rewrite Hr in H. simplify_eq.
      split; [apply sameButSelection_refl|done].
  - intros p' alert H Hrefused.
    unfold isIllegalMove, isLegalMove, leavesKingInCheck, moveAttempt in Hrefused.
    destruct Hrefused as [Hmove|[-> Hrem]].
    + unfold_press. rewrite Hon in H. destruct mode; [|done].
      destruct (selectedSquare gs) as [[sr sc]|] eqn:Hsel; simpl in *; [|done].
      rewrite same_square_decide in H.
      destruct (decide ((sr, sc) = (row, col))); settle_decides; [done|].
      destruct (isValidMove L _ _ _ _ _) eqn:Hvalid; simpl in *.
      * destruct (isInCheck L _ _ _) eqn:Hcheck; simplify_eq/=.
        split; [apply sameButSelection_refl|done].
      * press_cases; simplify_eq/=;
          (split; [apply sameButSelection_with|by intros [? ?]]).
    + apply Hp in Hrem as (r & Hr & _). rewrite Hr in H. simplify_eq.
      split; [apply sameButSelection_refl|done].
  - intros ->. split; [apply Hb|apply Hp].
  - intros sel Hattempt Hvalid Hcheck.
    pose proof (press_on_valid_move cfg pm gs mode row col sel Hon Hattempt Hvalid)
      as Hfilter.
    simpl in Hfilter. by rewrite Hcheck in Hfilter.
  - intros [sr sc] piece Hattempt Hvalid Hpiece s. subst s.
    unfold moveAttempt in Hattempt. destruct mode; [|done].
    destruct (selectedSquare gs) as [[sr' sc']|] eqn:Hsel; [|done].
    case_bool_decide; simplify_eq/=. unfold_press.
    rewrite Hon, Hsel, same_square_decide, bool_decide_false by done.
    simpl. rewrite Hvalid, Hpiece.
    destruct (ownedBy _ _); eauto.
Qed.
End ControllerFacts.

(** ** The keys of the removal ledger *)

Lemma pretty_N_char_no_dash (x : N) : Ascii.eqb (pretty_N_char x) "-"%char = false.
Proof. unfold pretty_N_char. by repeat case_match. Qed.

Lemma pretty_N_go_dashFree (x : N) (s : string) :
  dashFree s = true → dashFree (pretty_N_go x s) = true.
Proof.
  revert s. induction (N.lt_wf_0 x) as [x _ IH]; intros s Hs.
  assert (x = 0 ∨ 0 < x)%N as [->|?] by lia.
  - by rewrite pretty_N_go_0.
  - rewrite pretty_N_go_step by done. apply IH.
    { by apply N.div_lt. }
    simpl. by rewrite pretty_N_char_no_dash.
Qed.

Lemma pretty_N_go_nonempty (x : N) (s : string) :
  s ≠ EmptyString → pretty_N_go x s ≠ EmptyString.
Proof.
  revert s. induction (N.lt_wf_0 x) as [x _ IH]; intros s Hs.
  assert (x = 0 ∨ 0 < x)%N as [->|?] by lia.
  - by rewrite pretty_N_go_0.
  - rewrite pretty_N_go_step by done. apply IH; [by apply N.div_lt|done].
Qed.

(** A natural number prints as digits, at least one. *)
Lemma pretty_N_digits (x : N) :
  dashFree (pretty x) = true ∧ pretty x ≠ EmptyString.
Proof.
  unfold pretty, pretty_N. case_decide; [done|]. split.
  - by apply pretty_N_go_dashFree.
  - rewrite pretty_N_go_step by lia. by apply pretty_N_go_nonempty.
Qed.

(** An integer prints as digits, after ["-"] when it is negative. *)
Lemma pretty_Z_shape (z : Z) :
  (dashFree (pretty z) = true ∧ pretty z ≠ EmptyString)
  ∨ ∃ d, pretty z = String "-"%char d ∧ dashFree d = true ∧ d ≠ EmptyString.
Proof.
  destruct z as [|x|x].
  - by left.
  - left. apply (pretty_N_digits (N.pos x)).
  - right. exists (pretty (N.pos x)). split; [done|].
    apply (pretty_N_digits (N.pos x)).
Qed.

Lemma split_at_dash (a b s t : string) :
  dashFree a = true → dashFree b = true →
  a +:+ String "-"%char s = b +:+ String "-"%char t → a = b ∧ s = t.
Proof.
  revert b. induction a as [|c a IH]; intros [|c' b] Ha Hb Heq; simpl in *.
  - by simplify_eq.
  - injection Heq as <- _. by rewrite Ascii.eqb_refl in Hb.
  - injection Heq as -> _. by rewrite Ascii.eqb_refl in Ha.
  - apply andb_prop in Ha as [_ Ha]. apply andb_prop in Hb as [_ Hb].
    injection Heq as -> Heq. by destruct (IH b Ha Hb Heq) as [-> ->].
Qed.

Lemma dashFree_head (a s : string) :
  dashFree a = true → a ≠ EmptyString → ∀ t, a +:+ s ≠ String "-"%char t.
Proof.
  destruct a as [|c a]; [done|]. simpl. intros Ha _ t Heq.
  injection Heq as -> _. by rewrite Ascii.eqb_refl in Ha.
Qed.

(** Two squares with the same key are the same square. *)
Lemma positionKey_inj (r c r' c' : Z) :
  positionKey r c = positionKey r' c' → r = r' ∧ c = c'.
Proof.
  unfold positionKey. intros Heq.
  cut (pretty r = pretty r' ∧ pretty c = pretty c').
  { intros [H1 H2]. by apply (inj pretty) in H1, H2. }
  destruct (pretty_Z_shape r) as [[Hr Hr']|(d & Hd & Hr & Hr')],
    (pretty_Z_shape r') as [[Hs Hs']|(e & He & Hs & Hs')].
  - by apply split_at_dash.
  - rewrite He in Heq. simpl in Heq. by apply dashFree_head in Heq.
  - rewrite Hd in Heq. simpl in Heq. symmetry in Heq. by apply dashFree_head in Heq.
  - rewrite Hd, He in *. simpl in Heq. simplify_eq.
    apply split_at_dash in Heq as [-> ->]; done.
Qed.

(** ** What a press does: turn, removal, outcome and selection *)

Lemma removalApplied_intro (gs gs' : GameState) (row col : Z) :
  board gs' = board gs →
  currentPlayer gs' = otherPlayer (currentPlayer gs) →
  removedSquares gs' = {[ positionKey row col ]} ∪ removedSquares gs →
  gameOver gs' = gameOver gs →
  winner gs' = winner gs →
  removalApplied gs row col gs'.
Proof.
  intros Hboard Hturn Hledger Hover Hwinner. unfold removalApplied.
  rewrite Hturn, Hledger.
  split_and!; [done|apply otherPlayer_ne| | |done|done].
  - apply elem_of_union_l, elem_of_singleton. done.
  - intros r c _ _. rewrite elem_of_union, elem_of_singleton. split.
    + intros [Hkey|?]; [left|by right].
      apply positionKey_inj in Hkey as [-> ->]. done.
    + intros [Heq|?]; [left|by right]. by simplify_eq.
Qed.

Section PressFacts.
Context (L : ChessLogic).

(** C5.  While the game is on, a press in remove mode is refused, with an
    alert and no change, exactly when the target is occupied, or removed
    already, or (with a budget) the player to move has used
    [removalsPerPlayer] removals.  Otherwise, on a row the board has, the
    press returns without an alert and the removal is applied: no piece has
    moved, the turn is the opponent's, the square is in [removedSquares] and
    no other square has joined or left it; with a budget the mover's count
    of removals is one more and the opponent's is as it was, without one the
    counts are untouched.  Both versions. *)
Theorem removal_refused_iff_invalid (cfg : Budgeted.GameConfig) (pm : list Position)
    (gs : GameState) (row col : Z) (Hon : gameOver gs = false) :
  let a := Budgeted.mkApp cfg gs remove pm in
  let p := Plain.mkApp gs remove in
  let exhausted := quotaExhausted (Budgeted.removalsPerPlayer cfg) gs in
  let mover := currentPlayer gs in
  (Rejected a (Budgeted.handleSquarePress L a row col)
   ↔ isInvalidRemoval exhausted gs row col = true)
  ∧ (Rejected p (Plain.handleSquarePress L p row col)
     ↔ isInvalidRemoval false gs row col = true)
  ∧ (isInvalidRemoval exhausted gs row col = false →
     is_Some (getPiece (board gs) row col) →
     ∃ a', Budgeted.handleSquarePress L a row col = Returned a' None
       ∧ removalApplied gs row col (Budgeted.gameState a')
       ∧ getFor (removalsUsed (Budgeted.gameState a')) mover
         = getFor (removalsUsed gs) mover + 1
       ∧ (∀ player, player ≠ mover →
          getFor (removalsUsed (Budgeted.gameState a')) player
          = getFor (removalsUsed gs) player)
       ∧ Budgeted.actionMode a' = move)
  ∧ (isInvalidRemoval false gs row col = false →
     is_Some (getPiece (board gs) row col) →
     ∃ p', Plain.handleSquarePress L p row col = Returned p' None
       ∧ removalApplied gs row col (Plain.gameState p')
       ∧ removalsUsed (Plain.gameState p') = removalsUsed gs
       ∧ Plain.actionMode p' = move).
Proof.
  intros a p exhausted mover. subst a p exhausted mover.
  split_and!; [by apply budgeted_removal_refused|by apply plain_removal_refused|..];
    unfold isInvalidRemoval, quotaExhausted, isAlreadyRemoved, isOccupied;
    unfold_press; rewrite ?Hon.
  - destruct (_ >=? _); simpl; [done|].
    case_bool_decide; simpl; [done|].
    destruct (getPiece _ _ _) as [[?|]|]; [done| |by intros _ [? ?]].
    intros _ _. eexists. split; [done|]. simpl.
    split_and!; [by apply removalApplied_intro| | |done].
    + by destruct (currentPlayer gs).
    + intros player Hne. by destruct (currentPlayer gs), player.
  - case_bool_decide; simpl; [done|].
    destruct (getPiece _ _ _) as [[?|]|]; [done| |by intros _ [? ?]].
    intros _ _. eexists. split; [done|]. simpl.
    split_and!; [by apply removalApplied_intro|done..].
Qed.

(** What a press does to the turn, by whether the action is accepted. *)
Lemma budgeted_press_turn (cfg : Budgeted.GameConfig) (pm : list Position)
    (gs : GameState) (mode : ActionMode) (row col : Z) :
  gameOver gs = false →
  let a := Budgeted.mkApp cfg gs mode pm in
  let accepted :=
    isAccepted L (quotaExhausted (Budgeted.removalsPerPlayer cfg) gs) gs mode
      row col in
  match Budgeted.handleSquarePress L a row col with
  | Threw => accepted = false
  | Returned a' alert =>
      currentPlayer (Budgeted.gameState a')
      = (if accepted then otherPlayer (currentPlayer gs) else currentPlayer gs)
      ∧ (accepted = true → ∀ r, alert = Some r → isRejection r = false)
      ∧ (∀ r, alert = Some r → isRejection r = true → accepted = false ∧ a' = a)
  end.
Proof.
  intros Hon a accepted. subst a accepted.
  unfold isAccepted, isAcceptedMove, isAcceptedRemoval, isLegalMove,
    leavesKingInCheck, moveAttempt, quotaExhausted, isAlreadyRemoved, isOccupied,
    rowExists, getPiece.
  unfold_press. rewrite Hon. destruct mode; simpl.
  - destruct (selectedSquare gs) as [[sr sc]|] eqn:Hsel; simpl.
    + rewrite same_square_decide.
      destruct (decide ((sr, sc) = (row, col))); settle_decides; simpl;
        [by split_and!|].
      destruct (isValidMove L _ _ _ _ _) eqn:Hvalid; simpl.
      * destruct (isInCheck L _ _ _) eqn:Hcheck; simpl; [by split_and!|].
        split_and!; [done| |].
        -- intros _ r Hr. by apply moveAlert_not_rejection in Hr.
        -- intros r Hr Hrej. apply moveAlert_not_rejection in Hr. congruence.
      * unfold getPiece. destruct (index (board gs) row); simpl; [|done].
        destruct (ownedBy _ _); by split_and!.
    + unfold getPiece. destruct (index (board gs) row); simpl; [|done].
      destruct (ownedBy _ _); by split_and!.
  - destruct (_ >=? _); simpl; [by split_and!; [..|intros; simplify_eq]|].
    case_bool_decide; simpl; [by split_and!; [..|intros; simplify_eq]|].
    unfold getPiece. destruct (index (board gs) row) as [r|]; simpl; [|done].
    destruct (index r col) as [[?|]|]; simpl;
      by split_and!; [..|intros; simplify_eq].
Qed.

Lemma plain_press_turn (gs : GameState) (mode : ActionMode) (row col : Z) :
  gameOver gs = false →
  let p := Plain.mkApp gs mode in
  let accepted := isAccepted L false gs mode row col in
  match Plain.handleSquarePress L p row col with
  | Threw => accepted = false
  | Returned p' alert =>
      currentPlayer (Plain.gameState p')
      = (if accepted then otherPlayer (currentPlayer gs) else currentPlayer gs)
      ∧ (accepted = true → ∀ r, alert = Some r → isRejection r = false)
      ∧ (∀ r, alert = Some r → isRejection r = true → accepted = false ∧ p' = p)
  end.
Proof.
  intros Hon p accepted. subst p accepted.
  unfold isAccepted, isAcceptedMove, isAcceptedRemoval, isLegalMove,
    leavesKingInCheck, moveAttempt, isAlreadyRemoved, isOccupied,
    rowExists, getPiece.
  unfold_press. rewrite Hon. destruct mode; simpl.
  - destruct (selectedSquare gs) as [[sr sc]|] eqn:Hsel; simpl.
    + rewrite same_square_decide.
      destruct (decide ((sr, sc) = (row, col))); settle_decides; simpl;
        [by split_and!|].
      destruct (isValidMove L _ _ _ _ _) eqn:Hvalid; simpl.
      * destruct (isInCheck L _ _ _) eqn:Hcheck; simpl; [by split_and!|].
        split_and!; [done| |].
        -- intros _ r Hr. by apply moveAlert_not_rejection in Hr.
        -- intros r Hr Hrej. apply moveAlert_not_rejection in Hr. congruence.
      * unfold getPiece. destruct (index (board gs) row); simpl; [|done].
        destruct (ownedBy _ _); by split_and!.
    + unfold getPiece. destruct (index (board gs) row); simpl; [|done].
      destruct (ownedBy _ _); by split_and!.
  - case_bool_decide; simpl; [by split_and!; [..|intros; simplify_eq]|].
    unfold getPiece. destruct (index (board gs) row) as [r|]; simpl; [|done].
    destruct (index r col) as [[?|]|]; simpl;
      by split_and!; [..|intros; simplify_eq].
Qed.

(** C4.  While the game is on, after a press the turn is the opponent's
    exactly when the press is an accepted action, a legal move or a legal
    removal, and the mover's otherwise; an accepted action is carried out
    (the press returns, with no alert of refusal), and a press refused with
    an alert is no accepted action and changes nothing.  The opponent is
    never the mover.  Both versions. *)
Theorem turn_passes_iff_accepted (cfg : Budgeted.GameConfig) (pm : list Position)
    (gs : GameState) (mode : ActionMode) (row col : Z)
    (Hon : gameOver gs = false) :
  let a := Budgeted.mkApp cfg gs mode pm in
  let p := Plain.mkApp gs mode in
  let mover := currentPlayer gs in
  let opponent := otherPlayer mover in
  let acceptedB :=
    isAccepted L (quotaExhausted (Budgeted.removalsPerPlayer cfg) gs) gs mode
      row col in
  let acceptedP := isAccepted L false gs mode row col in
  opponent ≠ mover
  ∧ currentPlayer
      (Budgeted.gameState (Budgeted.handle L a (Budgeted.Press row col)))
    = (if acceptedB then opponent else mover)
  ∧ currentPlayer (Plain.gameState (Plain.handle L p (Plain.Press row col)))
    = (if acceptedP then opponent else mover)
  ∧ (acceptedB = true →
     ∃ a' alert,
       Budgeted.handleSquarePress L a row col = Returned a' alert
       ∧ currentPlayer (Budgeted.gameState a') = opponent
       ∧ ∀ r, alert = Some r → isRejection r = false)
  ∧ (acceptedP = true →
     ∃ p' alert,
       Plain.handleSquarePress L p row col = Returned p' alert
       ∧ currentPlayer (Plain.gameState p') = opponent
       ∧ ∀ r, alert = Some r → isRejection r = false)
  ∧ (∀ a' r,
       Budgeted.handleSquarePress L a row col = Returned a' (Some r) →
       isRejection r = true → acceptedB = false ∧ a' = a)
  ∧ (∀ p' r,
       Plain.handleSquarePress L p row col = Returned p' (Some r) →
       isRejection r = true → acceptedP = false ∧ p' = p).
Proof.
  intros a p mover opponent acceptedB acceptedP.
  pose proof (budgeted_press_turn cfg pm gs mode row col Hon) as HB.
  pose proof (plain_press_turn gs mode row col Hon) as HP.
  simpl in HB, HP. fold a acceptedB in HB. fold p acceptedP in HP.
  fold mover opponent in HB, HP.
  split_and!.
  - apply otherPlayer_ne.
  - simpl. destruct (Budgeted.handleSquarePress L a row col) as [|a' alert].
    + by rewrite HB.
    + by destruct HB as [-> _].
  - simpl. destruct (Plain.handleSquarePress L p row col) as [|p' alert].
    + by rewrite HP.
    + by destruct HP as [-> _].
  - intros Hacc. destruct (Budgeted.handleSquarePress L a row col) as [|a' alert].
    + congruence.
    + destruct HB as (Hturn & Hok & _). rewrite Hacc in Hturn.
      exists a', alert. split_and!; [done|done|exact (Hok Hacc)].
  - intros Hacc. destruct (Plain.handleSquarePress L p row col) as [|p' alert].
    + congruence.
    + destruct HP as (Hturn & Hok & _). rewrite Hacc in Hturn.
      exists p', alert. split_and!; [done|done|exact (Hok Hacc)].
  - intros a' r Hpress Hrej. rewrite Hpress in HB.
    destruct HB as (_ & _ & Hrefused). by apply (Hrefused r).
  - intros p' r Hpress Hrej. rewrite Hpress in HP.
    destruct HP as (_ & _ & Hrefused). by apply (Hrefused r).
Qed.

(** What an accepted move leaves: the new board, the turn with the
    opponent, and the outcome the Checkmate Detector decides. *)
Lemma accepted_move_outcome (cfg : Budgeted.GameConfig) (pm : list Position)
    (gs : GameState) (mode : ActionMode) (row col : Z) :
  gameOver gs = false →
  noWinnerYet gs →
  isAcceptedMove L gs mode row col = true →
  ∃ sel gs' alert,
    selectedSquare gs = Some sel
    ∧ Budgeted.handleSquarePress L (Budgeted.mkApp cfg gs mode pm) row col
      = Returned (Budgeted.mkApp cfg gs' move []) alert
    ∧ Plain.handleSquarePress L (Plain.mkApp gs mode) row col
      = Returned (Plain.mkApp gs' move) alert
    ∧ board gs' = MoveResult.board (makeMove L (board gs) sel (row, col) gs)
    ∧ currentPlayer gs' = otherPlayer (currentPlayer gs)
    ∧ if isCheckmate L (board gs') (currentPlayer gs') (removedSquares gs)
           (updateCastlingRights L gs sel (row, col))
      then gameOver gs' = true ∧ winner gs' = Some (currentPlayer gs)
      else gameOver gs' = gameOver gs ∧ winner gs' = winner gs.
Proof.
  intros Hon Hinv Hacc. unfold isAcceptedMove in Hacc.
  destruct (moveAttempt gs mode row col) as [sel|] eqn:Hattempt; [|done].
  unfold isLegalMove in Hacc. apply andb_true_iff in Hacc as [Hvalid Hsafe].
  apply negb_true_iff in Hsafe.
  pose proof (press_on_valid_move L cfg pm gs mode row col sel Hon Hattempt Hvalid)
    as Hpress.
  simpl in Hpress. rewrite Hsafe in Hpress. destruct Hpress as (alert & HB & HP).
  exists sel, (applyMove L gs sel (row, col)).1, alert.
  split_and!; [|exact HB|exact HP|done|done|].
  - unfold moveAttempt in Hattempt. destruct mode; [|done].
    destruct (selectedSquare gs) as [sel'|]; [|done].
    case_bool_decide; by simplify_eq.
  - unfold applyMove. simpl. destruct (isCheckmate L _ _ _ _); [done|].
    rewrite Hon. split; [done|]. symmetry. by apply Hinv.
Qed.

(** C3.  On every state the screen reaches with the game on, a press that
    is an accepted move (a legal move from the selected square to the
    pressed one) is applied: the press returns, the board is the one the
    move makes and the turn is the opponent's; and then, if [isCheckmate]
    holds for the new player to move on the new board, [gameOver] is true
    and the winner is the player who moved; otherwise [gameOver] and
    [winner] are as they were.  Conversely a press in move mode that passes
    the turn is such a move.  The same outcome follows from any state, reached
    or not, in which the game is on and no winner is recorded.  Both
    versions. *)
Theorem checkmate_ends_game (es : list Budgeted.Event) (es' : list Plain.Event)
    (row col : Z) :
  let a := Budgeted.run L es in
  let p := Plain.run L es' in
  (let gs := Budgeted.gameState a in
   gameOver gs = false →
   isAcceptedMove L gs (Budgeted.actionMode a) row col = true →
   ∃ sel a' alert,
     let gs' := Budgeted.gameState a' in
     selectedSquare gs = Some sel
     ∧ Budgeted.handleSquarePress L a row col = Returned a' alert
     ∧ board gs' = MoveResult.board (makeMove L (board gs) sel (row, col) gs)
     ∧ currentPlayer gs' = otherPlayer (currentPlayer gs)
     ∧ currentPlayer gs' ≠ currentPlayer gs
     ∧ if isCheckmate L (board gs') (currentPlayer gs') (removedSquares gs)
            (updateCastlingRights L gs sel (row, col))
       then gameOver gs' = true ∧ winner gs' = Some (currentPlayer gs)
       else gameOver gs' = gameOver gs ∧ winner gs' = winner gs)
  ∧ (let gs := Plain.gameState p in
     gameOver gs = false →
     isAcceptedMove L gs (Plain.actionMode p) row col = true →
     ∃ sel p' alert,
       let gs' := Plain.gameState p' in
       selectedSquare gs = Some sel
       ∧ Plain.handleSquarePress L p row col = Returned p' alert
       ∧ board gs' = MoveResult.board (makeMove L (board gs) sel (row, col) gs)
       ∧ currentPlayer gs' = otherPlayer (currentPlayer gs)
       ∧ currentPlayer gs' ≠ currentPlayer gs
       ∧ if isCheckmate L (board gs') (currentPlayer gs') (removedSquares gs)
              (updateCastlingRights L gs sel (row, col))
         then gameOver gs' = true ∧ winner gs' = Some (currentPlayer gs)
         else gameOver gs' = gameOver gs ∧ winner gs' = winner gs)
  ∧ (∀ a' alert,
       Budgeted.handleSquarePress L a row col = Returned a' alert →
       Budgeted.actionMode a = move →
       currentPlayer (Budgeted.gameState a') ≠ currentPlayer (Budgeted.gameState a) →
       gameOver (Budgeted.gameState a) = false
       ∧ isAcceptedMove L (Budgeted.gameState a) move row col = true)
  ∧ (∀ p' alert,
       Plain.handleSquarePress L p row col = Returned p' alert →
       Plain.actionMode p = move →
       currentPlayer (Plain.gameState p') ≠ currentPlayer (Plain.gameState p) →
       gameOver (Plain.gameState p) = false
       ∧ isAcceptedMove L (Plain.gameState p) move row col = true)
  ∧ (∀ cfg pm gs mode,
       gameOver gs = false →
       noWinnerYet gs →
       isAcceptedMove L gs mode row col = true →
       ∃ sel gs' alert,
         selectedSquare gs = Some sel
         ∧ Budgeted.handleSquarePress L (Budgeted.mkApp cfg gs mode pm) row col
           = Returned (Budgeted.mkApp cfg gs' move []) alert
         ∧ Plain.handleSquarePress L (Plain.mkApp gs mode) row col
           = Returned (Plain.mkApp gs' move) alert
         ∧ board gs' = MoveResult.board (makeMove L (board gs) sel (row, col) gs)
         ∧ currentPlayer gs' = otherPlayer (currentPlayer gs)
         ∧ if isCheckmate L (board gs') (currentPlayer gs') (removedSquares gs)
                (updateCastlingRights L gs sel (row, col))
           then gameOver gs' = true ∧ winner gs' = Some (currentPlayer gs)
           else gameOver gs' = gameOver gs ∧ winner gs' = winner gs).
Proof.
  intros a p. split_and!; [| | | |intros cfg pm gs mode; apply accepted_move_outcome].
  - intros gs Hon Hacc.
    pose proof (budgeted_run_noWinnerYet L es) as Hinv. fold a gs in Hinv.
    destruct (accepted_move_outcome (Budgeted.gameConfig a)
                (Budgeted.possibleMoves a) gs (Budgeted.actionMode a) row col
                Hon Hinv Hacc)
      as (sel & gs' & alert & Hsel & HB & _ & Hboard & Hturn & Hout).
    exists sel, (Budgeted.mkApp (Budgeted.gameConfig a) gs' move []), alert.
    simpl. split_and!; [done| |done|done| |done].
    + rewrite <-HB. subst gs. by destruct a.
    + rewrite Hturn. apply otherPlayer_ne.
  - intros gs Hon Hacc.
    pose proof (plain_run_noWinnerYet L es') as Hinv. fold p gs in Hinv.
    destruct (accepted_move_outcome Games.config [] gs (Plain.actionMode p)
                row col Hon Hinv Hacc)
      as (sel & gs' & alert & Hsel & _ & HP & Hboard & Hturn & Hout).
    exists sel, (Plain.mkApp gs' move), alert.
    simpl. split_and!; [done| |done|done| |done].
    + rewrite <-HP. subst gs. by destruct p.
    + rewrite Hturn. apply otherPlayer_ne.
  - intros a' alert Hpress Hmode Hturn.
    destruct (gameOver (Budgeted.gameState a)) eqn:Hon.
    { rewrite budgeted_press_over in Hpress by done. by simplify_eq. }
    split; [done|].
    destruct (budgeted_move_outcome L a a' row col alert Hpress Hmode Hturn
                (budgeted_run_noWinnerYet L es))
      as (sel & Hattempt & Hlegal & _).
    unfold isAcceptedMove. by rewrite Hattempt.
  - intros p' alert Hpress Hmode Hturn.
    destruct (gameOver (Plain.gameState p)) eqn:Hon.
    { rewrite plain_press_over in Hpress by done. by simplify_eq. }
    split; [done|].
    destruct (plain_move_outcome L p p' row col alert Hpress Hmode Hturn
                (plain_run_noWinnerYet L es'))
      as (sel & Hattempt & Hlegal & _).
    unfold isAcceptedMove. by rewrite Hattempt.
Qed.







End PressFacts.

(** ** The rule engine *)

Module RulesFacts.
Import Rules.

Lemma index_alter_ne {A} (f : A → A) (l : list A) (i j : Z) :
  0 <= i → i ≠ j → index (alter f (Z.to_nat i) l) j = index l j.
Proof.
  intros Hi Hne. unfold index. destruct (j <? 0) eqn:Hj; [done|].
  apply list_lookup_alter_ne. lia.
Qed.

Lemma index_alter_eq {A} (f : A → A) (l : list A) (i : Z) :
  0 <= i → index (alter f (Z.to_nat i) l) i = f <$> index l i.
Proof.
  intros Hi. unfold index. destruct (i <? 0) eqn:Hj; [lia|].
  apply list_lookup_alter_eq.
Qed.

Lemma index_insert_ne {A} (x : A) (l : list A) (i j : Z) :
  0 <= i → i ≠ j → index (<[Z.to_nat i := x]> l) j = index l j.
Proof.
  intros Hi Hne. unfold index. destruct (j <? 0) eqn:Hj; [done|].
  apply list_lookup_insert_ne. lia.
Qed.

(** Writing a square changes that square only. *)
Lemma pieceAt_setSquare_ne (b : Board) (q p : Position) (v : option Piece) :
  p ≠ q → pieceAt (setSquare b q v) p = pieceAt b p.
Proof.
  destruct p as [r c], q as [r' c']. intros Hne.
  unfold pieceAt, setSquare, getPiece, Board. simpl.
  destruct (r' <? 0) eqn:Hr'; [done|].
  destruct (c' <? 0) eqn:Hc'; [done|]. simpl.
  destruct (decide (r = r')) as [->|Hr].
  - rewrite index_alter_eq by lia.
    destruct (index b r') as [row|]; [|done]. simpl.
    rewrite index_insert_ne; [done|lia|congruence].
  - by rewrite index_alter_ne by (lia || done).
Qed.

(** What is read after a write is what was written or what was there. *)
Lemma pieceAt_setSquare (b : Board) (q p : Position) (v : option Piece) :
  pieceAt (setSquare b q v) p = pieceAt b p
  ∨ (p = q ∧ pieceAt (setSquare b q v) p = v).
Proof.
  destruct (decide (p = q)) as [->|Hne];
    [|left; by apply pieceAt_setSquare_ne].
  destruct q as [r c]. unfold pieceAt, setSquare, getPiece, Board. simpl.
  destruct (r <? 0) eqn:Hr; [by left|].
  destruct (c <? 0) eqn:Hc; [by left|]. simpl.
  rewrite index_alter_eq by lia.
  destruct (index b r) as [row|]; [|by left]. simpl.
  unfold index. rewrite Hc.
  destruct (decide (Z.to_nat c < length row)%nat).
  - right. by rewrite list_lookup_insert_eq.
  - left. by rewrite list_insert_ge by lia.
Qed.

Lemma pieceAt_setSquare_None (b : Board) (q p : Position) :
  pieceAt b p = None → pieceAt (setSquare b q None) p = None.
Proof.
  intros Hp. destruct (pieceAt_setSquare b q p None) as [->|[_ ->]]; done.
Qed.

(** *** Destinations are never removed squares *)

Lemma ray_along (n : nat) (b : Board) (rm : gset string) (mover : Player)
    (from : Position) (d : Z * Z) (p : Position) :
  p ∈ ray n b rm mover from d →
  ∃ k, 1 <= k ∧ p = along from d k
    ∧ ∀ m, 1 <= m <= k → isRemoved rm (along from d m) = false.
Proof.
  revert from. induction n as [|n IH]; intros from; simpl; [by intros ?%elem_of_nil|].
  assert (Hone : offset from d = along from d 1).
  { unfold offset, along. f_equal; lia. }
  assert (Hfirst : isRemoved rm (offset from d) = false →
            p = offset from d →
            ∃ k, 1 <= k ∧ p = along from d k
              ∧ ∀ m, 1 <= m <= k → isRemoved rm (along from d m) = false).
  { intros Hrm ->. exists 1. split_and!; [lia|done|].
    intros m Hm. assert (m = 1) as -> by lia. by rewrite <-Hone. }
  destruct (inBounds (offset from d)); simpl; [|by intros ?%elem_of_nil].
  destruct (isRemoved rm (offset from d)) eqn:Hrm; [by intros ?%elem_of_nil|].
  destruct (pieceAt b (offset from d)) as [pc|].
  - case_bool_decide; [by intros ?%elem_of_nil|].
    intros ->%list_elem_of_singleton. by apply Hfirst.
  - intros [->|Hin]%elem_of_cons; [by apply Hfirst|].
    destruct (IH _ Hin) as (k & Hk & -> & Hfree).
    assert (Hshift : ∀ m, along (offset from d) d m = along from d (m + 1)).
    { intros m. unfold offset, along. simpl. f_equal; lia. }
    exists (k + 1). split_and!; [lia|by rewrite Hshift|].
    intros m Hm. destruct (decide (m = 1)) as [->|?]; [by rewrite <-Hone|].
    replace m with ((m - 1) + 1) by lia. rewrite <-Hshift. apply Hfree. lia.
Qed.

Lemma ray_not_removed (n : nat) (b : Board) (rm : gset string) (mover : Player)
    (from : Position) (d : Z * Z) (p : Position) :
  p ∈ ray n b rm mover from d → isRemoved rm p = false.
Proof.
  intros (k & Hk & -> & Hfree)%ray_along. apply Hfree. lia.
Qed.

Lemma slide_not_removed (b : Board) (rm : gset string) (mover : Player)
    (from : Position) (dirs : list (Z * Z)) (p : Position) :
  p ∈ slide b rm mover from dirs → isRemoved rm p = false.
Proof.
  unfold slide. intros (d & Hray & _)%list_elem_of_bind.
  by eapply ray_not_removed.
Qed.

Lemma jump_not_removed (b : Board) (rm : gset string) (mover : Player)
    (from : Position) (offsets : list (Z * Z)) (p : Position) :
  p ∈ jump b rm mover from offsets → isRemoved rm p = false.
Proof.
  unfold jump, canLand. intros [Hland _]%list_elem_of_filter.
  apply Is_true_eq_true in Hland.
  apply andb_prop in Hland as [Hland _]. apply andb_prop in Hland as [_ Hland].
  by apply negb_true_iff.
Qed.

Lemma isFree_not_removed (b : Board) (rm : gset string) (p : Position) :
  isFree b rm p = true → isRemoved rm p = false.
Proof.
  unfold isFree. intros Hfree.
  apply andb_prop in Hfree as [Hfree _]. apply andb_prop in Hfree as [_ Hfree].
  by apply negb_true_iff.
Qed.

Lemma pawnCaptures_not_removed (b : Board) (rm : gset string) (mover : Player)
    (from p : Position) :
  p ∈ pawnCaptures b rm mover from → isRemoved rm p = false.
Proof.
  unfold pawnCaptures. intros [Hok _]%list_elem_of_filter.
  apply Is_true_eq_true in Hok.
  apply andb_prop in Hok as [Hok _]. apply andb_prop in Hok as [_ Hok].
  by apply negb_true_iff.
Qed.

Lemma pawnAdvances_not_removed (b : Board) (rm : gset string) (mover : Player)
    (from p : Position) :
  p ∈ pawnAdvances b rm mover from → isRemoved rm p = false.
Proof.
  unfold pawnAdvances.
  destruct (isFree b rm (offset from (forward mover, 0))) eqn:Hone;
    [|by intros ?%elem_of_nil].
  intros [->|Hin]%elem_of_cons; [by eapply isFree_not_removed|].
  destruct (bool_decide _); simpl in Hin; [|by apply elem_of_nil in Hin].
  destruct (isFree b rm (offset from (2 * forward mover, 0))) eqn:Htwo;
    [|by apply elem_of_nil in Hin].
  apply list_elem_of_singleton in Hin as ->. by eapply isFree_not_removed.
Qed.

Lemma attacks_not_removed (b : Board) (rm : gset string) (from p : Position) :
  p ∈ attacks b rm from → isRemoved rm p = false.
Proof.
  unfold attacks. destruct (pieceAt b from) as [pc|]; [|by intros ?%elem_of_nil].
  destruct (type pc);
    eauto using jump_not_removed, slide_not_removed, pawnCaptures_not_removed.
Qed.

(** A castling destination comes with a clear way between king and rook. *)
Lemma castlingDestinations_clear (b : Board) (rm : gset string) (gs : GameState)
    (c : Player) (from p : Position) :
  p ∈ castlingDestinations b rm gs c from →
  ∃ s, p = (homeRow c, kingTarget s) ∧ from = (homeRow c, 4)
    ∧ ∀ col, col ∈ between s → isFree b rm (homeRow c, col) = true.
Proof.
  unfold castlingDestinations.
  intros (s & -> & [Hcan _]%list_elem_of_filter)%list_elem_of_fmap.
  apply Is_true_eq_true in Hcan. unfold canCastle in Hcan.
  destruct (hasRight gs c s && bool_decide (from = (homeRow c, 4))) eqn:Hright;
    [|done].
  apply andb_prop in Hright as [_ Hfrom%bool_decide_eq_true].
  destruct (forallb _ (between s)) eqn:Hfree; [|done].
  exists s. split_and!; [done..|].
  intros col Hcol. rewrite forallb_forall in Hfree.
  by apply Hfree, list_elem_of_In.
Qed.

Lemma kingTarget_between (s : Side) : kingTarget s ∈ between s.
Proof. destruct s; simpl; set_solver. Qed.

Lemma rookTarget_between (s : Side) : rookTarget s ∈ between s.
Proof. destruct s; simpl; set_solver. Qed.

Lemma destinations_not_removed (b : Board) (rm : gset string) (gs : GameState)
    (from p : Position) :
  p ∈ destinations b rm gs from → isRemoved rm p = false.
Proof.
  unfold destinations.
  destruct (pieceAt b from) as [pc|] eqn:Hpc; [|by intros ?%elem_of_nil].
  assert (Hatt : p ∈ attacks b rm from → isRemoved rm p = false)
    by apply attacks_not_removed.
  destruct (type pc) eqn:Htype; try done.
  - intros [Hin|Hin]%elem_of_app; [by eapply jump_not_removed|].
    apply castlingDestinations_clear in Hin as (s & -> & _ & Hfree).
    eapply isFree_not_removed, Hfree, kingTarget_between.
  - intros [Hin|Hin]%elem_of_app;
      eauto using pawnAdvances_not_removed, pawnCaptures_not_removed.
Qed.

(** *** A removed square stops a ray *)

(** A square reached along two of the eight directions is reached along
    one, at one distance. *)
Lemma along_unique (from : Position) (d d' : Z * Z) (j k : Z) :
  d ∈ queenDirections → d' ∈ queenDirections → 1 <= j → 1 <= k →
  along from d j = along from d' k → d = d' ∧ j = k.
Proof.
  unfold queenDirections, rookDirections, bishopDirections, along.
  intros Hd Hd' Hj Hk Heq. simpl in Hd, Hd'.
  repeat (apply elem_of_cons in Hd as [->|Hd]);
    [..|by apply elem_of_nil in Hd];
    repeat (apply elem_of_cons in Hd' as [->|Hd']);
    try (by apply elem_of_nil in Hd');
    simpl in Heq; injection Heq as H1 H2;
    first [ by split; [done|lia] | exfalso; lia ].
Qed.

Lemma slide_blocked (b : Board) (rm : gset string) (mover : Player)
    (from : Position) (dirs : list (Z * Z)) (d : Z * Z) (i j : Z) :
  dirs ⊆ queenDirections → d ∈ queenDirections → 0 < i < j →
  isRemoved rm (along from d i) = true →
  along from d j ∉ slide b rm mover from dirs.
Proof.
  intros Hdirs Hd Hij Hrm. unfold slide.
  intros (d' & Hray & Hd')%list_elem_of_bind.
  apply ray_along in Hray as (k & Hk & Heq & Hfree).
  apply along_unique in Heq as [-> ->]; [|auto with lia..].
  rewrite Hfree in Hrm by lia. done.
Qed.

Lemma slider_blocked (b : Board) (rm : gset string) (gs : GameState)
    (from : Position) (pc : Piece) (d : Z * Z) (i j : Z) :
  pieceAt b from = Some pc → isSlider (type pc) →
  d ∈ queenDirections → 0 < i < j →
  isRemoved rm (along from d i) = true →
  isValidMove b from (along from d j) rm gs = false.
Proof.
  intros Hpc Hslider Hd Hij Hrm. unfold isValidMove.
  apply bool_decide_eq_false. unfold destinations, attacks. rewrite Hpc.
  destruct Hslider as [->|[->| ->]]; eapply slide_blocked; eauto;
    unfold queenDirections; intros x Hx; apply elem_of_app; auto.
Qed.

(** A king's step stays within one column of where it stands. *)
Lemma jump_king_near (b : Board) (rm : gset string) (mover : Player)
    (from p : Position) :
  p ∈ jump b rm mover from queenDirections → -1 <= p.2 - from.2 <= 1.
Proof.
  unfold jump. intros [_ Hin]%list_elem_of_filter.
  apply list_elem_of_fmap in Hin as (d & -> & Hd).
  unfold queenDirections, rookDirections, bishopDirections in Hd. simpl in Hd.
  repeat (apply elem_of_cons in Hd as [->|Hd]); [..|by apply elem_of_nil in Hd];
    simpl; lia.
Qed.

(** A king's move of two columns is a castling move, with all that
    castling asks for between king and rook. *)
Lemma king_two_columns (b : Board) (rm : gset string) (gs : GameState)
    (from to : Position) (c : Player) :
  pieceAt b from = Some (mkPiece king c) →
  to.2 - from.2 = 2 ∨ to.2 - from.2 = -2 →
  isValidMove b from to rm gs = true →
  ∃ s, to = (homeRow c, kingTarget s) ∧ from = (homeRow c, 4)
    ∧ ∀ col, col ∈ between s → isFree b rm (homeRow c, col) = true.
Proof.
  intros Hpc Hcols Hvalid. unfold isValidMove in Hvalid.
  apply bool_decide_eq_true in Hvalid. unfold destinations in Hvalid.
  rewrite Hpc in Hvalid. simpl in Hvalid.
  apply elem_of_app in Hvalid as [Hnear%jump_king_near|Hcastle]; [lia|].
  by apply castlingDestinations_clear in Hcastle.
Qed.

Lemma castling_blocked (b : Board) (rm : gset string) (gs : GameState)
    (c : Player) (s : Side) (col : Z) :
  pieceAt b (homeRow c, 4) = Some (mkPiece king c) →
  col ∈ between s → isRemoved rm (homeRow c, col) = true →
  isValidMove b (homeRow c, 4) (homeRow c, kingTarget s) rm gs = false.
Proof.
  intros Hpc Hcol Hrm.
  destruct (isValidMove _ _ _ _ _) eqn:Hvalid; [exfalso|done].
  eapply king_two_columns in Hvalid as (s' & Hto & _ & Hfree); [|done|].
  - assert (s' = s) as -> by (destruct s, s'; by simplify_eq/=).
    apply Hfree, isFree_not_removed in Hcol. congruence.
  - destruct s; simpl; lia.
Qed.

(** *** Moves keep the ledger clear *)

Lemma isValidMove_not_removed (b : Board) (from to : Position) (rm : gset string)
    (gs : GameState) :
  isRemoved rm to = true → isValidMove b from to rm gs = false.
Proof.
  intros Hrm. destruct (isValidMove _ _ _ _ _) eqn:Hvalid; [|done].
  apply bool_decide_eq_true, destinations_not_removed in Hvalid. congruence.
Qed.

Lemma isKingOf_spec (c : Player) (p : option Piece) :
  isKingOf c p = true ↔ p = Some (mkPiece king c).
Proof. unfold isKingOf. apply bool_decide_eq_true. Qed.

(** A move that [isValidMove] accepts puts no piece on a removed square. *)
Lemma makeMove_keeps_removed_empty (b : Board) (from to : Position)
    (rm : gset string) (gs : GameState) (p : Position) :
  isValidMove b from to rm gs = true →
  isRemoved rm p = true → pieceAt b p = None →
  pieceAt (MoveResult.board (makeMove b from to gs)) p = None.
Proof.
  intros Hvalid Hrm Hempty.
  assert (Hto : p ≠ to).
  { intros ->. by rewrite isValidMove_not_removed in Hvalid. }
  assert (Hmoved :
    pieceAt (setSquare (setSquare b to (pieceAt b from)) from None) p = None).
  { apply pieceAt_setSquare_None. by rewrite pieceAt_setSquare_ne. }
  assert (Hrook : ∀ c s, pieceAt b from = Some (mkPiece king c) →
            to.2 - from.2 = kingTarget s - 4 →
            p ≠ (from.1, rookTarget s)).
  { intros c s Hking Hcols ->.
    assert (Htwo : to.2 - from.2 = 2 ∨ to.2 - from.2 = -2)
      by (destruct s; simpl in Hcols; lia).
    destruct (king_two_columns b rm gs from to c Hking Htwo Hvalid)
      as (s' & -> & -> & Hfree).
    assert (s' = s) as -> by (destruct s, s'; simpl in *; done || lia).
    pose proof (Hfree _ (rookTarget_between s)) as Hfree'.
    apply isFree_not_removed in Hfree'. simpl in Hrm. congruence. }
  unfold makeMove.
  destruct (isKingOf white (pieceAt b from) || isKingOf black (pieceAt b from))
    eqn:Hking; [|done].
  assert (∃ c, pieceAt b from = Some (mkPiece king c)) as [c Hc].
  { apply orb_prop in Hking as [?%isKingOf_spec|?%isKingOf_spec]; eauto. }
  repeat case_bool_decide; simpl; [..|done].
  - apply pieceAt_setSquare_None. rewrite pieceAt_setSquare_ne; [done|].
    by apply (Hrook c kingside).
  - apply pieceAt_setSquare_None. rewrite pieceAt_setSquare_ne; [done|].
    by apply (Hrook c queenside).
Qed.

Lemma updateCastlingRights_removedSquares (gs : GameState) (from to : Position) :
  removedSquares (updateCastlingRights gs from to) = removedSquares gs.
Proof. done. Qed.
End RulesFacts.

(** ** The ledger on the states the screens reach *)

Section LedgerInvariant.
Context (L : ChessLogic).
Hypothesis Hmove : ∀ b from to rm gs p,
  isValidMove L b from to rm gs = true →
  Rules.isRemoved rm p = true → Rules.pieceAt b p = None →
  Rules.pieceAt (MoveResult.board (makeMove L b from to gs)) p = None.
Hypothesis Hrights : ∀ gs from to,
  removedSquares (updateCastlingRights L gs from to) = removedSquares gs.

Lemma ledgerClear_selection (gs : GameState) (s : option Position) :
  ledgerClear gs → ledgerClear (withSelectedSquare gs s).
Proof. done. Qed.

Lemma ledgerClear_removal (gs gs' : GameState) (row col : Z) :
  getPiece (board gs) row col = Some None →
  board gs' = board gs →
  removedSquares gs' = {[ positionKey row col ]} ∪ removedSquares gs →
  ledgerClear gs → ledgerClear gs'.
Proof.
  intros Hempty Hboard Hledger Hclear r c. rewrite Hboard, Hledger.
  intros [Hkey%elem_of_singleton|Hold]%elem_of_union; [|by apply Hclear].
  apply positionKey_inj in Hkey as [-> ->].
  unfold Rules.pieceAt. simpl. by rewrite Hempty.
Qed.

Lemma ledgerClear_move (gs : GameState) (from to : Position) :
  isValidMove L (board gs) from to (removedSquares gs) gs = true →
  ledgerClear gs → ledgerClear (applyMove L gs from to).1.
Proof.
  intros Hvalid Hclear r c. unfold applyMove. simpl. rewrite Hrights.
  intros Hkey. eapply Hmove; [done| |by apply Hclear].
  unfold Rules.isRemoved. by apply bool_decide_eq_true.
Qed.

Lemma budgeted_press_ledgerClear (a a' : Budgeted.App) (row col : Z)
    (alert : option Alert) :
  Budgeted.handleSquarePress L a row col = Returned a' alert →
  ledgerClear (Budgeted.gameState a) → ledgerClear (Budgeted.gameState a').
Proof.
  intros H Hclear.
  unfold Budgeted.handleSquarePress, Budgeted.selectOr in H. simpl in H.
  destruct (gameOver _); [by simplify_eq|].
  destruct (Budgeted.actionMode a).
  - destruct (selectedSquare _) as [[sr sc]|].
    + destruct (_ && _); [by simplify_eq/=|].
      destruct (isValidMove L _ _ _ _ _) eqn:Hvalid.
      * destruct (isInCheck L _ _ _); [by simplify_eq|].
        pose proof (ledgerClear_move _ _ _ Hvalid Hclear) as Hnew.
        simplify_eq/=. apply Hnew.
      * press_cases; by simplify_eq/=.
    + press_cases; by simplify_eq/=.
  - destruct (_ >=? _); [by simplify_eq|].
    destruct (bool_decide _); [by simplify_eq|].
    destruct (getPiece _ _ _) as [[?|]|] eqn:Hempty; simplify_eq/=; [done|].
    by eapply (ledgerClear_removal _ _ row col).
Qed.

Lemma plain_press_ledgerClear (a a' : Plain.App) (row col : Z)
    (alert : option Alert) :
  Plain.handleSquarePress L a row col = Returned a' alert →
  ledgerClear (Plain.gameState a) → ledgerClear (Plain.gameState a').
Proof.
  intros H Hclear.
  unfold Plain.handleSquarePress in H. simpl in H.
  destruct (gameOver _); [by simplify_eq|].
  destruct (Plain.actionMode a).
  - destruct (selectedSquare _) as [[sr sc]|].
    + destruct (_ && _); [by simplify_eq/=|].
      destruct (isValidMove L _ _ _ _ _) eqn:Hvalid.
      * destruct (isInCheck L _ _ _); [by simplify_eq|].
        pose proof (ledgerClear_move _ _ _ Hvalid Hclear) as Hnew.
        simplify_eq/=. apply Hnew.
      * press_cases; by simplify_eq/=.
    + press_cases; by simplify_eq/=.
  - destruct (bool_decide _); [by simplify_eq|].
    destruct (getPiece _ _ _) as [[?|]|] eqn:Hempty; simplify_eq/=; [done|].
    by eapply (ledgerClear_removal _ _ row col).
Qed.

Lemma ledgerClear_initial (gs : GameState) :
  removedSquares gs = ∅ → ledgerClear gs.
Proof. intros Hnone r c. rewrite Hnone. by intros ?%not_elem_of_empty. Qed.

Lemma budgeted_handle_ledgerClear (a : Budgeted.App) (e : Budgeted.Event) :
  ledgerClear (Budgeted.gameState a) →
  ledgerClear (Budgeted.gameState (Budgeted.handle L a e)).
Proof.
  intros Hclear. destruct e as [row col|m| |player|s| |]; simpl; try done.
  - destruct (Budgeted.handleSquarePress L a row col) eqn:H; [done|].
    by eapply budgeted_press_ledgerClear.
  - unfold Budgeted.timerTick, Budgeted.handleTimeUp. simpl.
    press_cases; simpl; done.
Qed.

Lemma plain_handle_ledgerClear (a : Plain.App) (e : Plain.Event) :
  ledgerClear (Plain.gameState a) →
  ledgerClear (Plain.gameState (Plain.handle L a e)).
Proof.
  intros Hclear. destruct e as [row col|m|]; simpl; try done.
  destruct (Plain.handleSquarePress L a row col) eqn:H; [done|].
  by eapply plain_press_ledgerClear.
Qed.

Lemma budgeted_run_ledgerClear (es : list Budgeted.Event) :
  ledgerClear (Budgeted.gameState (Budgeted.run L es)).
Proof.
  induction es as [|e es IH] using rev_ind; [by apply ledgerClear_initial|].
  rewrite budgeted_run_snoc. by apply budgeted_handle_ledgerClear.
Qed.

Lemma plain_run_ledgerClear (es : list Plain.Event) :
  ledgerClear (Plain.gameState (Plain.run L es)).
Proof.
  induction es as [|e es IH] using rev_ind; [by apply ledgerClear_initial|].
  rewrite plain_run_snoc. by apply plain_handle_ledgerClear.
Qed.
End LedgerInvariant.

(** C2.  With the rule engine of the specification: on every state the
    screens reach, no square of the removal ledger holds a piece;
    [isValidMove] is false for every move whose destination is a removed
    square; a rook, bishop or queen has no move to a square lying beyond a
    removed square on one of its rays; and a king on its home square has no
    castling move when a square between it and the rook is removed. *)
Theorem removed_squares_are_impassable :
  (∀ a, Budgeted.reachable Rules.logic a → ledgerClear (Budgeted.gameState a))
  ∧ (∀ p, Plain.reachable Rules.logic p → ledgerClear (Plain.gameState p))
  ∧ (∀ b from to rm gs,
       Rules.isRemoved rm to = true → Rules.isValidMove b from to rm gs = false)
  ∧ (∀ b rm gs from pc d i j,
       Rules.pieceAt b from = Some pc → isSlider (type pc) →
       d ∈ Rules.queenDirections → 0 < i < j →
       Rules.isRemoved rm (along from d i) = true →
       Rules.isValidMove b from (along from d j) rm gs = false)
  ∧ (∀ b rm gs c s col,
       Rules.pieceAt b (Rules.homeRow c, 4) = Some (mkPiece king c) →
       col ∈ Rules.between s →
       Rules.isRemoved rm (Rules.homeRow c, col) = true →
       Rules.isValidMove b (Rules.homeRow c, 4)
         (Rules.homeRow c, Rules.kingTarget s) rm gs = false).
Proof.
  split_and!.
  - intros a [es <-]. apply budgeted_run_ledgerClear.
    + apply RulesFacts.makeMove_keeps_removed_empty.
    + apply RulesFacts.updateCastlingRights_removedSquares.
  - intros p [es <-]. apply plain_run_ledgerClear.
    + apply RulesFacts.makeMove_keeps_removed_empty.
    + apply RulesFacts.updateCastlingRights_removedSquares.
  - apply RulesFacts.isValidMove_not_removed.
  - intros. by eapply RulesFacts.slider_blocked.
  - apply RulesFacts.castling_blocked.
Qed.

(** ** The statements at work on games *)


Example opening_move :
  let a := Budgeted.run Rules.logic [Budgeted.Press 6 4; Budgeted.Press 4 4] in
  let gs := Budgeted.gameState a in
  Rules.pieceAt (board gs) (4, 4) = Some (mkPiece pawn white)
  ∧ Rules.pieceAt (board gs) (6, 4) = None
  ∧ currentPlayer gs = black
  ∧ Rules.isInCheck (board gs) black (removedSquares gs) = false.
Proof. vm_compute. done. Qed.

Example fools_mate :
  let a := Budgeted.run Rules.logic (Games.beforeMate ++ [Budgeted.Press 4 7]) in
  let gs := Budgeted.gameState a in
  gameOver gs = true ∧ winner gs = Some black.
Proof. vm_compute. done. Qed.

Example check_must_be_answered :
  let a := Budgeted.run Rules.logic Games.inCheck in
  Budgeted.handleSquarePress Rules.logic a 5 0 = Returned a (Some MouvementInvalide).
Proof. vm_compute. done. Qed.

Example removed_square_blocks_rook :
  let es := [Budgeted.Press 6 0; Budgeted.Press 4 0;   (* a4 *)
             Budgeted.Press 1 7; Budgeted.Press 2 7;   (* h6 *)
             Budgeted.Press 7 0; Budgeted.Press 5 0;   (* Ra3 *)
             Budgeted.Toggle remove; Budgeted.Press 5 3] in (* black removes d3 *)
  let gs := Budgeted.gameState (Budgeted.run Rules.logic es) in
  currentPlayer gs = white
  ∧ Rules.isValidMove (board gs) (5, 0) (5, 2) (removedSquares gs) gs = true
  ∧ Rules.isValidMove (board gs) (5, 0) (5, 3) (removedSquares gs) gs = false
  ∧ Rules.isValidMove (board gs) (5, 0) (5, 4) (removedSquares gs) gs = false.
Proof. vm_compute. done. Qed.

Example kingside_castling :
  let es := [Budgeted.Press 6 4; Budgeted.Press 4 4;   (* e4 *)
             Budgeted.Press 1 4; Budgeted.Press 3 4;   (* e5 *)
             Budgeted.Press 7 6; Budgeted.Press 5 5;   (* Nf3 *)
             Budgeted.Press 0 1; Budgeted.Press 2 2;   (* Nc6 *)
             Budgeted.Press 7 5; Budgeted.Press 4 2;   (* Bc4 *)
             Budgeted.Press 0 6; Budgeted.Press 2 5;   (* Nf6 *)
             Budgeted.Press 7 4; Budgeted.Press 7 6] in (* O-O *)
  let gs := Budgeted.gameState (Budgeted.run Rules.logic es) in
  Rules.pieceAt (board gs) (7, 6) = Some (mkPiece king white)
  ∧ Rules.pieceAt (board gs) (7, 5) = Some (mkPiece rook white)
  ∧ Rules.pieceAt (board gs) (7, 4) = None
  ∧ Rules.pieceAt (board gs) (7, 7) = None
  ∧ whiteKingside (castlingRights gs) = false
  ∧ whiteQueenside (castlingRights gs) = false
  ∧ currentPlayer gs = black.
Proof. vm_compute. done. Qed.

(** A removal passes the turn and keeps the selection: the square selected
    then holds a piece of the player who is no longer to move. *)
Example selection_outlives_removal :
  let es := [Budgeted.Press 6 4; Budgeted.Toggle remove; Budgeted.Press 4 4] in
  let gs := Budgeted.gameState (Budgeted.run Rules.logic es) in
  selectedSquare gs = Some (6, 4)
  ∧ currentPlayer gs = black
  ∧ Rules.pieceAt (board gs) (6, 4) = Some (mkPiece pawn white).
Proof. vm_compute. done. Qed.

(** After the removal, black's press moves the white pawn that was left
    selected. *)
Example stale_selection_moves_other_colour :
  let es := [Budgeted.Press 6 4; Budgeted.Toggle remove; Budgeted.Press 4 4;
             Budgeted.Press 5 4] in
  let gs := Budgeted.gameState (Budgeted.run Rules.logic es) in
  Rules.pieceAt (board gs) (5, 4) = Some (mkPiece pawn white)
  ∧ Rules.pieceAt (board gs) (6, 4) = None
  ∧ currentPlayer gs = white.
Proof. vm_compute. done. Qed.

(** ** Witnesses *)

Lemma applied_moves_keep_own_king_safe_witness :
  let gs := Budgeted.gameState (Budgeted.run Rules.logic Games.e2Selected) in
  let a := Budgeted.mkApp Games.config gs move [] in
  let p := Plain.mkApp gs move in
  gameOver gs = false
  ∧ moveAttempt gs move 4 4 = Some (6, 4)
  ∧ isValidMove Rules.logic (board gs) (6, 4) (4, 4) (removedSquares gs) gs = true
  ∧ leavesKingInCheck Rules.logic gs (6, 4) (4, 4) = false
  ∧ ∃ alert,
      Budgeted.handleSquarePress Rules.logic a 4 4
      = Returned (Budgeted.mkApp Games.config
                    (applyMove Rules.logic gs (6, 4) (4, 4)).1 move []) alert
      ∧ Plain.handleSquarePress Rules.logic p 4 4
        = Returned (Plain.mkApp (applyMove Rules.logic gs (6, 4) (4, 4)).1 move) alert.
Proof.
  intros gs a p.
  assert (Hon : gameOver gs = false) by (vm_compute; reflexivity).
  assert (Hattempt : moveAttempt gs move 4 4 = Some (6, 4))
    by (vm_compute; reflexivity).
  assert (Hvalid : isValidMove Rules.logic (board gs) (6, 4) (4, 4)
                     (removedSquares gs) gs = true) by (vm_compute; reflexivity).
  assert (Hsafe : leavesKingInCheck Rules.logic gs (6, 4) (4, 4) = false)
    by (vm_compute; reflexivity).
  split_and!; try assumption.
  pose proof (proj2 (proj2 (applied_moves_keep_own_king_safe Rules.logic
                              Games.config [] gs move 4 4))
                (6, 4) Hon Hattempt Hvalid) as H.
  rewrite Hsafe in H. exact H.
Defined.

Lemma removed_squares_are_impassable_witness :
  let b := Rules.setSquare (replicate 8 (replicate 8 None)) (4, 0)
             (Some (mkPiece rook white)) in
  let rm : gset string := {[ positionKey 4 3 ]} in
  let gs := Budgeted.initialGameState Rules.logic in
  Rules.pieceAt b (4, 0) = Some (mkPiece rook white)
  ∧ isSlider rook
  ∧ (0, 1) ∈ Rules.queenDirections
  ∧ 0 < 3 < 5
  ∧ Rules.isRemoved rm (along (4, 0) (0, 1) 3) = true
  ∧ Rules.isValidMove b (4, 0) (along (4, 0) (0, 1) 5) rm gs = false
  ∧ Rules.isValidMove b (4, 0) (along (4, 0) (0, 1) 5) ∅ gs = true.
Proof.
  intros b rm gs.
  assert (Hpc : Rules.pieceAt b (4, 0) = Some (mkPiece rook white))
    by (vm_compute; reflexivity).
  assert (Hslider : isSlider (type (mkPiece rook white))) by (by left).
  assert (Hdir : (0, 1) ∈ Rules.queenDirections)
    by (unfold Rules.queenDirections, Rules.rookDirections; simpl;
        do 2 apply list_elem_of_further; apply list_elem_of_here).
  assert (Hrm : Rules.isRemoved rm (along (4, 0) (0, 1) 3) = true)
    by (vm_compute; reflexivity).
  split_and!; [exact Hpc|exact Hslider|exact Hdir|lia|lia|exact Hrm| |].
  - exact (proj1 (proj2 (proj2 (proj2 removed_squares_are_impassable)))
             b rm gs (4, 0) (mkPiece rook white) (0, 1) 3 5
             Hpc Hslider Hdir (conj eq_refl eq_refl) Hrm).
  - vm_compute; reflexivity.
Defined.

Lemma checkmate_ends_game_witness :
  let a := Budgeted.run Rules.logic Games.beforeMate in
  let p :=
    Plain.run Rules.logic
      [Plain.Press 6 5; Plain.Press 5 5; Plain.Press 1 4; Plain.Press 3 4;
       Plain.Press 6 6; Plain.Press 4 6; Plain.Press 0 3] in
  let a' := Budgeted.handle Rules.logic a (Budgeted.Press 4 7) in
  let p' := Plain.handle Rules.logic p (Plain.Press 4 7) in
  gameOver (Budgeted.gameState a) = false
  ∧ isAcceptedMove Rules.logic (Budgeted.gameState a) (Budgeted.actionMode a) 4 7
    = true
  ∧ gameOver (Plain.gameState p) = false
  ∧ isAcceptedMove Rules.logic (Plain.gameState p) (Plain.actionMode p) 4 7 = true
  ∧ Budgeted.handleSquarePress Rules.logic a 4 7
    = Returned a' (Some (EchecEtMat black))
  ∧ Plain.handleSquarePress Rules.logic p 4 7
    = Returned p' (Some (EchecEtMat black))
  ∧ (gameOver (Budgeted.gameState a') = true
     ∧ winner (Budgeted.gameState a') = Some black)
  ∧ (gameOver (Plain.gameState p') = true
     ∧ winner (Plain.gameState p') = Some black).
Proof.
  intros a p a' p'. subst a' p' a p.
  set (a := Budgeted.run Rules.logic Games.beforeMate).
  set (p := Plain.run Rules.logic _).
  set (a' := Budgeted.handle Rules.logic a _).
  set (p' := Plain.handle Rules.logic p _).
  assert (HonB : gameOver (Budgeted.gameState a) = false)
    by (vm_compute; reflexivity).
  assert (HaccB : isAcceptedMove Rules.logic (Budgeted.gameState a)
                    (Budgeted.actionMode a) 4 7 = true)
    by (vm_compute; reflexivity).
  assert (HonP : gameOver (Plain.gameState p) = false)
    by (vm_compute; reflexivity).
  assert (HaccP : isAcceptedMove Rules.logic (Plain.gameState p)
                    (Plain.actionMode p) 4 7 = true)
    by (vm_compute; reflexivity).
  assert (HpressB : Budgeted.handleSquarePress Rules.logic a 4 7
                    = Returned a' (Some (EchecEtMat black)))
    by (vm_compute; reflexivity).
  assert (HpressP : Plain.handleSquarePress Rules.logic p 4 7
                    = Returned p' (Some (EchecEtMat black)))
    by (vm_compute; reflexivity).
  assert (HselB : selectedSquare (Budgeted.gameState a) = Some (0, 3))
    by (vm_compute; reflexivity).
  assert (HselP : selectedSquare (Plain.gameState p) = Some (0, 3))
    by (vm_compute; reflexivity).
  assert (HmateB : isCheckmate Rules.logic (board (Budgeted.gameState a'))
                     (currentPlayer (Budgeted.gameState a'))
                     (removedSquares (Budgeted.gameState a))
                     (updateCastlingRights Rules.logic (Budgeted.gameState a)
                        (0, 3) (4, 7)) = true)
    by (vm_compute; reflexivity).
  assert (HmateP : isCheckmate Rules.logic (board (Plain.gameState p'))
                     (currentPlayer (Plain.gameState p'))
                     (removedSquares (Plain.gameState p))
                     (updateCastlingRights Rules.logic (Plain.gameState p)
                        (0, 3) (4, 7)) = true)
    by (vm_compute; reflexivity).
  assert (Hblack : currentPlayer (Budgeted.gameState a) = black
                   ∧ currentPlayer (Plain.gameState p) = black)
    by (split; vm_compute; reflexivity).
  pose proof (checkmate_ends_game Rules.logic Games.beforeMate
                [Plain.Press 6 5; Plain.Press 5 5; Plain.Press 1 4;
                 Plain.Press 3 4; Plain.Press 6 6; Plain.Press 4 6;
                 Plain.Press 0 3] 4 7) as H.
  cbv zeta in H. fold a p in H. destruct H as (HB & HP & _).
  destruct (HB HonB HaccB) as (sel & a'' & alert & Hsel & Hpress & _ & _ & _ & Hout).
  destruct (HP HonP HaccP) as (sel' & p'' & alert' & Hsel' & Hpress' & _ & _ & _ & Hout').
  rewrite HselB in Hsel. rewrite HselP in Hsel'.
  rewrite HpressB in Hpress. rewrite HpressP in Hpress'.
  assert (sel = (0, 3)) as -> by congruence.
  assert (sel' = (0, 3)) as -> by congruence.
  assert (a'' = a') as -> by congruence.
  assert (p'' = p') as -> by congruence.
  rewrite HmateB in Hout. rewrite HmateP in Hout'.
  destruct Hblack as [HblackB HblackP].
  rewrite HblackB in Hout. rewrite HblackP in Hout'.
  split_and!; [exact HonB|exact HaccB|exact HonP|exact HaccP|exact HpressB
              |exact HpressP|exact (proj1 Hout)|exact (proj2 Hout)
              |exact (proj1 Hout')|exact (proj2 Hout')].
Defined.

Lemma turn_passes_iff_accepted_witness :
  let gs := Budgeted.gameState (Budgeted.run Rules.logic Games.e2Selected) in
  let a := Budgeted.mkApp Games.config gs move [] in
  let p := Plain.mkApp gs move in
  let q := Plain.mkApp gs remove in
  gameOver gs = false
  ∧ currentPlayer gs = white
  ∧ isAccepted Rules.logic (quotaExhausted 3 gs) gs move 4 4 = true
  ∧ currentPlayer
      (Budgeted.gameState (Budgeted.handle Rules.logic a (Budgeted.Press 4 4)))
    = black
  ∧ currentPlayer
      (Plain.gameState (Plain.handle Rules.logic p (Plain.Press 4 4)))
    = black
  ∧ isAccepted Rules.logic false gs move 3 3 = false
  ∧ currentPlayer
      (Plain.gameState (Plain.handle Rules.logic p (Plain.Press 3 3)))
    = white
  ∧ isAcceptedRemoval false gs remove 8 0 = true
  ∧ isAccepted Rules.logic false gs remove 8 0 = false
  ∧ Plain.handleSquarePress Rules.logic q 8 0 = Threw
  ∧ currentPlayer
      (Plain.gameState (Plain.handle Rules.logic q (Plain.Press 8 0)))
    = white.
Proof.
  intros gs a p q.
  assert (Hon : gameOver gs = false) by (vm_compute; reflexivity).
  assert (Hwhite : currentPlayer gs = white) by (vm_compute; reflexivity).
  assert (HaccB : isAccepted Rules.logic
                    (quotaExhausted (Budgeted.removalsPerPlayer Games.config) gs)
                    gs move 4 4 = true) by (vm_compute; reflexivity).
  assert (HaccP : isAccepted Rules.logic false gs move 4 4 = true)
    by (vm_compute; reflexivity).
  assert (Hrefused : isAccepted Rules.logic false gs move 3 3 = false)
    by (vm_compute; reflexivity).
  assert (Hremoval : isAcceptedRemoval false gs remove 8 0 = true)
    by (vm_compute; reflexivity).
  assert (Hoff : isAccepted Rules.logic false gs remove 8 0 = false)
    by (vm_compute; reflexivity).
  assert (Hthrew : Plain.handleSquarePress Rules.logic q 8 0 = Threw)
    by (vm_compute; reflexivity).
  pose proof (turn_passes_iff_accepted Rules.logic Games.config [] gs move 4 4 Hon)
    as H1.
  pose proof (turn_passes_iff_accepted Rules.logic Games.config [] gs move 3 3 Hon)
    as H2.
  pose proof (turn_passes_iff_accepted Rules.logic Games.config [] gs remove 8 0 Hon)
    as H3.
  cbv zeta in H1, H2, H3.
  destruct H1 as (_ & H1B & H1P & _). destruct H2 as (_ & _ & H2P & _).
  destruct H3 as (_ & _ & H3P & _).
  rewrite HaccB, Hwhite in H1B. rewrite HaccP, Hwhite in H1P.
  rewrite Hrefused, Hwhite in H2P. rewrite Hoff, Hwhite in H3P.
  split_and!; [exact Hon|exact Hwhite|exact HaccB|exact H1B|exact H1P
              |exact Hrefused|exact H2P|exact Hremoval|exact Hoff|exact Hthrew
              |exact H3P].
Defined.

Lemma removal_refused_iff_invalid_witness :
  let gs := Budgeted.initialGameState Rules.logic in
  let a := Budgeted.mkApp Games.config gs remove [] in
  let p := Plain.mkApp gs remove in
  let a' := Budgeted.handle Rules.logic a (Budgeted.Press 4 4) in
  let p' := Plain.handle Rules.logic p (Plain.Press 4 4) in
  gameOver gs = false
  ∧ isInvalidRemoval (quotaExhausted 3 gs) gs 6 4 = true
  ∧ Rejected a (Budgeted.handleSquarePress Rules.logic a 6 4)
  ∧ Budgeted.handleSquarePress Rules.logic a 6 4 = Returned a (Some CaseOccupee)
  ∧ isInvalidRemoval (quotaExhausted 3 gs) gs 4 4 = false
  ∧ is_Some (getPiece (board gs) 4 4)
  ∧ Budgeted.handleSquarePress Rules.logic a 4 4 = Returned a' None
  ∧ Plain.handleSquarePress Rules.logic p 4 4 = Returned p' None
  ∧ removalApplied gs 4 4 (Budgeted.gameState a')
  ∧ removalApplied gs 4 4 (Plain.gameState p')
  ∧ currentPlayer gs = white
  ∧ currentPlayer (Budgeted.gameState a') = black
  ∧ currentPlayer (Plain.gameState p') = black
  ∧ positionKey 4 4 = "4-4"
  ∧ removedSquares (Budgeted.gameState a') = {[ "4-4" ]}
  ∧ removedSquares (Plain.gameState p') = {[ "4-4" ]}
  ∧ removalsUsed (Budgeted.gameState a') = mkPerPlayer 1 0
  ∧ removalsUsed (Plain.gameState p') = mkPerPlayer 0 0.
Proof.
  intros gs a p a' p'.
  assert (Hon : gameOver gs = false) by (vm_compute; reflexivity).
  assert (Hbad : isInvalidRemoval
                   (quotaExhausted (Budgeted.removalsPerPlayer Games.config) gs)
                   gs 6 4 = true) by (vm_compute; reflexivity).
  assert (Hgood : isInvalidRemoval
                    (quotaExhausted (Budgeted.removalsPerPlayer Games.config) gs)
                    gs 4 4 = false) by (vm_compute; reflexivity).
  assert (HgoodP : isInvalidRemoval false gs 4 4 = false)
    by (vm_compute; reflexivity).
  assert (Hsquare : is_Some (getPiece (board gs) 4 4))
    by (exists None; vm_compute; reflexivity).
  assert (HpressB : Budgeted.handleSquarePress Rules.logic a 4 4 = Returned a' None)
    by (vm_compute; reflexivity).
  assert (HpressP : Plain.handleSquarePress Rules.logic p 4 4 = Returned p' None)
    by (vm_compute; reflexivity).
  pose proof (removal_refused_iff_invalid Rules.logic Games.config [] gs 6 4 Hon)
    as H1.
  pose proof (removal_refused_iff_invalid Rules.logic Games.config [] gs 4 4 Hon)
    as H2.
  cbv zeta in H1, H2. fold a p in H1, H2.
  destruct H1 as (H1 & _). destruct H2 as (_ & _ & H2B & H2P).
  destruct (H2B Hgood Hsquare) as (a'' & Ha'' & HappliedB & _).
  destruct (H2P HgoodP Hsquare) as (p'' & Hp'' & HappliedP & _).
  assert (a'' = a') as -> by congruence.
  assert (p'' = p') as -> by congruence.
  split_and!; [exact Hon|exact Hbad|exact (proj2 H1 Hbad)|vm_compute; reflexivity
              |exact Hgood|exact Hsquare|exact HpressB|exact HpressP
              |exact HappliedB|exact HappliedP|vm_compute; reflexivity..].
Defined.

Lemma game_over_ignores_presses_witness :
  let a := Budgeted.run Rules.logic (Games.beforeMate ++ [Budgeted.Press 4 7]) in
  let gs := Budgeted.gameState a in
  let b := Budgeted.mkApp Games.config gs move [] in
  gameOver gs = true
  ∧ Budgeted.handleSquarePress Rules.logic b 6 4 = Returned b None
  ∧ Plain.handleSquarePress Rules.logic (Plain.mkApp gs move) 6 4
    = Returned (Plain.mkApp gs move) None.
Proof.
  intros a gs b.
  assert (Hover : gameOver gs = true) by (vm_compute; reflexivity).
  pose proof (game_over_ignores_presses Rules.logic Games.config [] gs move Hover)
    as (Hb & Hp & _).
  split_and!; [assumption|apply Hb|apply Hp].
Defined.

Lemma time_up_forfeits_witness :
  let a := Budgeted.handleTimeUpdate (Budgeted.initialApp Rules.logic) white 1 in
  let a' := (Budgeted.handleTimeUp a white).1 in
  gameOver (Budgeted.gameState a) = false
  ∧ white = currentPlayer (Budgeted.gameState a)
  ∧ getFor (timeLeft (Budgeted.gameState a)) white <= 1
  ∧ Budgeted.timerTick a = (a', Some (TempsEcoule (otherPlayer white)))
  ∧ winner (Budgeted.gameState a') = Some black.
Proof.
  intros a a'.
  assert (Hon : gameOver (Budgeted.gameState a) = false) by reflexivity.
  assert (Hplayer : white = currentPlayer (Budgeted.gameState a)) by reflexivity.
  assert (Htime : getFor (timeLeft (Budgeted.gameState a)) white <= 1)
    by (simpl; lia).
  pose proof (time_up_forfeits a white) as (_ & Hwinner & _ & _ & Htick).
  split_and!; try assumption.
  exact (Htick Hon Hplayer Htime).
Defined.

(** C8 as stated fails: with the pawn on e2 selected, the press on d5 asks
    for an illegal move, raises no alert and is not applied, yet the game
    state changes: the selection is gone.  Both versions. *)
Lemma illegal_move_clears_selection :
  let a := Budgeted.run Rules.logic Games.e2Selected in
  let gs := Budgeted.gameState a in
  let p := Plain.mkApp gs move in
  gameOver gs = false
  ∧ isIllegalMove Rules.logic gs (Budgeted.actionMode a) 3 3 = true
  ∧ selectedSquare gs = Some (6, 4)
  ∧ (∃ a', Budgeted.handleSquarePress Rules.logic a 3 3 = Returned a' None
       ∧ selectedSquare (Budgeted.gameState a') = None
       ∧ Budgeted.gameState a' ≠ gs)
  ∧ (∃ p', Plain.handleSquarePress Rules.logic p 3 3 = Returned p' None
       ∧ selectedSquare (Plain.gameState p') = None
       ∧ Plain.gameState p' ≠ gs).
Proof.
  intros a gs p. split_and!; [vm_compute; reflexivity..| |].
  - eexists. split_and!; [vm_compute; reflexivity|vm_compute; reflexivity|].
    intros Heq. apply (f_equal selectedSquare) in Heq. vm_compute in Heq.
    discriminate.
  - eexists. split_and!; [vm_compute; reflexivity|vm_compute; reflexivity|].
    intros Heq. apply (f_equal selectedSquare) in Heq. vm_compute in Heq.
    discriminate.
Qed.

Lemma refused_action_changes_selection_only_witness :
  let gs := Budgeted.gameState (Budgeted.run Rules.logic Games.e2Selected) in
  let a := Budgeted.mkApp Games.config gs move [] in
  let p := Plain.mkApp gs move in
  gameOver gs = false
  ∧ moveAttempt gs move 3 3 = Some (6, 4)
  ∧ isValidMove Rules.logic (board gs) (6, 4) (3, 3) (removedSquares gs) gs = false
  ∧ getPiece (board gs) 3 3 = Some None
  ∧ (∃ pm', Budgeted.handleSquarePress Rules.logic a 3 3
            = Returned (Budgeted.mkApp Games.config (withSelectedSquare gs None)
                          move pm') None)
  ∧ Plain.handleSquarePress Rules.logic p 3 3
    = Returned (Plain.mkApp (withSelectedSquare gs None) move) None.
Proof.
  intros gs a p.
  assert (Hon : gameOver gs = false) by (vm_compute; reflexivity).
  assert (Hattempt : moveAttempt gs move 3 3 = Some (6, 4))
    by (vm_compute; reflexivity).
  assert (Hvalid : isValidMove Rules.logic (board gs) (6, 4) (3, 3)
                     (removedSquares gs) gs = false) by (vm_compute; reflexivity).
  assert (Hpiece : getPiece (board gs) 3 3 = Some None)
    by (vm_compute; reflexivity).
  pose proof (proj2 (proj2 (proj2 (proj2
                (refused_action_changes_selection_only Rules.logic Games.config []
                   gs move 3 3 Hon))))
                (6, 4) None Hattempt Hvalid Hpiece) as [Hb Hp].
  split_and!; [exact Hon|exact Hattempt|exact Hvalid|exact Hpiece|exact Hb|exact Hp].
Defined.



Lemma plain_removal_has_no_quota_witness :
  let gs :=
    Plain.gameState
      (Plain.run Rules.logic
         [Plain.Toggle remove; Plain.Press 2 0; Plain.Toggle remove; Plain.Press 5 0;
          Plain.Toggle remove; Plain.Press 2 1; Plain.Toggle remove; Plain.Press 5 1;
          Plain.Toggle remove; Plain.Press 2 2; Plain.Toggle remove; Plain.Press 5 2;
          Plain.Toggle remove; Plain.Press 2 3; Plain.Toggle remove; Plain.Press 5 3])
    in
  size (removedSquares gs) = 8%nat
  ∧ currentPlayer gs = white
  ∧ gameOver gs = false
  ∧ (positionKey 2 4 ∉ removedSquares gs)
  ∧ getPiece (board gs) 2 4 = Some None
  ∧ Plain.handleSquarePress Rules.logic (Plain.mkApp gs remove) 2 4
    = Returned (Plain.mkApp (afterRemoval gs 2 4 (removalsUsed gs)) move) None.
Proof.
  intros gs.
  assert (Hon : gameOver gs = false) by (vm_compute; reflexivity).
  assert (Hfresh : positionKey 2 4 ∉ removedSquares gs)
    by (apply (bool_decide_eq_false_1 (positionKey 2 4 ∈ removedSquares gs));
        vm_compute; reflexivity).
  assert (Hempty : getPiece (board gs) 2 4 = Some None)
    by (vm_compute; reflexivity).
  split_and!; [vm_compute; reflexivity|vm_compute; reflexivity|exact Hon
              |exact Hfresh|exact Hempty|].
  exact (proj1 (plain_removal_has_no_quota Rules.logic Games.config [] gs 2 4
                  Hon Hfresh Hempty)).
Defined.

(** ** Further properties of the screens *)

Section FurtherFacts.
Context (L : ChessLogic).

(** *** Outcome and winner *)

Lemma budgeted_press_outcome (a a' : Budgeted.App) (row col : Z)
    (alert : option Alert) :
  Budgeted.handleSquarePress L a row col = Returned a' alert →
  (gameOver (Budgeted.gameState a) = true ↔ is_Some (winner (Budgeted.gameState a))) →
  (gameOver (Budgeted.gameState a') = true
   ↔ is_Some (winner (Budgeted.gameState a'))).
Proof.
  intros H Hinv. unfold_press.
  press_cases; simplify_eq/=;
    first [ done
          | match goal with H : gameOver _ = _ |- _ => by rewrite H end
          | destruct (isCheckmate L _ _ _ _); simpl; split; try done;
            by intros [? ?] ].
Qed.

Lemma plain_press_outcome (a a' : Plain.App) (row col : Z)
    (alert : option Alert) :
  Plain.handleSquarePress L a row col = Returned a' alert →
  (gameOver (Plain.gameState a) = true ↔ is_Some (winner (Plain.gameState a))) →
  (gameOver (Plain.gameState a') = true ↔ is_Some (winner (Plain.gameState a'))).
Proof.
  intros H Hinv. unfold_press.
  press_cases; simplify_eq/=;
    first [ done
          | match goal with H : gameOver _ = _ |- _ => by rewrite H end
          | destruct (isCheckmate L _ _ _ _); simpl; split; try done;
            by intros [? ?] ].
Qed.

Lemma budgeted_run_outcome (es : list Budgeted.Event) :
  gameOver (Budgeted.gameState (Budgeted.run L es)) = true
  ↔ is_Some (winner (Budgeted.gameState (Budgeted.run L es))).
Proof.
  induction es as [|e es IH] using rev_ind.
  { simpl; split; [done|by intros [? ?]]. }
  rewrite budgeted_run_snoc.
  destruct e as [row col|m| |player|s| |]; simpl; try done.
  - destruct (Budgeted.handleSquarePress L _ row col) eqn:H; [done|].
    by eapply budgeted_press_outcome.
  - unfold Budgeted.timerTick, Budgeted.handleTimeUp. simpl.
    destruct (gameOver _) eqn:Hover; [simpl; by rewrite Hover|].
    destruct (_ <=? _); simpl; [split; eauto|by rewrite Hover].
Qed.

Lemma plain_run_outcome (es : list Plain.Event) :
  gameOver (Plain.gameState (Plain.run L es)) = true
  ↔ is_Some (winner (Plain.gameState (Plain.run L es))).
Proof.
  induction es as [|e es IH] using rev_ind.
  { simpl; split; [done|by intros [? ?]]. }
  rewrite plain_run_snoc.
  destruct e as [row col|m|]; simpl; try done.
  destruct (Plain.handleSquarePress L _ row col) eqn:H; [done|].
  by eapply plain_press_outcome.
Qed.

(** X1.  On every state the screens reach, the game is over exactly when a
    winner is recorded; so the game-over overlay, which prints [NOIR] for
    anything but [white], prints it for a black winner only.  Both
    versions. *)
Theorem game_over_iff_winner (es : list Budgeted.Event) (es' : list Plain.Event) :
  let gs := Budgeted.gameState (Budgeted.run L es) in
  let ps := Plain.gameState (Plain.run L es') in
  (gameOver gs = true ↔ is_Some (winner gs))
  ∧ (gameOver ps = true ↔ is_Some (winner ps))
  ∧ (gameOver gs = true →
     (winner gs = Some white ∧ winnerLabel (winner gs) = "BLANC")
     ∨ (winner gs = Some black ∧ winnerLabel (winner gs) = "NOIR")).
Proof.
  intros gs ps. split_and!.
  - apply budgeted_run_outcome.
  - apply plain_run_outcome.
  - intros [[|] Hw]%budgeted_run_outcome; fold gs in Hw; rewrite Hw; auto.
Qed.

(** *** The clock *)

Lemma setFor_getFor {A} (m : PerPlayer A) (p : Player) :
  setFor m p (getFor m p) = m.
Proof. by destruct m, p. Qed.

Lemma getFor_setFor {A} (m : PerPlayer A) (p : Player) (v : A) :
  getFor (setFor m p v) p = v.
Proof. by destruct p. Qed.

Lemma getFor_setFor_other {A} (m : PerPlayer A) (p : Player) (v : A) :
  getFor (setFor m p v) (otherPlayer p) = getFor m (otherPlayer p).
Proof. by destruct p. Qed.

Lemma setFor_setFor {A} (m : PerPlayer A) (p : Player) (v w : A) :
  setFor (setFor m p v) p w = setFor m p w.
Proof. by destruct p. Qed.

Lemma tickedTo_same (a : Budgeted.App) :
  tickedTo a (getFor (timeLeft (Budgeted.gameState a))
                (currentPlayer (Budgeted.gameState a))) = a.
Proof.
  destruct a as [cfg gs mode pm]. unfold tickedTo, Budgeted.handleTimeUpdate.
  simpl. rewrite setFor_getFor. by destruct gs.
Qed.

Lemma tickedTo_tickedTo (a : Budgeted.App) (v w : Z) :
  tickedTo (tickedTo a v) w = tickedTo a w.
Proof.
  unfold tickedTo, Budgeted.handleTimeUpdate. simpl. by rewrite setFor_setFor.
Qed.

(** A second on the clock, with more than one left. *)
Lemma tick_step (a : Budgeted.App) :
  let gs := Budgeted.gameState a in
  gameOver gs = false →
  1 < getFor (timeLeft gs) (currentPlayer gs) →
  Budgeted.handle L a Budgeted.Tick
  = tickedTo a (getFor (timeLeft gs) (currentPlayer gs) - 1).
Proof.
  intros gs Hon Htime. subst gs. simpl. unfold Budgeted.timerTick.
  rewrite Hon. by destruct (Z.leb_spec (getFor (timeLeft (Budgeted.gameState a))
                             (currentPlayer (Budgeted.gameState a))) 1); [lia|].
Qed.

(** The last second on the clock. *)
Lemma tick_last (a : Budgeted.App) :
  let gs := Budgeted.gameState a in
  gameOver gs = false →
  getFor (timeLeft gs) (currentPlayer gs) <= 1 →
  Budgeted.handle L a Budgeted.Tick
  = (Budgeted.handleTimeUp a (currentPlayer gs)).1.
Proof.
  intros gs Hon Htime. subst gs. simpl. unfold Budgeted.timerTick.
  rewrite Hon. by destruct (Z.leb_spec (getFor (timeLeft (Budgeted.gameState a))
                             (currentPlayer (Budgeted.gameState a))) 1); [|lia].
Qed.

Lemma foldl_one {A B} (f : A → B → A) (a : A) (x : B) : foldl f a [x] = f a x.
Proof. done. Qed.

Lemma ticks_snoc (n : nat) : ticks (S n) = ticks n ++ [Budgeted.Tick].
Proof. unfold ticks. apply replicate_S_end. Qed.

Lemma ticks_run (a : Budgeted.App) (n : nat) :
  let gs := Budgeted.gameState a in
  gameOver gs = false →
  Z.of_nat n < getFor (timeLeft gs) (currentPlayer gs) →
  foldl (Budgeted.handle L) a (ticks n)
  = tickedTo a (getFor (timeLeft gs) (currentPlayer gs) - Z.of_nat n).
Proof.
  intros gs Hon. subst gs. induction n as [|n IH]; intros Hn.
  - simpl. by rewrite Z.sub_0_r, tickedTo_same.
  - rewrite ticks_snoc, foldl_app, IH, foldl_one by lia.
    rewrite tick_step.
    + simpl. rewrite getFor_setFor, tickedTo_tickedTo. f_equal. lia.
    + done.
    + simpl. rewrite getFor_setFor. lia.
Qed.

Lemma ticks_forfeit (a : Budgeted.App) :
  let gs := Budgeted.gameState a in
  gameOver gs = false →
  1 <= getFor (timeLeft gs) (currentPlayer gs) →
  foldl (Budgeted.handle L) a
    (ticks (Z.to_nat (getFor (timeLeft gs) (currentPlayer gs))))
  = (Budgeted.handleTimeUp (tickedTo a 1) (currentPlayer gs)).1.
Proof.
  intros gs Hon Htime. subst gs.
  set (t := getFor _ _) in *.
  replace (Z.to_nat t) with (S (Z.to_nat (t - 1))) by lia.
  rewrite ticks_snoc, foldl_app, ticks_run by (done || fold t; lia).
  fold t. replace (t - Z.of_nat (Z.to_nat (t - 1))) with 1 by lia.
  rewrite foldl_one, tick_last; [done|done|].
  simpl. rewrite getFor_setFor. lia.
Qed.

(** X2.  While nothing else happens, the clock of the player to move runs
    down by one a second and nothing else changes; with [t] seconds left
    ([t] at least 1) the game is still on after [t - 1] ticks and the [t]-th
    tick forfeits it, the clock standing at 1, never at 0. *)
Theorem clock_runs_down (a : Budgeted.App) (t : Z)
    (Hon : gameOver (Budgeted.gameState a) = false)
    (Ht : getFor (timeLeft (Budgeted.gameState a))
            (currentPlayer (Budgeted.gameState a)) = t)
    (Hpos : 1 <= t) :
  let mover := currentPlayer (Budgeted.gameState a) in
  (∀ n : nat, Z.of_nat n < t →
     foldl (Budgeted.handle L) a (ticks n) = tickedTo a (t - Z.of_nat n))
  ∧ foldl (Budgeted.handle L) a (ticks (Z.to_nat t))
    = (Budgeted.handleTimeUp (tickedTo a 1) mover).1
  ∧ (∀ v, gameOver (Budgeted.gameState (tickedTo a v)) = false
       ∧ getFor (timeLeft (Budgeted.gameState (tickedTo a v))) mover = v
       ∧ getFor (timeLeft (Budgeted.gameState (tickedTo a v))) (otherPlayer mover)
         = getFor (timeLeft (Budgeted.gameState a)) (otherPlayer mover)
       ∧ withTimeLeft (Budgeted.gameState (tickedTo a v))
           (timeLeft (Budgeted.gameState a)) = Budgeted.gameState a).
Proof.
  intros mover. subst mover t. split_and!.
  - intros n Hn. by apply ticks_run.
  - by apply ticks_forfeit.
  - intros v. unfold tickedTo, Budgeted.handleTimeUpdate. simpl.
    rewrite getFor_setFor, getFor_setFor_other.
    split_and!; [done..|]. by destruct (Budgeted.gameState a).
Qed.

(** X3.  Started with a time limit of [m] minutes ([m] at least 1), and
    nothing else happening, the game is lost on time by the player to move
    on the tick number [60 * m], and not before. *)
Theorem started_clock_forfeits (a : Budgeted.App)
    (Hon : gameOver (Budgeted.gameState a) = false)
    (Hlimit : 1 <= Budgeted.timeLimit (Budgeted.gameConfig a)) :
  let m := Budgeted.timeLimit (Budgeted.gameConfig a) in
  let mover := currentPlayer (Budgeted.gameState a) in
  let after n := foldl (Budgeted.handle L) a (Budgeted.Start :: ticks n) in
  (∀ n : nat, Z.of_nat n < 60 * m →
     gameOver (Budgeted.gameState (after n)) = false)
  ∧ gameOver (Budgeted.gameState (after (Z.to_nat (60 * m)))) = true
  ∧ winner (Budgeted.gameState (after (Z.to_nat (60 * m))))
    = Some (otherPlayer mover)
  ∧ board (Budgeted.gameState (after (Z.to_nat (60 * m))))
    = board (Budgeted.gameState a).
Proof.
  intros m mover after.
  set (b := Budgeted.startGame a).
  assert (Hafter : ∀ n, after n = foldl (Budgeted.handle L) b (ticks n)) by done.
  assert (Hb : gameOver (Budgeted.gameState b) = false) by done.
  assert (Htime : getFor (timeLeft (Budgeted.gameState b))
                    (currentPlayer (Budgeted.gameState b)) = 60 * m).
  { subst b m. simpl. destruct (currentPlayer _); simpl; lia. }
  pose proof (ticks_forfeit b Hb) as Hlast. cbv zeta in Hlast.
  rewrite Htime in Hlast. specialize (Hlast ltac:(subst m; lia)).
  split_and!.
  - intros n Hn.
    rewrite Hafter, ticks_run.
    + exact Hb.
    + exact Hb.
    + rewrite Htime. lia.
  - by rewrite Hafter, Hlast.
  - rewrite Hafter, Hlast. subst mover. simpl.
    by destruct (currentPlayer (Budgeted.gameState a)).
  - by rewrite Hafter, Hlast.
Qed.

(** *** The ledger and the budget *)

(** What a press does to the ledger, the counts and the settings, with an
    engine that leaves them alone: nothing, or one more removal for the
    player to move, who had some left. *)
Lemma budgeted_press_ledger (a a' : Budgeted.App) (row col : Z)
    (alert : option Alert) :
  keepsLedger L →
  Budgeted.handleSquarePress L a row col = Returned a' alert →
  let gs := Budgeted.gameState a in
  let gs' := Budgeted.gameState a' in
  Budgeted.gameConfig a' = Budgeted.gameConfig a
  ∧ ((removedSquares gs' = removedSquares gs ∧ removalsUsed gs' = removalsUsed gs)
     ∨ ((positionKey row col ∉ removedSquares gs)
        ∧ removedSquares gs' = {[ positionKey row col ]} ∪ removedSquares gs
        ∧ removalsUsed gs'
          = setFor (removalsUsed gs) (currentPlayer gs)
              (getFor (removalsUsed gs) (currentPlayer gs) + 1)
        ∧ getFor (removalsUsed gs) (currentPlayer gs)
          < Budgeted.removalsPerPlayer (Budgeted.gameConfig a))).
Proof.
  intros HL H gs gs'. subst gs gs'.
  unfold Budgeted.handleSquarePress, Budgeted.selectOr in H. simpl in H.
  destruct (gameOver _); [by simplify_eq; auto|].
  destruct (Budgeted.actionMode a).
  - destruct (selectedSquare _) as [[sr sc]|].
    + destruct (_ && _); [by simplify_eq/=; auto|].
      destruct (isValidMove L _ _ _ _ _).
      * destruct (isInCheck L _ _ _); simplify_eq/=; [by auto|].
        split; [done|]. left. apply HL.
      * press_cases; simplify_eq/=; auto.
    + press_cases; simplify_eq/=; auto.
  - destruct (Z.geb_spec (getFor (removalsUsed (Budgeted.gameState a))
                            (currentPlayer (Budgeted.gameState a)))
                (Budgeted.removalsPerPlayer (Budgeted.gameConfig a)));
      [by simplify_eq; auto|].
    case_bool_decide; [by simplify_eq; auto|].
    destruct (getPiece _ _ _) as [[?|]|]; simplify_eq/=; auto 10.
Qed.

Lemma removalsLeft_step (a a' : Budgeted.App) (row col : Z)
    (alert : option Alert) :
  keepsLedger L →
  Budgeted.handleSquarePress L a row col = Returned a' alert →
  withinBudget a → withinBudget a'.
Proof.
  intros HL H Ha player.
  destruct (budgeted_press_ledger _ _ _ _ _ HL H)
    as [Hcfg [[_ Hused]|(_ & _ & Hused & Hleft)]];
    unfold removalsLeft; rewrite Hcfg, Hused; [apply Ha|].
  specialize (Ha player). unfold removalsLeft in Ha.
  destruct (currentPlayer _), player; simpl in *; lia.
Qed.

Lemma withinBudget_handle (a : Budgeted.App) (e : Budgeted.Event) :
  keepsLedger L → keepsSettings e = true →
  withinBudget a → withinBudget (Budgeted.handle L a e).
Proof.
  intros HL He Ha. destruct e as [row col|m| |player|s| |]; simpl; try done.
  - destruct (Budgeted.handleSquarePress L a row col) eqn:H; [done|].
    by eapply removalsLeft_step.
  - unfold Budgeted.timerTick, Budgeted.handleTimeUp. simpl.
    press_cases; simpl; done.
  - intros [|]; unfold removalsLeft; simpl; lia.
Qed.

(** X4.  With an engine that leaves the counts of removals alone, and as
    long as the settings are not changed, no player ever uses more removals
    than [removalsPerPlayer]: the number of removals left that the screen
    prints is never negative.  It holds at the start. *)
Theorem budget_never_exceeded (a : Budgeted.App) (es : list Budgeted.Event)
    (HL : keepsLedger L) (Ha : withinBudget a)
    (Hes : forallb keepsSettings es = true) :
  withinBudget (foldl (Budgeted.handle L) a es)
  ∧ withinBudget (Budgeted.initialApp L).
Proof.
  split; [|intros [|]; unfold removalsLeft; simpl; lia].
  revert a Ha. induction es as [|e es IH]; intros a Ha; [done|].
  simpl in Hes. apply andb_prop in Hes as [He Hes].
  simpl. apply IH; [done|]. by apply withinBudget_handle.
Qed.

Lemma ledgerCounted_press (a a' : Budgeted.App) (row col : Z)
    (alert : option Alert) :
  keepsLedger L →
  Budgeted.handleSquarePress L a row col = Returned a' alert →
  ledgerCounted (Budgeted.gameState a) → ledgerCounted (Budgeted.gameState a').
Proof.
  intros HL H Ha. unfold ledgerCounted in *.
  destruct (budgeted_press_ledger _ _ _ _ _ HL H)
    as [_ [[Hrs Hused]|(Hfresh & Hrs & Hused & _)]];
    rewrite Hrs, Hused; [done|].
  rewrite size_union by (by apply disjoint_singleton_l).
  rewrite size_singleton.
  destruct (currentPlayer _); simpl in *; lia.
Qed.

(** X5.  With an engine that leaves the ledger and the counts alone, on
    every state the screen with a budget reaches the two counts of removals
    add up to the number of removed squares. *)
Theorem removals_are_counted (es : list Budgeted.Event) (HL : keepsLedger L) :
  ledgerCounted (Budgeted.gameState (Budgeted.run L es)).
Proof.
  induction es as [|e es IH] using rev_ind; [done|].
  rewrite budgeted_run_snoc.
  destruct e as [row col|m| |player|s| |]; simpl; try done.
  - destruct (Budgeted.handleSquarePress L _ row col) eqn:H; [done|].
    by eapply ledgerCounted_press.
  - unfold Budgeted.timerTick, Budgeted.handleTimeUp. simpl.
    press_cases; simpl; done.
Qed.

Lemma ledger_grows_handle (a : Budgeted.App) (e : Budgeted.Event) :
  keepsLedger L → keepsGame e = true →
  removedSquares (Budgeted.gameState a)
  ⊆ removedSquares (Budgeted.gameState (Budgeted.handle L a e)).
Proof.
  intros HL He. destruct e as [row col|m| |player|s| |]; simpl; try done.
  - destruct (Budgeted.handleSquarePress L a row col) eqn:H; [done|].
    destruct (budgeted_press_ledger _ _ _ _ _ HL H)
      as [_ [[Hrs _]|(_ & Hrs & _)]]; rewrite Hrs; [done|].
    apply union_subseteq_r.
  - unfold Budgeted.timerTick, Budgeted.handleTimeUp. simpl.
    press_cases; simpl; done.
Qed.

(** X6.  With an engine that leaves the ledger alone, a removed square stays
    removed: short of a reset, no event takes a square out of
    [removedSquares]. *)
Theorem ledger_only_grows (a : Budgeted.App) (es : list Budgeted.Event)
    (HL : keepsLedger L) (Hes : forallb keepsGame es = true) :
  removedSquares (Budgeted.gameState a)
  ⊆ removedSquares (Budgeted.gameState (foldl (Budgeted.handle L) a es)).
Proof.
  revert a. induction es as [|e es IH]; intros a; [done|].
  simpl in Hes. apply andb_prop in Hes as [He Hes]. simpl.
  etrans; [by apply ledger_grows_handle|]. by apply IH.
Qed.

(** *** Selection and the moves shown *)

Lemma elem_of_allSquares (p : Position) : p ∈ allSquares ↔ onGrid p.
Proof.
  unfold allSquares, onGrid. destruct p as [r c]. cbn [fst snd]. split.
  - intros (r' & Hin & Hr)%list_elem_of_bind.
    apply list_elem_of_bind in Hin as (c' & Hin & Hc).
    apply list_elem_of_singleton in Hin. simplify_eq.
    apply elem_of_seqZ in Hr, Hc. lia.
  - intros [Hr Hc]. apply list_elem_of_bind.
    exists r. split; [|apply elem_of_seqZ; lia].
    apply list_elem_of_bind. exists c. split; [|apply elem_of_seqZ; lia].
    by apply list_elem_of_singleton.
Qed.

Lemma elem_of_computePossibleMoves (gs : GameState) (position to : Position) :
  to ∈ computePossibleMoves L gs position
  ↔ onGrid to ∧ isLegalMove L gs position to = true.
Proof.
  unfold computePossibleMoves, isLegalMove, leavesKingInCheck.
  rewrite list_elem_of_filter, elem_of_allSquares.
  split; intros [H1 H2]; split; try done.
  - by apply Is_true_eq_true in H1.
  - by apply Is_true_eq_left.
Qed.

(** A press that leaves the pressed square selected, in move mode and with
    the game on, is a selection: nothing else changes, and the moves of the
    square are computed. *)
Lemma budgeted_select_shape (a a' : Budgeted.App) (row col : Z)
    (alert : option Alert) :
  Budgeted.handleSquarePress L a row col = Returned a' alert →
  Budgeted.actionMode a = move →
  gameOver (Budgeted.gameState a) = false →
  selectedSquare (Budgeted.gameState a') = Some (row, col) →
  a' = Budgeted.mkApp (Budgeted.gameConfig a)
         (withSelectedSquare (Budgeted.gameState a) (Some (row, col))) move
         (computePossibleMoves L (Budgeted.gameState a) (row, col))
  ∧ alert = None.
Proof.
  intros H Hmode Hon Hsel. unfold_press. rewrite Hmode, Hon in H.
  destruct (selectedSquare (Budgeted.gameState a)) as [[sr sc]|] eqn:Hold;
    simpl in *.
  - rewrite same_square_decide in H.
    destruct (decide ((sr, sc) = (row, col))); settle_decides;
      [by simplify_eq/=|].
    destruct (isValidMove L _ _ _ _ _); simpl in *.
    + destruct (isInCheck L _ _ _); by simplify_eq/=.
    + press_cases; by simplify_eq/=.
  - press_cases; by simplify_eq/=.
Qed.

(** X7.  The squares shown as possible moves after a selection are exactly
    the squares of the grid on which the next press is an accepted move, and
    a press on any of them applies the move and passes the turn (for an
    engine whose verdict on a move does not depend on the square
    selected). *)
Theorem shown_moves_are_the_accepted_ones (a a' : Budgeted.App) (row col : Z)
    (alert : option Alert)
    (Hign : ignoresSelection L)
    (Hpress : Budgeted.handleSquarePress L a row col = Returned a' alert)
    (Hmode : Budgeted.actionMode a = move)
    (Hon : gameOver (Budgeted.gameState a) = false)
    (Hsel : selectedSquare (Budgeted.gameState a') = Some (row, col)) :
  ∀ to, to ≠ (row, col) →
    (to ∈ Budgeted.possibleMoves a'
     ↔ onGrid to
       ∧ isAcceptedMove L (Budgeted.gameState a') (Budgeted.actionMode a')
           to.1 to.2 = true)
    ∧ (to ∈ Budgeted.possibleMoves a' →
       ∃ a'' alert'',
         Budgeted.handleSquarePress L a' to.1 to.2 = Returned a'' alert''
         ∧ currentPlayer (Budgeted.gameState a'')
           = otherPlayer (currentPlayer (Budgeted.gameState a'))).
Proof.
  intros [tr tc] Hto.
  destruct (budgeted_select_shape _ _ _ _ _ Hpress Hmode Hon Hsel) as [-> ->].
  set (gs := Budgeted.gameState a) in *.
  set (gs' := withSelectedSquare gs (Some (row, col))).
  assert (Hlegal : isLegalMove L gs' (row, col) (tr, tc)
                   = isLegalMove L gs (row, col) (tr, tc)).
  { destruct (Hign (board gs) (row, col) (tr, tc) (removedSquares gs) gs
                (Some (row, col))) as [H1 H2].
    unfold isLegalMove, leavesKingInCheck, gs'. simpl in *. by rewrite H1, H2. }
  assert (Hattempt : moveAttempt gs' move tr tc = Some (row, col)).
  { unfold moveAttempt. simpl. by rewrite bool_decide_false. }
  simpl. split.
  - unfold isAcceptedMove. rewrite Hattempt, Hlegal.
    apply elem_of_computePossibleMoves.
  - intros [_ Hok]%elem_of_computePossibleMoves. rewrite <-Hlegal in Hok.
    unfold isLegalMove in Hok. apply andb_prop in Hok as [Hvalid Hsafe].
    apply negb_true_iff in Hsafe.
    pose proof (press_on_valid_move L (Budgeted.gameConfig a)
                  (computePossibleMoves L gs (row, col)) gs' move tr tc (row, col)
                  Hon Hattempt Hvalid) as Hgo.
    simpl in Hgo. rewrite Hsafe in Hgo. destruct Hgo as (alert'' & Hgo & _).
    eexists _, _. split; [exact Hgo|done].
Qed.

Lemma withSelectedSquare_back (gs : GameState) (s : option Position) :
  selectedSquare gs = None →
  withSelectedSquare (withSelectedSquare gs s) None = gs.
Proof. destruct gs. simpl. by intros ->. Qed.

(** X8.  Selecting a piece and pressing its square again is a round trip:
    the game state is back to what it was, with no moves shown.  Both
    versions. *)
Theorem select_then_deselect (cfg : Budgeted.GameConfig) (pm : list Position)
    (gs : GameState) (row col : Z)
    (Hon : gameOver gs = false)
    (Hnone : selectedSquare gs = None)
    (Hown : holdsOwnPiece gs row col) :
  let a := Budgeted.mkApp cfg gs move pm in
  let p := Plain.mkApp gs move in
  (∃ a1, Budgeted.handleSquarePress L a row col = Returned a1 None
     ∧ selectedSquare (Budgeted.gameState a1) = Some (row, col)
     ∧ Budgeted.handleSquarePress L a1 row col
       = Returned (Budgeted.mkApp cfg gs move []) None)
  ∧ (∃ p1, Plain.handleSquarePress L p row col = Returned p1 None
       ∧ selectedSquare (Plain.gameState p1) = Some (row, col)
       ∧ Plain.handleSquarePress L p1 row col = Returned p None).
Proof.
  intros a p. subst a p. destruct Hown as (pc & Hpiece & Hcolor).
  split; unfold_press;
    rewrite Hon, Hnone, Hpiece; simpl;
    rewrite (bool_decide_true _ Hcolor);
    eexists; (split; [reflexivity|]); simpl; (split; [done|]);
    rewrite Hon, !bool_decide_true by done; simpl;
    by rewrite withSelectedSquare_back.
Qed.

(** X9.  A press changes the settings never; a press that does not pass the
    turn changes nothing in the game state but the selection, and leaves the
    mode; a press that passes the turn leaves the mode at [move] and no moves
    shown.  Both versions. *)
Theorem press_frame (a a' : Budgeted.App) (p p' : Plain.App) (row col : Z)
    (alert alert' : option Alert)
    (Ha : Budgeted.handleSquarePress L a row col = Returned a' alert)
    (Hp : Plain.handleSquarePress L p row col = Returned p' alert') :
  let gs := Budgeted.gameState a in
  let gs' := Budgeted.gameState a' in
  let ps := Plain.gameState p in
  let ps' := Plain.gameState p' in
  Budgeted.gameConfig a' = Budgeted.gameConfig a
  ∧ (currentPlayer gs' = currentPlayer gs →
     sameButSelection gs gs' ∧ Budgeted.actionMode a' = Budgeted.actionMode a)
  ∧ (currentPlayer gs' ≠ currentPlayer gs →
     Budgeted.actionMode a' = move ∧ Budgeted.possibleMoves a' = [])
  ∧ (currentPlayer ps' = currentPlayer ps →
     sameButSelection ps ps' ∧ Plain.actionMode p' = Plain.actionMode p)
  ∧ (currentPlayer ps' ≠ currentPlayer ps → Plain.actionMode p' = move).
Proof.
  intros gs gs' ps ps'. subst gs gs' ps ps'. clear -Ha Hp.
  split_and!.
  - clear Hp. unfold_press. press_cases; by simplify_eq/=.
  - clear Hp. unfold_press. intros Hturn.
    press_cases; simplify_eq/=;
      first [ by destruct (otherPlayer_ne (currentPlayer (Budgeted.gameState a)))
            | split; [apply sameButSelection_refl|done]
            | split; [apply sameButSelection_with|done] ].
  - clear Hp. unfold_press. intros Hturn. press_cases; by simplify_eq/=.
  - clear Ha. unfold_press. intros Hturn.
    press_cases; simplify_eq/=;
      first [ by destruct (otherPlayer_ne (currentPlayer (Plain.gameState p)))
            | split; [apply sameButSelection_refl|done]
            | split; [apply sameButSelection_with|done] ].
  - clear Ha. unfold_press. intros Hturn. press_cases; by simplify_eq/=.
Qed.

(** *** The two versions side by side *)

Lemma withRemovalsUsed_same (gs : GameState) :
  withRemovalsUsed gs (removalsUsed gs) = gs.
Proof. by destruct gs. Qed.

(** X10.  As long as the quota is not what refuses a removal, the screen with
    a budget does what the screen without one does on the same state: the
    same throw or the same alert, mode and game state, the count of removals
    apart. *)
Theorem budget_is_the_only_difference (a : Budgeted.App) (row col : Z)
    (Hquota : Budgeted.actionMode a = remove →
              quotaExhausted (Budgeted.removalsPerPlayer (Budgeted.gameConfig a))
                (Budgeted.gameState a) = false) :
  agree (Budgeted.handleSquarePress L a row col)
    (Plain.handleSquarePress L (toPlain a) row col).
Proof.
  destruct a as [cfg gs mode pm]. unfold quotaExhausted in Hquota.
  unfold agree, toPlain. unfold_press.
  assert (Hsame : ∀ (alert : option Alert) (m : ActionMode),
            alert = alert ∧ m = m
            ∧ withRemovalsUsed gs (removalsUsed gs) = gs)
    by (intros; by rewrite withRemovalsUsed_same).
  destruct (gameOver gs); simpl; [apply Hsame|].
  destruct mode.
  - destruct (selectedSquare gs) as [[sr sc]|]; simpl.
    + destruct (_ && _); simpl; [done|].
      destruct (isValidMove L _ _ _ _ _); simpl.
      * destruct (isInCheck L _ _ _); simpl; [apply Hsame|done].
      * destruct (getPiece _ _ _) as [piece|]; [|done].
        destruct (ownedBy _ _); simpl; done.
    + destruct (getPiece _ _ _) as [piece|]; [|done].
      destruct (ownedBy _ _); simpl; [done|apply Hsame].
  - rewrite Hquota by done.
    destruct (bool_decide _); simpl; [apply Hsame|].
    destruct (getPiece _ _ _) as [[?|]|]; simpl; [apply Hsame|done|done].
Qed.

(** *** Presses off the board *)

(** X11.  A press on a row the board does not have throws before any state
    is set (unless the game is over, the quota is exhausted or the key is in
    the ledger, which return first); a press on a column its row does not
    have finds no piece there: in remove mode the square is removed like an
    empty one of the board, which passes the turn and uses up a removal.
    Both versions. *)
Theorem press_off_the_board (cfg : Budgeted.GameConfig) (pm : list Position)
    (gs : GameState) (row col : Z)
    (Hon : gameOver gs = false)
    (Hfresh : positionKey row col ∉ removedSquares gs)
    (Hquota : quotaExhausted (Budgeted.removalsPerPlayer cfg) gs = false)
    (Hnone : selectedSquare gs = None) :
  let used :=
    setFor (removalsUsed gs) (currentPlayer gs)
      (getFor (removalsUsed gs) (currentPlayer gs) + 1) in
  (index (board gs) row = None →
   ∀ mode,
     Budgeted.handleSquarePress L (Budgeted.mkApp cfg gs mode pm) row col = Threw
     ∧ Plain.handleSquarePress L (Plain.mkApp gs mode) row col = Threw)
  ∧ (∀ r, index (board gs) row = Some r → index r col = None →
     Budgeted.handleSquarePress L (Budgeted.mkApp cfg gs remove pm) row col
     = Returned (Budgeted.mkApp cfg (afterRemoval gs row col used) move []) None
     ∧ Plain.handleSquarePress L (Plain.mkApp gs remove) row col
       = Returned (Plain.mkApp (afterRemoval gs row col (removalsUsed gs)) move)
           None
     ∧ Budgeted.handleSquarePress L (Budgeted.mkApp cfg gs move pm) row col
       = Returned (Budgeted.mkApp cfg gs move pm) None).
Proof.
  intros used. subst used. unfold quotaExhausted in Hquota.
  unfold afterRemoval. unfold_press. unfold getPiece.
  rewrite Hon, Hnone, Hquota, bool_decide_false by done. split.
  - intros ->. by intros [|].
  - intros r -> ->. done.
Qed.

(** *** After the end *)

Lemma withTimeLeft_same (gs : GameState) : withTimeLeft gs (timeLeft gs) = gs.
Proof. by destruct gs. Qed.

Lemma withTimeLeft_withTimeLeft (gs : GameState) (t t' : PerPlayer Z) :
  withTimeLeft (withTimeLeft gs t) t' = withTimeLeft gs t'.
Proof. done. Qed.

Lemma finished_handle (a : Budgeted.App) (e : Budgeted.Event) :
  gameOver (Budgeted.gameState a) = true → keepsOutcome e = true →
  withTimeLeft (Budgeted.gameState (Budgeted.handle L a e))
    (timeLeft (Budgeted.gameState a)) = Budgeted.gameState a.
Proof.
  intros Hover He. destruct e as [row col|m| |player|s| |]; simpl; try done.
  - rewrite budgeted_press_over by done. by destruct (Budgeted.gameState a).
  - by destruct (Budgeted.gameState a).
  - unfold Budgeted.timerTick. rewrite Hover. simpl.
    by destruct (Budgeted.gameState a).
  - by destruct (Budgeted.gameState a).
  - by destruct (Budgeted.gameState a).
Qed.

(** X12.  Once the game is over, nothing but a reset changes the game: after
    any presses, mode changes, ticks of the clock, changes of settings and
    starts (a direct call of [handleTimeUp], which the clock never makes for
    a game that is over, apart) the game state is what it was, the clocks
    possibly apart, and a tick changes nothing at all. *)
Theorem finished_game_is_final (a : Budgeted.App) (es : list Budgeted.Event)
    (Hover : gameOver (Budgeted.gameState a) = true)
    (Hes : forallb keepsOutcome es = true) :
  withTimeLeft (Budgeted.gameState (foldl (Budgeted.handle L) a es))
    (timeLeft (Budgeted.gameState a)) = Budgeted.gameState a
  ∧ Budgeted.timerTick a = (a, None).
Proof.
  split; [|unfold Budgeted.timerTick; by rewrite Hover].
  revert a Hover. induction es as [|e es IH]; intros a Hover.
  { apply withTimeLeft_same. }
  simpl in Hes. apply andb_prop in Hes as [He Hes].
  pose proof (finished_handle a e Hover He) as Hstep.
  assert (Hover' : gameOver (Budgeted.gameState (Budgeted.handle L a e)) = true).
  { rewrite <-Hstep in Hover. exact Hover. }
  specialize (IH Hes _ Hover').
  change (foldl (Budgeted.handle L) a (e :: es))
    with (foldl (Budgeted.handle L) (Budgeted.handle L a e) es).
  rewrite <-(withTimeLeft_withTimeLeft _
               (timeLeft (Budgeted.gameState (Budgeted.handle L a e)))).
  by rewrite IH.
Qed.
End FurtherFacts.

(** *** The clocks' style *)

(** X13.  [ChessTimer] styles a clock as active for the player to move and
    for no one else, and for no one once the game is over; a clock in the
    critical style (at most 10 seconds) is in the low-time style (at most
    30) too. *)
Theorem timer_styles (timeLeft : PerPlayer Z) (currentPlayer : Player)
    (gameOver : bool) (player : Player) :
  let styles := getTimerStyle timeLeft currentPlayer gameOver player in
  (Some activeTimer ∈ styles ↔ gameOver = false ∧ player = currentPlayer)
  ∧ (Some lowTimeTimer ∈ styles ↔ getFor timeLeft player <= 30)
  ∧ (Some criticalTimeTimer ∈ styles ↔ getFor timeLeft player <= 10)
  ∧ (Some criticalTimeTimer ∈ styles → Some lowTimeTimer ∈ styles).
Proof.
  intros styles. subst styles. unfold getTimerStyle.
  assert (Hlist : ∀ (x : option TimerStyle) a b c d e,
            x ∈ [a; b; c; d; e] ↔ x = a ∨ x = b ∨ x = c ∨ x = d ∨ x = e).
  { intros. rewrite !elem_of_cons, elem_of_nil. tauto. }
  rewrite !Hlist.
  destruct (Z.leb_spec (getFor timeLeft player) 30),
    (Z.leb_spec (getFor timeLeft player) 10);
    destruct gameOver, currentPlayer, player; simpl in *;
    split_and!; try split; intros; try lia; try done;
    try (intuition (discriminate || lia || eauto)).
Qed.

(** *** The clock face *)

Lemma pretty_N_go_charFree (c : ascii) (x : N) (s : string) :
  (∀ d, Ascii.eqb (pretty_N_char d) c = false) →
  charFree c s = true → charFree c (pretty_N_go x s) = true.
Proof.
  intros Hc. revert s. induction (N.lt_wf_0 x) as [x _ IH]; intros s Hs.
  assert (x = 0 ∨ 0 < x)%N as [->|?] by lia.
  - by rewrite pretty_N_go_0.
  - rewrite pretty_N_go_step by done. apply IH.
    { by apply N.div_lt. }
    simpl. by rewrite Hc.
Qed.

Lemma pretty_N_char_no_colon (d : N) : Ascii.eqb (pretty_N_char d) ":"%char = false.
Proof. unfold pretty_N_char. by repeat case_match. Qed.

(** A number that is not negative prints without [":"]. *)
Lemma pretty_nonneg_no_colon (z : Z) :
  0 <= z → charFree ":"%char (pretty z) = true.
Proof.
  intros Hz. destruct z as [|x|x]; [done| |lia].
  unfold pretty, pretty_Z, pretty, pretty_positive, pretty, pretty_N.
  case_decide; [done|].
  apply pretty_N_go_charFree; [apply pretty_N_char_no_colon|done].
Qed.

Lemma split_at_char (c : ascii) (a b s t : string) :
  charFree c a = true → charFree c b = true →
  a +:+ String c s = b +:+ String c t → a = b ∧ s = t.
Proof.
  revert b. induction a as [|x a IH]; intros [|y b] Ha Hb Heq; simpl in *.
  - by simplify_eq.
  - injection Heq as <- _. by rewrite Ascii.eqb_refl in Hb.
  - injection Heq as -> _. by rewrite Ascii.eqb_refl in Ha.
  - apply andb_prop in Ha as [_ Ha]. apply andb_prop in Hb as [_ Hb].
    injection Heq as -> Heq. by destruct (IH b Ha Hb Heq) as [-> ->].
Qed.

(** The seconds of a minute print on two digits, the tens first. *)
Lemma seconds_two_digits (r : Z) :
  0 <= r < 60 →
  padStart 2 "0"%char (pretty r) = pretty (r / 10) +:+ pretty (r mod 10).
Proof.
  intros Hr.
  assert (Hall : forallb (fun r =>
            bool_decide (padStart 2 "0"%char (pretty r)
                         = pretty (r / 10) +:+ pretty (r mod 10)))
            (seqZ 0 60) = true) by (vm_compute; reflexivity).
  rewrite forallb_forall in Hall.
  eapply bool_decide_eq_true_1, Hall, list_elem_of_In, elem_of_seqZ. lia.
Qed.

Lemma seconds_inj (r r' : Z) :
  0 <= r < 60 → 0 <= r' < 60 →
  padStart 2 "0"%char (pretty r) = padStart 2 "0"%char (pretty r') → r = r'.
Proof.
  intros Hr Hr'.
  assert (Hall : forallb (fun r => forallb (fun r' =>
            bool_decide (padStart 2 "0"%char (pretty r)
                         = padStart 2 "0"%char (pretty r') → r = r'))
            (seqZ 0 60)) (seqZ 0 60) = true) by (vm_compute; reflexivity).
  rewrite forallb_forall in Hall.
  assert (Hin : In r (seqZ 0 60)) by (apply list_elem_of_In, elem_of_seqZ; lia).
  specialize (Hall r Hin). rewrite forallb_forall in Hall.
  eapply bool_decide_eq_true_1, Hall, list_elem_of_In, elem_of_seqZ. lia.
Qed.

(** X14.  For a whole number of seconds from 0 to [MAX_SAFE_INTEGER],
    [formatTime] prints the minutes, [":"], and the seconds of the minute on
    two digits; two such times that print the same are the same. *)
Theorem formatTime_reads_back (s t : Z)
    (Hs : 0 <= s <= MAX_SAFE_INTEGER) (Ht : 0 <= t <= MAX_SAFE_INTEGER) :
  formatTime s
  = pretty (s / 60) +:+ ":" +:+ pretty (s mod 60 / 10) +:+ pretty (s mod 60 mod 10)
  ∧ (formatTime s = formatTime t → s = t).
Proof.
  destruct Hs as [Hs _], Ht as [Ht _].
  unfold formatTime. rewrite !Z.rem_mod_nonneg by lia.
  pose proof (Z.mod_pos_bound s 60 ltac:(lia)) as Hrs.
  pose proof (Z.mod_pos_bound t 60 ltac:(lia)) as Hrt.
  split.
  - by rewrite seconds_two_digits.
  - intros Heq. apply split_at_char in Heq as [Hm Hr];
      [|apply pretty_nonneg_no_colon; by apply Z.div_pos..].
    apply (inj pretty) in Hm. apply seconds_inj in Hr; [|done..].
    rewrite (Z.div_mod s 60), (Z.div_mod t 60) by lia. lia.
Qed.

(** *** The further statements at work *)

Example formatTime_examples :
  formatTime 300 = "5:00" ∧ formatTime 65 = "1:05" ∧ formatTime 9 = "0:09"
  ∧ formatTime 0 = "0:00" ∧ formatTime (-5) = "-1:-5".
Proof. vm_compute. done. Qed.

Lemma clock_runs_down_witness :
  let a := Budgeted.initialApp Rules.logic in
  gameOver (Budgeted.gameState a) = false
  ∧ getFor (timeLeft (Budgeted.gameState a))
      (currentPlayer (Budgeted.gameState a)) = 300
  ∧ 1 <= 300
  ∧ foldl (Budgeted.handle Rules.logic) a (ticks 299) = tickedTo a 1
  ∧ foldl (Budgeted.handle Rules.logic) a (ticks 300)
    = (Budgeted.handleTimeUp (tickedTo a 1) white).1.
Proof.
  intros a.
  assert (Hon : gameOver (Budgeted.gameState a) = false) by reflexivity.
  assert (Ht : getFor (timeLeft (Budgeted.gameState a))
                 (currentPlayer (Budgeted.gameState a)) = 300) by reflexivity.
  assert (Hpos : 1 <= 300) by lia.
  pose proof (clock_runs_down Rules.logic a 300 Hon Ht Hpos) as (Hrun & Hlast & _).
  split_and!; [exact Hon|exact Ht|exact Hpos| |exact Hlast].
  exact (Hrun 299%nat ltac:(lia)).
Defined.

Lemma started_clock_forfeits_witness :
  let a := Budgeted.initialApp Rules.logic in
  let after n :=
    foldl (Budgeted.handle Rules.logic) a (Budgeted.Start :: ticks n) in
  gameOver (Budgeted.gameState a) = false
  ∧ 1 <= Budgeted.timeLimit (Budgeted.gameConfig a)
  ∧ gameOver (Budgeted.gameState (after (Z.to_nat (60 * 5)))) = true
  ∧ winner (Budgeted.gameState (after (Z.to_nat (60 * 5)))) = Some black.
Proof.
  intros a after.
  assert (Hon : gameOver (Budgeted.gameState a) = false) by reflexivity.
  assert (Hlimit : 1 <= Budgeted.timeLimit (Budgeted.gameConfig a))
    by (simpl; lia).
  pose proof (started_clock_forfeits Rules.logic a Hon Hlimit)
    as (_ & Hover & Hwinner & _).
  split_and!; [exact Hon|exact Hlimit|exact Hover|exact Hwinner].
Defined.

Lemma budget_never_exceeded_witness :
  let a := Budgeted.initialApp Rules.logic in
  let es := [Budgeted.Toggle remove; Budgeted.Press 4 4;
             Budgeted.Toggle remove; Budgeted.Press 3 3;
             Budgeted.Toggle remove; Budgeted.Press 4 5] in
  keepsLedger Rules.logic
  ∧ withinBudget a
  ∧ forallb keepsSettings es = true
  ∧ withinBudget (foldl (Budgeted.handle Rules.logic) a es).
Proof.
  intros a es.
  assert (HL : keepsLedger Rules.logic) by (intros gs from to; split; reflexivity).
  assert (Ha : withinBudget a) by (intros [|]; vm_compute; discriminate).
  assert (Hes : forallb keepsSettings es = true) by reflexivity.
  split_and!; [exact HL|exact Ha|exact Hes|].
  exact (proj1 (budget_never_exceeded Rules.logic a es HL Ha Hes)).
Defined.

Lemma removals_are_counted_witness :
  let es := [Budgeted.Toggle remove; Budgeted.Press 4 4;
             Budgeted.Toggle remove; Budgeted.Press 3 3] in
  keepsLedger Rules.logic
  ∧ ledgerCounted (Budgeted.gameState (Budgeted.run Rules.logic es))
  ∧ size (removedSquares (Budgeted.gameState (Budgeted.run Rules.logic es)))
    = 2%nat.
Proof.
  intros es.
  assert (HL : keepsLedger Rules.logic) by (intros gs from to; split; reflexivity).
  split_and!; [exact HL| |vm_compute; reflexivity].
  exact (removals_are_counted Rules.logic es HL).
Defined.

Lemma ledger_only_grows_witness :
  let a := Budgeted.run Rules.logic [Budgeted.Toggle remove; Budgeted.Press 4 4] in
  let es := [Budgeted.Press 1 4; Budgeted.Press 3 4; Budgeted.Tick] in
  keepsLedger Rules.logic
  ∧ forallb keepsGame es = true
  ∧ positionKey 4 4 ∈ removedSquares (Budgeted.gameState a)
  ∧ positionKey 4 4
    ∈ removedSquares
        (Budgeted.gameState (foldl (Budgeted.handle Rules.logic) a es)).
Proof.
  intros a es.
  assert (HL : keepsLedger Rules.logic) by (intros gs from to; split; reflexivity).
  assert (Hes : forallb keepsGame es = true) by reflexivity.
  assert (Hin : positionKey 4 4 ∈ removedSquares (Budgeted.gameState a))
    by (apply (bool_decide_eq_true_1
                 (positionKey 4 4 ∈ removedSquares (Budgeted.gameState a)));
        vm_compute; reflexivity).
  split_and!; [exact HL|exact Hes|exact Hin|].
  exact (ledger_only_grows Rules.logic a es HL Hes _ Hin).
Defined.

Lemma shown_moves_are_the_accepted_ones_witness :
  let a := Budgeted.initialApp Rules.logic in
  let a' := Budgeted.handle Rules.logic a (Budgeted.Press 6 4) in
  ignoresSelection Rules.logic
  ∧ Budgeted.handleSquarePress Rules.logic a 6 4 = Returned a' None
  ∧ Budgeted.actionMode a = move
  ∧ gameOver (Budgeted.gameState a) = false
  ∧ selectedSquare (Budgeted.gameState a') = Some (6, 4)
  ∧ Budgeted.possibleMoves a' = [(4, 4); (5, 4)]
  ∧ ((4, 4) ∈ Budgeted.possibleMoves a'
     ↔ onGrid (4, 4)
       ∧ isAcceptedMove Rules.logic (Budgeted.gameState a')
           (Budgeted.actionMode a') 4 4 = true).
Proof.
  intros a a'.
  assert (Hign : ignoresSelection Rules.logic)
    by (intros b from to rm gs s; split; reflexivity).
  assert (Hpress : Budgeted.handleSquarePress Rules.logic a 6 4 = Returned a' None)
    by (vm_compute; reflexivity).
  assert (Hmode : Budgeted.actionMode a = move) by reflexivity.
  assert (Hon : gameOver (Budgeted.gameState a) = false) by reflexivity.
  assert (Hsel : selectedSquare (Budgeted.gameState a') = Some (6, 4))
    by (vm_compute; reflexivity).
  split_and!; [exact Hign|exact Hpress|exact Hmode|exact Hon|exact Hsel
              |vm_compute; reflexivity|].
  exact (proj1 (shown_moves_are_the_accepted_ones Rules.logic a a' 6 4 None
                  Hign Hpress Hmode Hon Hsel (4, 4) ltac:(discriminate))).
Defined.

Lemma select_then_deselect_witness :
  let gs := Budgeted.initialGameState Rules.logic in
  let a := Budgeted.mkApp Games.config gs move [] in
  gameOver gs = false
  ∧ selectedSquare gs = None
  ∧ holdsOwnPiece gs 6 4
  ∧ ∃ a1, Budgeted.handleSquarePress Rules.logic a 6 4 = Returned a1 None
      ∧ selectedSquare (Budgeted.gameState a1) = Some (6, 4)
      ∧ Budgeted.handleSquarePress Rules.logic a1 6 4
        = Returned (Budgeted.mkApp Games.config gs move []) None.
Proof.
  intros gs a.
  assert (Hon : gameOver gs = false) by reflexivity.
  assert (Hnone : selectedSquare gs = None) by reflexivity.
  assert (Hown : holdsOwnPiece gs 6 4)
    by (exists (mkPiece pawn white); split; vm_compute; reflexivity).
  split_and!; [exact Hon|exact Hnone|exact Hown|].
  exact (proj1 (select_then_deselect Rules.logic Games.config [] gs 6 4
                  Hon Hnone Hown)).
Defined.

Lemma press_frame_witness :
  let a := Budgeted.run Rules.logic Games.e2Selected in
  let a' := Budgeted.handle Rules.logic a (Budgeted.Press 4 4) in
  let p := Plain.run Rules.logic [] in
  let p' := Plain.handle Rules.logic p (Plain.Press 4 4) in
  Budgeted.handleSquarePress Rules.logic a 4 4 = Returned a' None
  ∧ Plain.handleSquarePress Rules.logic p 4 4 = Returned p' None
  ∧ Budgeted.gameConfig a' = Budgeted.gameConfig a
  ∧ (currentPlayer (Budgeted.gameState a')
     ≠ currentPlayer (Budgeted.gameState a) →
     Budgeted.actionMode a' = move ∧ Budgeted.possibleMoves a' = [])
  ∧ (currentPlayer (Plain.gameState p') = currentPlayer (Plain.gameState p) →
     sameButSelection (Plain.gameState p) (Plain.gameState p')
     ∧ Plain.actionMode p' = Plain.actionMode p).
Proof.
  intros a a' p p'.
  assert (Ha : Budgeted.handleSquarePress Rules.logic a 4 4 = Returned a' None)
    by (vm_compute; reflexivity).
  assert (Hp : Plain.handleSquarePress Rules.logic p 4 4 = Returned p' None)
    by (vm_compute; reflexivity).
  pose proof (press_frame Rules.logic a a' p p' 4 4 None None Ha Hp)
    as (Hcfg & _ & Hturn & Hplain & _).
  split_and!; [exact Ha|exact Hp|exact Hcfg|exact Hturn|exact Hplain].
Defined.

Lemma budget_is_the_only_difference_witness :
  let a := Budgeted.run Rules.logic [Budgeted.Toggle remove] in
  (Budgeted.actionMode a = remove →
   quotaExhausted (Budgeted.removalsPerPlayer (Budgeted.gameConfig a))
     (Budgeted.gameState a) = false)
  ∧ agree (Budgeted.handleSquarePress Rules.logic a 4 4)
      (Plain.handleSquarePress Rules.logic (toPlain a) 4 4).
Proof.
  intros a.
  assert (Hquota : Budgeted.actionMode a = remove →
            quotaExhausted (Budgeted.removalsPerPlayer (Budgeted.gameConfig a))
              (Budgeted.gameState a) = false) by (intros _; reflexivity).
  split; [exact Hquota|].
  exact (budget_is_the_only_difference Rules.logic a 4 4 Hquota).
Defined.

Lemma press_off_the_board_witness :
  let gs := Budgeted.initialGameState Rules.logic in
  gameOver gs = false
  ∧ (positionKey 3 8 ∉ removedSquares gs)
  ∧ quotaExhausted 3 gs = false
  ∧ selectedSquare gs = None
  ∧ index (board gs) 8 = None
  ∧ Budgeted.handleSquarePress Rules.logic
      (Budgeted.mkApp Games.config gs move []) 8 0 = Threw
  ∧ (∃ r, index (board gs) 3 = Some r ∧ index r 8 = None)
  ∧ Plain.handleSquarePress Rules.logic (Plain.mkApp gs remove) 3 8
    = Returned (Plain.mkApp (afterRemoval gs 3 8 (removalsUsed gs)) move) None.
Proof.
  intros gs.
  assert (Hon : gameOver gs = false) by reflexivity.
  assert (Hfresh : ∀ row col, positionKey row col ∉ removedSquares gs)
    by (intros row col; apply not_elem_of_empty).
  assert (Hquota : quotaExhausted 3 gs = false) by reflexivity.
  assert (Hnone : selectedSquare gs = None) by reflexivity.
  assert (Hrow : index (board gs) 8 = None) by reflexivity.
  assert (Hcol : index (board gs) 3 = Some (replicate 8 None)) by reflexivity.
  split_and!; [exact Hon|apply Hfresh|exact Hquota|exact Hnone|exact Hrow| | |].
  - exact (proj1 (proj1 (press_off_the_board Rules.logic Games.config [] gs 8 0
                           Hon (Hfresh 8 0) Hquota Hnone) Hrow move)).
  - exists (replicate 8 None). split; [exact Hcol|reflexivity].
  - exact (proj1 (proj2 (proj2 (press_off_the_board Rules.logic Games.config []
                                  gs 3 8 Hon (Hfresh 3 8) Hquota Hnone)
                           (replicate 8 None) Hcol eq_refl))).
Defined.

Lemma finished_game_is_final_witness :
  let a := Budgeted.run Rules.logic (Games.beforeMate ++ [Budgeted.Press 4 7]) in
  let es := [Budgeted.Press 6 4; Budgeted.Toggle remove; Budgeted.Press 4 4;
             Budgeted.Tick; Budgeted.Start] in
  gameOver (Budgeted.gameState a) = true
  ∧ forallb keepsOutcome es = true
  ∧ withTimeLeft
      (Budgeted.gameState (foldl (Budgeted.handle Rules.logic) a es))
      (timeLeft (Budgeted.gameState a)) = Budgeted.gameState a.
Proof.
  intros a es.
  assert (Hover : gameOver (Budgeted.gameState a) = true)
    by (vm_compute; reflexivity).
  assert (Hes : forallb keepsOutcome es = true) by reflexivity.
  split_and!; [exact Hover|exact Hes|].
  exact (proj1 (finished_game_is_final Rules.logic a es Hover Hes)).
Defined.

Lemma formatTime_reads_back_witness :
  0 <= 65 <= MAX_SAFE_INTEGER
  ∧ 0 <= 125 <= MAX_SAFE_INTEGER
  ∧ formatTime 65 = "1:05"
  ∧ formatTime 125 = "2:05"
  ∧ formatTime MAX_SAFE_INTEGER = "150119987579016:31"
  ∧ formatTime 65 = pretty (65 / 60) +:+ ":" +:+ pretty (65 mod 60 / 10)
                    +:+ pretty (65 mod 60 mod 10)
  ∧ (formatTime 65 = formatTime 125 → 65 = 125).
Proof.
  assert (Hs : 0 <= 65 <= MAX_SAFE_INTEGER) by (unfold MAX_SAFE_INTEGER; lia).
  assert (Ht : 0 <= 125 <= MAX_SAFE_INTEGER) by (unfold MAX_SAFE_INTEGER; lia).
  refine (conj Hs (conj Ht _)).
  split_and!; [vm_compute; reflexivity..| |];
    apply (formatTime_reads_back 65 125 Hs Ht).
Defined.
